(** * verifai: message router, dialogue tracker and coordinator workflow

    A shallow embedding of the coordination core of the repository:

    - [verifai/models/messages.py]   the message vocabulary,
    - [verifai/comms/dialogue.py]    [DialogueManager],
    - [uvm_ai/comms/message_bus.py]  [MessageBus],
    - [uvm_ai/agents/base.py]        [call_llm] and [send_message],
    - [verifai/agents/orchestrator.py]  [_extract_json], [analyze_dut],
      [_handle_plan_response] and [_handle_coverage_report].

    Python objects are records, [dict]s keyed by strings are [gmap]s (or
    association lists where the iteration order is observable), [int] is [Z],
    [float] is the IEEE-754 decoding [spec_float], [Optional] is [option].
    Mutation of [self] is explicit state passing.

    [publish] is embedded twice.  [MessageBus.publish] takes subscribers
    that run in one piece on a state of their own; [Loop.publish] takes
    coroutines that the event loop interleaves and that act on the whole
    process, the bus and the publishing agent included, and whose call may
    raise.  The first is the second for the simpler subscribers
    ([publish_inert], [send_message_bystanders]). *)

From Stdlib Require Import ZArith String Ascii List Bool Lia.
From Stdlib Require Import Floats.SpecFloat.
From stdpp Require Import base option list gmap strings pretty fin_maps.

Open Scope string_scope.
Open Scope list_scope.
Open Scope Z_scope.

(** ** Values shared by all modules *)

(** [dict[str, Any]] payloads and the result of [json.loads]. *)
#[local] Set Warnings "-register-all".
Inductive json : Type :=
  | JNull
  | JBool (b : bool)
  | JInt (z : Z)
  | JFloat (f : spec_float)
  | JStr (s : string)
  | JList (l : list json)
  | JDict (items : list (string * json)).

(** Python [float]: binary64, decoded.  Comparison operators are the IEEE
    ones: every comparison with a NaN is false. *)
Abbreviation float := spec_float (only parsing).

Definition float_lt (x y : float) : bool := SFltb x y.   (* x < y  *)
Definition float_ge (x y : float) : bool := SFleb y x.   (* x >= y *)

(** Binary64 literals used by the sources, with canonical 53-bit mantissas. *)
Definition f_0_0 : float := S754_zero false.
Definition f_1_0 : float := S754_finite false 4503599627370496 (-52).
Definition f_10_0 : float := S754_finite false 5629499534213120 (-49).
Definition f_73_5 : float := S754_finite false 5172102697058304 (-46).
Definition f_80_0 : float := S754_finite false 5629499534213120 (-46).
Definition f_95_0 : float := S754_finite false 6685030696878080 (-46).
Definition f_100_0 : float := S754_finite false 7036874417766400 (-46).
Definition f_100000_0 : float := S754_finite false 6871947673600000 (-36).

(** ** verifai/models/messages.py *)

Inductive MessagePriority := LOW | NORMAL | HIGH | CRITICAL.

(** The fields every [AgentMessage] carries.  [id] and [timestamp] are
    produced by default factories ([uuid4], [datetime.now]) when the caller
    passes none; [timestamp] is kept as an abstract instant. *)
Record AgentMessageBase := {
  m_id : string;
  m_sender : string;
  m_recipient : string;
  m_timestamp : Z;
  m_priority : MessagePriority;
  m_correlation_id : option string;
  m_metadata : list (string * json);
}.

Record PlanRequest := {
  rq_base : AgentMessageBase;
  rq_component_name : string;
  rq_spec : list (string * json);
  rq_instructions : string;
  rq_context : list (string * json);
}.

Record PlanResponse := {
  rs_base : AgentMessageBase;
  rs_component_name : string;
  rs_proposed_code : string;
  rs_proposed_plan : list (string * json);
  rs_notes : list string;
  rs_confidence : float;
}.

Record ReviewFeedback := {
  fb_base : AgentMessageBase;
  fb_component_name : string;
  fb_approved : bool;
  fb_issues : list string;
  fb_suggestions : list string;
  fb_revised_spec : list (string * json);
}.

Record InterfaceContract := {
  ic_base : AgentMessageBase;
  ic_interface_name : string;
  ic_transaction_type : string;
  ic_fields : list (list (string * json));
  ic_constraints : list string;
  ic_protocol_notes : string;
}.

Record SequenceProposal := {
  sp_base : AgentMessageBase;
  sp_sequence_name : string;
  sp_target_scenario : string;
  sp_sequence_code : string;
  sp_expected_coverage_impact : list string;
}.

(** [coverage_bins] is a [dict[str, float]]; the orchestrator iterates over
    its [items()], so the insertion order is kept. *)
Record CoverageReport := {
  cr_base : AgentMessageBase;
  cr_overall_coverage : float;
  cr_coverage_bins : list (string * float);
  cr_uncovered_scenarios : list string;
  cr_suggestions : list string;
}.

Record CoverageDirective := {
  cd_base : AgentMessageBase;
  cd_target_bins : list string;
  cd_target_scenarios : list string;
  cd_constraints : list string;
  cd_priority_order : list string;
}.

Record CodeArtifact := {
  ca_base : AgentMessageBase;
  ca_filename : string;
  ca_content : string;
  ca_language : string;
  ca_component_type : string;
  ca_overwrite : bool;
}.

(** A value of static type [AgentMessage]: an instance of the base class or
    of one of its eight subclasses. *)
Inductive AgentMessage :=
  | MsgBase (b : AgentMessageBase)
  | MsgPlanRequest (m : PlanRequest)
  | MsgPlanResponse (m : PlanResponse)
  | MsgReviewFeedback (m : ReviewFeedback)
  | MsgInterfaceContract (m : InterfaceContract)
  | MsgSequenceProposal (m : SequenceProposal)
  | MsgCoverageReport (m : CoverageReport)
  | MsgCoverageDirective (m : CoverageDirective)
  | MsgCodeArtifact (m : CodeArtifact).

Definition base (m : AgentMessage) : AgentMessageBase :=
  match m with
  | MsgBase b => b
  | MsgPlanRequest m => rq_base m
  | MsgPlanResponse m => rs_base m
  | MsgReviewFeedback m => fb_base m
  | MsgInterfaceContract m => ic_base m
  | MsgSequenceProposal m => sp_base m
  | MsgCoverageReport m => cr_base m
  | MsgCoverageDirective m => cd_base m
  | MsgCodeArtifact m => ca_base m
  end.

Definition sender (m : AgentMessage) : string := m_sender (base m).
Definition recipient (m : AgentMessage) : string := m_recipient (base m).

(** The classes of the message hierarchy, as first-class [type] values. *)
Inductive msg_class :=
  | AgentMessage_cls | PlanRequest_cls | PlanResponse_cls | ReviewFeedback_cls
  | InterfaceContract_cls | SequenceProposal_cls | CoverageReport_cls
  | CoverageDirective_cls | CodeArtifact_cls.

#[global] Instance msg_class_eq_dec : EqDecision msg_class.
Proof. solve_decision. Defined.

(** [type(message)] *)
Definition class_of (m : AgentMessage) : msg_class :=
  match m with
  | MsgBase _ => AgentMessage_cls
  | MsgPlanRequest _ => PlanRequest_cls
  | MsgPlanResponse _ => PlanResponse_cls
  | MsgReviewFeedback _ => ReviewFeedback_cls
  | MsgInterfaceContract _ => InterfaceContract_cls
  | MsgSequenceProposal _ => SequenceProposal_cls
  | MsgCoverageReport _ => CoverageReport_cls
  | MsgCoverageDirective _ => CoverageDirective_cls
  | MsgCodeArtifact _ => CodeArtifact_cls
  end.

(** [isinstance(message, msg_type)]: every subclass derives directly from
    [AgentMessage]. *)
Definition isinstance (m : AgentMessage) (msg_type : msg_class) : bool :=
  bool_decide (msg_type = AgentMessage_cls) || bool_decide (msg_type = class_of m).

(** [message.message_type], i.e. [self.__class__.__name__]. *)
Definition message_type (m : AgentMessage) : string :=
  match class_of m with
  | AgentMessage_cls => "AgentMessage"
  | PlanRequest_cls => "PlanRequest"
  | PlanResponse_cls => "PlanResponse"
  | ReviewFeedback_cls => "ReviewFeedback"
  | InterfaceContract_cls => "InterfaceContract"
  | SequenceProposal_cls => "SequenceProposal"
  | CoverageReport_cls => "CoverageReport"
  | CoverageDirective_cls => "CoverageDirective"
  | CodeArtifact_cls => "CodeArtifact"
  end.

(** Truth value of an [Optional[str]]: [None] and the empty string are
    falsy. *)
Definition truthy (cid : option string) : bool :=
  match cid with
  | None => false
  | Some s => negb (bool_decide (s = ""))
  end.

(** ** verifai/comms/dialogue.py *)

Inductive DialogueState :=
  | PENDING | IN_PROGRESS | AWAITING_REVIEW | REVISION_REQUESTED
  | APPROVED | FAILED.

#[global] Instance DialogueState_eq_dec : EqDecision DialogueState.
Proof. solve_decision. Defined.

Record DialogueEntry := {
  correlation_id : string;
  requester : string;
  responder : string;
  state : DialogueState;
  request : option PlanRequest;
  response : option PlanResponse;
  feedback : option ReviewFeedback;
  revision_count : Z;
  max_revisions : Z;
}.

(** In-place attribute assignments on an entry. *)
Definition set_response (v : PlanResponse) (e : DialogueEntry) : DialogueEntry :=
  {| correlation_id := correlation_id e; requester := requester e;
     responder := responder e; state := state e; request := request e;
     response := Some v; feedback := feedback e;
     revision_count := revision_count e; max_revisions := max_revisions e |}.

Definition set_feedback (v : ReviewFeedback) (e : DialogueEntry) : DialogueEntry :=
  {| correlation_id := correlation_id e; requester := requester e;
     responder := responder e; state := state e; request := request e;
     response := response e; feedback := Some v;
     revision_count := revision_count e; max_revisions := max_revisions e |}.

Definition set_state (v : DialogueState) (e : DialogueEntry) : DialogueEntry :=
  {| correlation_id := correlation_id e; requester := requester e;
     responder := responder e; state := v; request := request e;
     response := response e; feedback := feedback e;
     revision_count := revision_count e; max_revisions := max_revisions e |}.

Definition set_revision_count (v : Z) (e : DialogueEntry) : DialogueEntry :=
  {| correlation_id := correlation_id e; requester := requester e;
     responder := responder e; state := state e; request := request e;
     response := response e; feedback := feedback e;
     revision_count := v; max_revisions := max_revisions e |}.

Module DialogueManager.

Record t := {
  _dialogues : gmap string DialogueEntry;
  _max_revisions : Z;
}.

(** [DialogueManager(max_revisions)] *)
Definition __init__ (max_revisions : Z) : t :=
  {| _dialogues := ∅; _max_revisions := max_revisions |}.

Definition with_dialogues (self : t) (d : gmap string DialogueEntry) : t :=
  {| _dialogues := d; _max_revisions := _max_revisions self |}.

(** [start_dialogue]: builds the entry and stores it under [request.id]
    with a plain item assignment; the entry is returned. *)
Definition start_dialogue (self : t) (req : PlanRequest) : t * DialogueEntry :=
  let entry :=
    {| correlation_id := m_id (rq_base req);
       requester := m_sender (rq_base req);
       responder := m_recipient (rq_base req);
       state := IN_PROGRESS;
       request := Some req;
       response := None;
       feedback := None;
       revision_count := 0;
       max_revisions := _max_revisions self |} in
  (with_dialogues self (<[m_id (rq_base req) := entry]> (_dialogues self)), entry).

(** [cid in self._dialogues]; [None] is never a key. *)
Definition contains (self : t) (cid : option string) : bool :=
  match cid with
  | Some k => bool_decide (is_Some (_dialogues self !! k))
  | None => false
  end.

(** [self._dialogues[cid]] *)
Definition getitem (self : t) (cid : option string) : option (string * DialogueEntry) :=
  k ← cid; entry ← _dialogues self !! k; Some (k, entry).

(** [record_response]: the entry is a mutable object held by the dict, so
    the attribute assignments are visible through the map. *)
Definition record_response (self : t) (resp : PlanResponse)
  : t * option DialogueEntry :=
  let cid := m_correlation_id (rs_base resp) in
  if negb (truthy cid) || negb (contains self cid) then (self, None)
  else
    match getitem self cid with
    | None => (self, None) (* excluded by the guard *)
    | Some (k, entry) =>
        let entry := set_response resp entry in
        let entry := set_state AWAITING_REVIEW entry in
        (with_dialogues self (<[k := entry]> (_dialogues self)), Some entry)
    end.

Definition record_feedback (self : t) (fb : ReviewFeedback)
  : t * option DialogueEntry :=
  let cid := m_correlation_id (fb_base fb) in
  if negb (truthy cid) || negb (contains self cid) then (self, None)
  else
    match getitem self cid with
    | None => (self, None) (* excluded by the guard *)
    | Some (k, entry) =>
        let entry := set_feedback fb entry in
        let entry :=
          if fb_approved fb then set_state APPROVED entry
          else
            let entry := set_revision_count (revision_count entry + 1) entry in
            if Z.leb (max_revisions entry) (revision_count entry)
            then set_state FAILED entry
            else set_state REVISION_REQUESTED entry in
        (with_dialogues self (<[k := entry]> (_dialogues self)), Some entry)
    end.

Definition get_dialogue (self : t) (cid : string) : option DialogueEntry :=
  _dialogues self !! cid.

(** [dict.values()], up to order: Python yields the entries in the order
    their keys were first inserted, the map yields them in the order of
    the keys.  What is said of this list and of the two queries built on
    it holds of the Python lists as far as it does not depend on the
    order (membership, counts). *)
Definition all_dialogues (self : t) : list DialogueEntry :=
  snd <$> map_to_list (_dialogues self).

Definition is_terminal (s : DialogueState) : bool :=
  bool_decide (s = APPROVED) || bool_decide (s = FAILED).

Definition get_active_dialogues (self : t) : list DialogueEntry :=
  List.filter (fun d => negb (is_terminal (state d))) (all_dialogues self).

Definition get_dialogues_for_agent (self : t) (agent_name : string)
  : list DialogueEntry :=
  List.filter
    (fun d => bool_decide (requester d = agent_name)
              || bool_decide (responder d = agent_name))
    (all_dialogues self).

(** A correlation id that names no tracked dialogue. *)
Definition untracked (self : t) (cid : option string) : Prop :=
  match cid with
  | None => True
  | Some k => _dialogues self !! k = None
  end.

(** The attribute updates of [record_feedback] on the entry it found. *)
Definition after_feedback (fb : ReviewFeedback) (e : DialogueEntry) : DialogueEntry :=
  if fb_approved fb then set_state APPROVED (set_feedback fb e)
  else
    let e1 := set_revision_count (revision_count e + 1) (set_feedback fb e) in
    if Z.leb (max_revisions e1) (revision_count e1)
    then set_state FAILED e1 else set_state REVISION_REQUESTED e1.

End DialogueManager.

(** ** Exceptions and awaitable callbacks *)

(** A raised [Exception], kept as its class name. *)
Definition exn := string.

Inductive result (A : Type) :=
  | Ok (a : A)
  | Raise (exc : exn).
Arguments Ok {A} a.
Arguments Raise {A} exc.

(** How a coroutine ended when it was awaited to completion. *)
Inductive outcome :=
  | Returned
  | Raised (exc : exn).

(** [Subscriber = Callable[[AgentMessage], Coroutine[Any, Any, None]]].
    Subscribers are compared with [==] by [in] and [list.remove].

    [await_callback] describes the subscribers of the simplest kind: the
    call only builds a coroutine object, and awaiting it runs the body in
    one piece against a state of its own ([World]), ending by returning or
    by raising an [Exception].  Such a subscriber is never suspended half
    way, never touches the bus that is delivering to it or the agent that
    publishes, and raises neither when it is called nor past the event
    loop.  Subscribers without these limits are those of [Loop] below. *)
Class Callbacks (Subscriber World : Type) := {
  Subscriber_eq_dec :: EqDecision Subscriber;
  await_callback : Subscriber -> AgentMessage -> World -> World * outcome;
}.

(** [list.remove(x)]: drops the first element equal to [x]. *)
Fixpoint list_remove_first {A} `{EqDecision A} (x : A) (l : list A) : list A :=
  match l with
  | [] => []
  | y :: l' => if decide (x = y) then l' else y :: list_remove_first x l'
  end.

(** [d[k].append(v)] on a [defaultdict(list)] whose iteration order is
    observable: an existing key keeps its position, a new key goes last. *)
Fixpoint assoc_append {K V} `{EqDecision K} (k : K) (v : V)
    (d : list (K * list V)) : list (K * list V) :=
  match d with
  | [] => [(k, [v])]
  | (k', vs) :: d' =>
      if decide (k = k') then (k', vs ++ [v]) :: d'
      else (k', vs) :: assoc_append k v d'
  end.

(** ** uvm_ai/comms/message_bus.py *)

Module MessageBus.
Section Bus.
Context {Subscriber World : Type} `{!Callbacks Subscriber World}.

(** [_lock] only serialises the history append and has no sequential
    content. *)
Record t := {
  _subscribers : gmap string (list Subscriber);
  _type_subscribers : list (msg_class * list Subscriber);
  _history : list AgentMessage;
}.

Definition __init__ : t :=
  {| _subscribers := ∅; _type_subscribers := []; _history := [] |}.

Definition with_subscribers (self : t) (s : gmap string (list Subscriber)) : t :=
  {| _subscribers := s; _type_subscribers := _type_subscribers self;
     _history := _history self |}.

Definition with_type_subscribers (self : t)
    (s : list (msg_class * list Subscriber)) : t :=
  {| _subscribers := _subscribers self; _type_subscribers := s;
     _history := _history self |}.

Definition with_history (self : t) (h : list AgentMessage) : t :=
  {| _subscribers := _subscribers self;
     _type_subscribers := _type_subscribers self; _history := h |}.

(** [self._subscribers.get(channel, [])] *)
Definition subscribers_get (self : t) (channel : string) : list Subscriber :=
  default [] (_subscribers self !! channel).

(** [self._subscribers[channel].append(callback)] on a [defaultdict(list)]. *)
Definition subscribe (self : t) (channel : string) (callback : Subscriber) : t :=
  with_subscribers self
    (<[channel := subscribers_get self channel ++ [callback]]> (_subscribers self)).

Definition subscribe_type (self : t) (msg_type : msg_class)
    (callback : Subscriber) : t :=
  with_type_subscribers self
    (assoc_append msg_type callback (_type_subscribers self)).

Definition unsubscribe (self : t) (channel : string) (callback : Subscriber) : t :=
  let subs := subscribers_get self channel in
  if bool_decide (callback ∈ subs)
  then with_subscribers self
         (<[channel := list_remove_first callback subs]> (_subscribers self))
  else self.

(** A coroutine object [cb(message)] that has not been awaited yet. *)
Definition Coroutine : Type := Subscriber * AgentMessage.

(** The local [tasks] of [publish] once both loops have run. *)
Definition channel_tasks (self : t) (channel : string) (message : AgentMessage)
  : list Coroutine :=
  (fun cb => (cb, message)) <$> subscribers_get self channel.

Definition type_tasks (self : t) (message : AgentMessage) : list Coroutine :=
  flat_map
    (fun '(msg_type, cbs) =>
       if isinstance message msg_type
       then (fun cb => (cb, message)) <$> cbs
       else [])
    (_type_subscribers self).

Definition publish_tasks (self : t) (channel : string) (message : AgentMessage)
  : list Coroutine :=
  channel_tasks self channel message ++ type_tasks self message.

(** Running the awaitables of one [gather] call when none of them is
    suspended before its end: each is wrapped in a task and runs to
    completion whatever became of its siblings, in list order, which is the
    order the event loop starts them.  Coroutines that are suspended are
    interleaved by the event loop: see [Loop.await_all]. *)
Fixpoint run_tasks (tasks : list Coroutine) (w : World) : World * list outcome :=
  match tasks with
  | [] => (w, [])
  | (cb, message) :: rest =>
      let '(w1, o) := await_callback cb message w in
      let '(w2, os) := run_tasks rest w1 in
      (w2, o :: os)
  end.

Fixpoint first_exception (os : list outcome) : option exn :=
  match os with
  | [] => None
  | Raised e :: _ => Some e
  | Returned :: os' => first_exception os'
  end.

(** [await asyncio.gather] over the unpacked [tasks]: with
    [return_exceptions=True] exceptions are results like any other; without
    it the first one is raised to the awaiter. *)
Definition gather (return_exceptions : bool) (tasks : list Coroutine) (w : World)
  : World * result (list outcome) :=
  let '(w', os) := run_tasks tasks w in
  if return_exceptions then (w', Ok os)
  else match first_exception os with
       | Some e => (w', Raise e)
       | None => (w', Ok os)
       end.

(** The outcome of one [publish] call: the bus, the state the callbacks act
    on, whether the call returned, and the results [gather] produced (which
    the source discards). *)
Record published := {
  pub_bus : t;
  pub_world : World;
  pub_result : result unit;
  pub_outcomes : list outcome;
}.

(** [publish] for the subscribers of [Callbacks].  It is [Loop.publish]
    for them ([publish_inert] below); [Loop.publish] is the embedding of the
    method for subscribers of any kind. *)
Definition publish (self : t) (channel : string) (message : AgentMessage)
    (w : World) : published :=
  let self := with_history self (_history self ++ [message]) in
  let tasks := publish_tasks self channel message in
  match tasks with
  | [] => {| pub_bus := self; pub_world := w; pub_result := Ok tt;
             pub_outcomes := [] |}
  | _ :: _ =>
      match gather true tasks w with
      | (w', Ok os) => {| pub_bus := self; pub_world := w';
                          pub_result := Ok tt; pub_outcomes := os |}
      | (w', Raise e) => {| pub_bus := self; pub_world := w';
                            pub_result := Raise e; pub_outcomes := [] |}
      end
  end.

Definition send (self : t) (message : AgentMessage) (w : World) : published :=
  publish self (recipient message) message w.

(** The [history] property returns a copy of the list. *)
Definition history (self : t) : list AgentMessage := _history self.

Definition get_history_for (self : t) (agent_name : string) : list AgentMessage :=
  List.filter
    (fun m => bool_decide (sender m = agent_name)
              || bool_decide (recipient m = agent_name))
    (_history self).

Definition clear_history (self : t) : t := with_history self [].

(** The calls a client can make on the router. *)
Inductive call :=
  | Subscribe (channel : string) (callback : Subscriber)
  | SubscribeType (msg_type : msg_class) (callback : Subscriber)
  | Unsubscribe (channel : string) (callback : Subscriber)
  | Publish (channel : string) (message : AgentMessage)
  | Send (message : AgentMessage)
  | History
  | GetHistoryFor (agent_name : string)
  | ClearHistory.

Definition perform (c : call) (st : t * World) : t * World :=
  let '(self, w) := st in
  match c with
  | Subscribe channel cb => (subscribe self channel cb, w)
  | SubscribeType msg_type cb => (subscribe_type self msg_type cb, w)
  | Unsubscribe channel cb => (unsubscribe self channel cb, w)
  | Publish channel message =>
      let r := publish self channel message w in (pub_bus r, pub_world r)
  | Send message =>
      let r := send self message w in (pub_bus r, pub_world r)
  | History => (self, w)
  | GetHistoryFor _ => (self, w)
  | ClearHistory => (clear_history self, w)
  end.

(** How many of [tasks] are calls of [cb]. *)
Definition invocations (cb : Subscriber) (tasks : list Coroutine) : nat :=
  count_occ Subscriber_eq_dec (fst <$> tasks) cb.

(** How many times [cb] is registered on [channel]. *)
Definition registrations (self : t) (channel : string) (cb : Subscriber) : nat :=
  count_occ Subscriber_eq_dec (subscribers_get self channel) cb.

Definition perform_all (cs : list call) (st : t * World) : t * World :=
  fold_left (fun st c => perform c st) cs st.

End Bus.
Arguments t : clear implicits.
Arguments call : clear implicits.
Arguments published : clear implicits.
End MessageBus.

(** ** Python [str] operations used by [_extract_json]

    A [str] is kept as a sequence of 8-bit characters (code points below
    256). *)

Definition NL : string := String (ascii_of_nat 10) "".

(** [str.isspace] on one character of that range. *)
Definition isspace (c : ascii) : bool :=
  let n := nat_of_ascii c in
  ((9 <=? n) && (n <=? 13) || (28 <=? n) && (n <=? 32)
   || (n =? 133) || (n =? 160))%nat.

Fixpoint lstrip (s : string) : string :=
  match s with
  | EmptyString => EmptyString
  | String c r => if isspace c then lstrip r else s
  end.

Fixpoint rstrip (s : string) : string :=
  match s with
  | EmptyString => EmptyString
  | String c r =>
      match rstrip r with
      | EmptyString => if isspace c then EmptyString else String c EmptyString
      | r' => String c r'
      end
  end.

Definition strip (s : string) : string := rstrip (lstrip s).

Definition startswith (s p : string) : bool := String.prefix p s.

(** [s.find(sub)]: lowest index of [sub] in [s], or [-1]. *)
Definition find (s sub : string) : Z :=
  match String.index 0 sub s with
  | Some i => Z.of_nat i
  | None => -1
  end.

(** [s.rfind(sub)]: highest index of [sub] in [s], or [-1]; [i] is the
    index of the first character of [s] in the whole string. *)
Fixpoint rfind_from (i : Z) (s sub : string) : Z :=
  match s with
  | EmptyString => if String.prefix sub s then i else -1
  | String _ r =>
      let later := rfind_from (i + 1) r sub in
      if negb (later =? -1) then later
      else if String.prefix sub s then i else -1
  end.

Definition rfind (s sub : string) : Z := rfind_from 0 s sub.

Fixpoint drop_chars (n : nat) (s : string) : string :=
  match n, s with
  | O, _ => s
  | S n', String _ r => drop_chars n' r
  | S _, EmptyString => EmptyString
  end.

Fixpoint take_chars (n : nat) (s : string) : string :=
  match n, s with
  | S n', String c r => String c (take_chars n' r)
  | _, _ => EmptyString
  end.

(** [s[i:]] and [s[:j]] for the non-negative bounds the source uses. *)
Definition slice_from (i : Z) (s : string) : string := drop_chars (Z.to_nat i) s.
Definition slice_to (j : Z) (s : string) : string := take_chars (Z.to_nat j) s.

Definition FENCE : string := "```".

(** The text [_extract_json] hands to [json.loads]. *)
Definition strip_code_fences (text : string) : string :=
  let text := strip text in
  if startswith text FENCE then
    let first_nl := find text NL in
    let text :=
      if negb (first_nl =? -1) then slice_from (first_nl + 1) text
      else slice_from 3 text in
    let last_fence := rfind text FENCE in
    if negb (last_fence =? -1) then rstrip (slice_to last_fence text) else text
  else text.

(** ** verifai/models/dut_spec.py, tb_plan.py and config/settings.py *)

Inductive PortDirection := INPUT | OUTPUT | INOUT.

Record PortSpec := {
  port_name : string;
  port_direction : PortDirection;
  port_width : Z;
  port_description : string;
  port_is_clock : bool;
  port_is_reset : bool;
}.

Record ParameterSpec := {
  param_name : string;
  param_datatype : string;
  param_default_value : string;
  param_description : string;
}.

Record ProtocolSpec := {
  proto_name : string;
  proto_port_names : list string;
  proto_protocol_type : string;
  proto_description : string;
}.

(** [module_name] is the value after [model_post_init], which replaces an
    empty module name by [name]. *)
Record DUTSpec := {
  dut_spec_name : string;
  module_name : string;
  ports : list PortSpec;
  parameters : list ParameterSpec;
  protocols : list ProtocolSpec;
  dut_description : string;
  clock_name : string;
  reset_name : string;
  reset_active_low : bool;
}.

Record SequencePlan := {
  seq_name : string;
  seq_description : string;
  seq_target_agent : string;
  seq_scenario : string;
  seq_constraints : list string;
  seq_coverage_targets : list string;
}.

Record AgentPlan := {
  agent_plan_name : string;
  agent_interface_name : string;
  agent_protocol_type : string;
  agent_is_active : bool;
  agent_has_scoreboard : bool;
  agent_sequences : list SequencePlan;
  agent_description : string;
}.

Record TestbenchPlan := {
  plan_name : string;
  dut_name : string;
  agents : list AgentPlan;
  top_module_name : string;
  clock_period_ns : float;
  reset_duration_ns : float;
  simulation_timeout_ns : float;
  coverage_target : float;
  plan_description : string;
  additional_notes : list string;
}.

(** [TestbenchPlan(name=..., dut_name=..., description=...)]: the other
    fields take their defaults, then [model_post_init] fills an empty
    [top_module_name]. *)
Definition TestbenchPlan_of (name dut description : string) : TestbenchPlan :=
  let top := "" in
  {| plan_name := name;
     dut_name := dut;
     agents := [];
     top_module_name :=
       if bool_decide (top = "") then "tb_" +:+ dut +:+ "_top" else top;
     clock_period_ns := f_10_0;
     reset_duration_ns := f_100_0;
     simulation_timeout_ns := f_100000_0;
     coverage_target := f_95_0;
     plan_description := description;
     additional_notes := [] |}.

Record AgentConfig := {
  model : string;
  max_tokens : Z;
  temperature : float;
  max_retries : Z;
  system_prompt_override : string;
}.

(** [ProjectManager]: the registered files, relative path to content. *)
Record ProjectManager := {
  _output_dir : string;
  _files : gmap string string;
}.

Definition add_file (self : ProjectManager) (relative_path content : string)
  : ProjectManager :=
  {| _output_dir := _output_dir self;
     _files := <[relative_path := content]> (_files self) |}.

(** ** External collaborators of the orchestrator

    Library code the orchestrator calls into and the sources of
    non-determinism behind the default factories of a message. *)
Class Collaborators := {
  (** [client.messages.create(...)] followed by [response.content[0].text],
      given the configuration, the system prompt and the conversation. *)
  messages_create : AgentConfig -> string -> list (string * string) -> result string;
  (** [json.loads] *)
  json_loads : string -> result json;
  (** [dut_spec.model_dump_json(indent=2)] *)
  model_dump_json : DUTSpec -> string;
  (** pydantic validation of [TestbenchPlan] applied to the unpacked
      [plan_data]; also raises when
      [plan_data] is not a mapping with string keys. *)
  TestbenchPlan_validate : json -> result TestbenchPlan;
  (** pydantic validation of the [approved], [issues] and [suggestions]
      arguments of [ReviewFeedback(...)]. *)
  validate_bool : json -> result bool;
  validate_str_list : json -> result (list string);
  (** the [n]-th [str(uuid.uuid4())] and [datetime.now(timezone.utc)] of the
      process *)
  uuid4 : nat -> string;
  utcnow : nat -> Z;
}.

(** ** uvm_ai/agents/base.py and verifai/agents/orchestrator.py *)

Module Orchestrator.
Section Agent.
Context {Subscriber World : Type} `{!Callbacks Subscriber World}.
Context `{!Collaborators}.

(** The orchestrator together with the objects it holds references to. *)
Record t := {
  name : string;
  config : AgentConfig;
  bus : MessageBus.t Subscriber;
  _conversation : list (string * string);   (* role, content *)
  dialogue_mgr : DialogueManager.t;
  project : ProjectManager;
  _plan : option TestbenchPlan;
  _artifacts : list CodeArtifact;
}.

(** The process around the agent: the state the bus callbacks act on and
    the number of default-factory draws made so far. *)
Record process := {
  self : t;
  world : World;
  draws : nat;
}.

(** Calls that read and update the process and may raise. *)
Definition M (A : Type) : Type := process -> result A * process.

Definition ret {A} (a : A) : M A := fun p => (Ok a, p).
Definition raise {A} (e : exn) : M A := fun p => (Raise e, p).
Definition bind {A B} (c : M A) (k : A -> M B) : M B :=
  fun p => match c p with
           | (Ok a, p') => k a p'
           | (Raise e, p') => (Raise e, p')
           end.
(** [try: c  except Exception: h] *)
Definition try_except {A} (c : M A) (h : exn -> M A) : M A :=
  fun p => match c p with
           | (Ok a, p') => (Ok a, p')
           | (Raise e, p') => h e p'
           end.
Definition lift {A} (r : result A) : M A := fun p => (r, p).
Definition get_self : M t := fun p => (Ok (self p), p).
Definition put_self (s : t) : M unit :=
  fun p => (Ok tt, {| self := s; world := world p; draws := draws p |}).

Notation "x <~ c ;; k" := (bind c (fun x => k))
  (at level 100, c at next level, right associativity).
Notation "c ;;; k" := (bind c (fun _ => k))
  (at level 100, right associativity).

Definition set_bus (b : MessageBus.t Subscriber) (s : t) : t :=
  {| name := name s; config := config s; bus := b;
     _conversation := _conversation s; dialogue_mgr := dialogue_mgr s;
     project := project s; _plan := _plan s; _artifacts := _artifacts s |}.

Definition set_conversation (c : list (string * string)) (s : t) : t :=
  {| name := name s; config := config s; bus := bus s;
     _conversation := c; dialogue_mgr := dialogue_mgr s;
     project := project s; _plan := _plan s; _artifacts := _artifacts s |}.

Definition set_dialogue_mgr (d : DialogueManager.t) (s : t) : t :=
  {| name := name s; config := config s; bus := bus s;
     _conversation := _conversation s; dialogue_mgr := d;
     project := project s; _plan := _plan s; _artifacts := _artifacts s |}.

Definition set_project (pm : ProjectManager) (s : t) : t :=
  {| name := name s; config := config s; bus := bus s;
     _conversation := _conversation s; dialogue_mgr := dialogue_mgr s;
     project := pm; _plan := _plan s; _artifacts := _artifacts s |}.

Definition set_plan (pl : option TestbenchPlan) (s : t) : t :=
  {| name := name s; config := config s; bus := bus s;
     _conversation := _conversation s; dialogue_mgr := dialogue_mgr s;
     project := project s; _plan := pl; _artifacts := _artifacts s |}.

Definition set_artifacts (a : list CodeArtifact) (s : t) : t :=
  {| name := name s; config := config s; bus := bus s;
     _conversation := _conversation s; dialogue_mgr := dialogue_mgr s;
     project := project s; _plan := _plan s; _artifacts := a |}.

(** The base fields of a message built with only [sender], [recipient]
    and [correlation_id] given: [id] and [timestamp] come from their
    default factories. *)
Definition new_base (snd rcp : string) (cid : option string) : M AgentMessageBase :=
  fun p =>
    (Ok {| m_id := uuid4 (draws p); m_sender := snd; m_recipient := rcp;
           m_timestamp := utcnow (draws p); m_priority := NORMAL;
           m_correlation_id := cid; m_metadata := [] |},
     {| self := self p; world := world p; draws := S (draws p) |}).

Definition system_prompt : string :=
  "You are the Orchestrator Agent in a UVM testbench generation system. "
  +:+ "Your role is to:" +:+ NL
  +:+ "1. Analyze DUT specifications and create comprehensive testbench plans." +:+ NL
  +:+ "2. Delegate work to specialized sub-agents (environment, UVM agent, "
  +:+ "sequence, scoreboard)." +:+ NL
  +:+ "3. Review generated artifacts for correctness and consistency." +:+ NL
  +:+ "4. Drive coverage closure by analyzing gaps and directing new stimulus."
  +:+ NL +:+ NL
  +:+ "Always respond with valid JSON when asked for structured data. "
  +:+ "Be precise about UVM component naming, port connections, and "
  +:+ "SystemVerilog types.".

(** [BaseAgent.call_llm] *)
Definition call_llm (user_prompt : string) : M string :=
  s <~ get_self ;;
  let conversation := _conversation s ++ [("user", user_prompt)] in
  put_self (set_conversation conversation s) ;;;
  let system :=
    if bool_decide (system_prompt_override (config s) = "")
    then system_prompt else system_prompt_override (config s) in
  assistant_text <~ lift (messages_create (config s) system conversation) ;;
  s <~ get_self ;;
  put_self (set_conversation
              (_conversation s ++ [("assistant", assistant_text)]) s) ;;;
  ret assistant_text.

(** [BaseAgent.send_message]: [await self.bus.send(message)], for the
    subscribers of [Callbacks]; [Coordinator.send_message] is the method
    for subscribers of any kind. *)
Definition send_message (message : AgentMessage) : M unit :=
  fun p =>
    let r := MessageBus.send (bus (self p)) message (world p) in
    (MessageBus.pub_result r,
     {| self := set_bus (MessageBus.pub_bus r) (self p);
        world := MessageBus.pub_world r;
        draws := draws p |}).

(** [_extract_json] *)
Definition _extract_json (text : string) : result json :=
  json_loads (strip_code_fences text).

Definition analyze_dut_prompt (dut_spec : DUTSpec) : string :=
  "Analyze this DUT and create a UVM testbench plan." +:+ NL +:+ NL
  +:+ "DUT: " +:+ model_dump_json dut_spec +:+ NL +:+ NL
  +:+ "Respond with a JSON object containing:" +:+ NL
  +:+ "- name: testbench name" +:+ NL
  +:+ "- dut_name: the DUT module name" +:+ NL
  +:+ "- agents: list of agent plans (name, interface_name, protocol_type, "
  +:+ "is_active, has_scoreboard, sequences list)" +:+ NL
  +:+ "- clock_period_ns, reset_duration_ns, simulation_timeout_ns" +:+ NL
  +:+ "- coverage_target: target coverage percentage" +:+ NL
  +:+ "- description: brief description" +:+ NL.

Definition analyze_dut (dut_spec : DUTSpec) : M TestbenchPlan :=
  response <~ call_llm (analyze_dut_prompt dut_spec) ;;
  plan <~ try_except
            (plan_data <~ lift (_extract_json response) ;;
             lift (TestbenchPlan_validate plan_data))
            (fun _ =>
               ret (TestbenchPlan_of
                      (dut_spec_name dut_spec +:+ "_tb")
                      (module_name dut_spec)
                      ("Auto-generated testbench for " +:+ dut_spec_name dut_spec))) ;;
  s <~ get_self ;;
  put_self (set_plan (Some plan) s) ;;;
  ret plan.

(** [delegate_to_agent] *)
Definition delegate_to_agent (agent_name component_name : string)
    (spec : list (string * json)) (instructions : string) : M unit :=
  s <~ get_self ;;
  b <~ new_base (name s) agent_name None ;;
  let request :=
    {| rq_base := b; rq_component_name := component_name; rq_spec := spec;
       rq_instructions := instructions; rq_context := [] |} in
  s <~ get_self ;;
  put_self (set_dialogue_mgr
              (fst (DialogueManager.start_dialogue (dialogue_mgr s) request)) s) ;;;
  send_message (MsgPlanRequest request).

(** [review_data.get(key, default)]; anything but a [dict] has no [get]. *)
Definition json_get (data : json) (key : string) (dflt : json) : result json :=
  match data with
  | JDict items =>
      Ok (default dflt (snd <$> List.find (fun kv => bool_decide (fst kv = key)) items))
  | _ => Raise "AttributeError"
  end.

Definition review_prompt (response : PlanResponse) : string :=
  "Review this generated UVM component for correctness." +:+ NL +:+ NL
  +:+ "Component: " +:+ rs_component_name response +:+ NL
  +:+ "Code:" +:+ NL +:+ "```systemverilog" +:+ NL
  +:+ rs_proposed_code response +:+ NL +:+ "```" +:+ NL +:+ NL
  +:+ "Respond with JSON: {" +:+ String (ascii_of_nat 34) "approved"
  +:+ String (ascii_of_nat 34) ": true/false, "
  +:+ String (ascii_of_nat 34) "issues" +:+ String (ascii_of_nat 34) ": [...], "
  +:+ String (ascii_of_nat 34) "suggestions" +:+ String (ascii_of_nat 34) ": [...]}".

Definition _handle_plan_response (response : PlanResponse) : M unit :=
  s <~ get_self ;;
  let '(mgr, entry) := DialogueManager.record_response (dialogue_mgr s) response in
  put_self (set_dialogue_mgr mgr s) ;;;
  match entry with
  | None => ret tt
  | Some _ =>
      review_text <~ call_llm (review_prompt response) ;;
      review <~ try_except
                  (review_data <~ lift (_extract_json review_text) ;;
                   approved <~ lift (json_get review_data "approved" (JBool true)) ;;
                   issues <~ lift (json_get review_data "issues" (JList [])) ;;
                   suggestions <~ lift (json_get review_data "suggestions" (JList [])) ;;
                   ret (approved, issues, suggestions))
                  (fun _ => ret (JBool true, JList [], JList [])) ;;
      let '(approved, issues, suggestions) := review in
      s <~ get_self ;;
      b <~ new_base (name s) (m_sender (rs_base response))
             (m_correlation_id (rs_base response)) ;;
      approved <~ lift (validate_bool approved) ;;
      issues <~ lift (validate_str_list issues) ;;
      suggestions <~ lift (validate_str_list suggestions) ;;
      let feedback :=
        {| fb_base := b; fb_component_name := rs_component_name response;
           fb_approved := approved; fb_issues := issues;
           fb_suggestions := suggestions; fb_revised_spec := [] |} in
      s <~ get_self ;;
      put_self (set_dialogue_mgr
                  (fst (DialogueManager.record_feedback (dialogue_mgr s) feedback)) s) ;;;
      send_message (MsgReviewFeedback feedback)
  end.

(** [[k for k, v in report.coverage_bins.items() if v < 100.0]] *)
Definition bins_below_full (bins : list (string * float)) : list string :=
  fst <$> List.filter (fun kv => float_lt (snd kv) f_100_0) bins.

Definition effective_target (s : t) : float :=
  match _plan s with
  | Some pl => coverage_target pl
  | None => f_95_0
  end.

Definition _handle_coverage_report (report : CoverageReport) : M unit :=
  s <~ get_self ;;
  if float_ge (cr_overall_coverage report) (effective_target s) then ret tt
  else
    b <~ new_base (name s) "sequence_agent" None ;;
    let directive :=
      {| cd_base := b;
         cd_target_bins := bins_below_full (cr_coverage_bins report);
         cd_target_scenarios := cr_uncovered_scenarios report;
         cd_constraints := [];
         cd_priority_order := [] |} in
    send_message (MsgCoverageDirective directive).

Definition accept_artifact (artifact : CodeArtifact) : M unit :=
  s <~ get_self ;;
  put_self (set_artifacts (_artifacts s ++ [artifact]) s) ;;;
  s <~ get_self ;;
  put_self (set_project
              (add_file (project s) (ca_filename artifact) (ca_content artifact)) s).

Definition _handle_sequence_proposal (proposal : SequenceProposal) : M unit :=
  s <~ get_self ;;
  b <~ new_base (name s) "codegen" None ;;
  let artifact :=
    {| ca_base := b;
       ca_filename := "sequences/" +:+ sp_sequence_name proposal +:+ ".sv";
       ca_content := sp_sequence_code proposal;
       ca_language := "systemverilog";
       ca_component_type := "sequence";
       ca_overwrite := true |} in
  accept_artifact artifact.

Definition on_message (message : AgentMessage) : M unit :=
  match message with
  | MsgPlanResponse m => _handle_plan_response m
  | MsgCoverageReport m => _handle_coverage_report m
  | MsgSequenceProposal m => _handle_sequence_proposal m
  | MsgCodeArtifact m => accept_artifact m
  | _ => ret tt
  end.

(** The directive [_handle_coverage_report] builds when it is the
    [n]-th message of the process. *)
Definition directive_for (s : t) (n : nat) (report : CoverageReport) : CoverageDirective :=
  {| cd_base :=
       {| m_id := uuid4 n; m_sender := name s; m_recipient := "sequence_agent";
          m_timestamp := utcnow n; m_priority := NORMAL;
          m_correlation_id := None; m_metadata := [] |};
     cd_target_bins := bins_below_full (cr_coverage_bins report);
     cd_target_scenarios := cr_uncovered_scenarios report;
     cd_constraints := [];
     cd_priority_order := [] |}.

(** What [call_llm] sends to the generation service for [analyze_dut]. *)
Definition analyze_dut_call (p : process) (dut_spec : DUTSpec) : result string :=
  let cfg := config (self p) in
  messages_create cfg
    (if bool_decide (system_prompt_override cfg = "")
     then system_prompt else system_prompt_override cfg)
    (_conversation (self p) ++ [("user", analyze_dut_prompt dut_spec)]).

(** The answer does not yield a plan: [_extract_json] raises, or
    validation of the parsed data raises. *)
Definition not_a_plan (response : string) : Prop :=
  match _extract_json response with
  | Ok plan_data => exists e, TestbenchPlan_validate plan_data = Raise e
  | Raise _ => True
  end.

End Agent.
Arguments t : clear implicits.
Arguments process : clear implicits.
End Orchestrator.

(** ** Concrete instances used to run the definitions *)

Module Fixtures.

Definition mk_base (id snd rcp : string) (cid : option string) : AgentMessageBase :=
  {| m_id := id; m_sender := snd; m_recipient := rcp; m_timestamp := 0;
     m_priority := NORMAL; m_correlation_id := cid; m_metadata := [] |}.

Definition req1 : PlanRequest :=
  {| rq_base := mk_base "r1" "orchestrator" "agent" None;
     rq_component_name := "comp"; rq_spec := []; rq_instructions := "";
     rq_context := [] |}.

Definition resp1 : PlanResponse :=
  {| rs_base := mk_base "p1" "agent" "orchestrator" (Some "r1");
     rs_component_name := "comp"; rs_proposed_code := "";
     rs_proposed_plan := []; rs_notes := []; rs_confidence := f_1_0 |}.

Definition reject1 : ReviewFeedback :=
  {| fb_base := mk_base "f1" "orchestrator" "agent" (Some "r1");
     fb_component_name := "comp"; fb_approved := false;
     fb_issues := ["wrong ports"]; fb_suggestions := [];
     fb_revised_spec := [] |}.

(** A manager with [max_revisions = 2] whose dialogue "r1" was answered
    once and rejected twice. *)
Definition failed_mgr : DialogueManager.t :=
  let mgr1 := (DialogueManager.start_dialogue (DialogueManager.__init__ 2) req1).1 in
  let mgr2 := (DialogueManager.record_response mgr1 resp1).1 in
  let mgr3 := (DialogueManager.record_feedback mgr2 reject1).1 in
  (DialogueManager.record_feedback mgr3 reject1).1.

(** A response that answers no request. *)
Definition stray : PlanResponse :=
  {| rs_base := mk_base "p2" "agent" "orchestrator" (Some "nobody");
     rs_component_name := "comp"; rs_proposed_code := "";
     rs_proposed_plan := []; rs_notes := []; rs_confidence := f_1_0 |}.

(** Callbacks are numbered; each appends what it received to a delivery
    log, and the odd ones then raise. *)
#[export] Instance logging_callbacks : Callbacks nat (list (nat * AgentMessage)) := {
  await_callback cb message log :=
    (log ++ [(cb, message)],
     if Nat.even cb then Returned else Raised "RuntimeError");
}.

(** A generation service whose answer is not JSON. *)
#[export] Instance babbling : Collaborators := {
  messages_create _ _ _ := Ok "I am sorry, I cannot do that.";
  json_loads _ := Raise "JSONDecodeError";
  model_dump_json d := dut_spec_name d;
  TestbenchPlan_validate _ := Raise "ValidationError";
  validate_bool j := match j with JBool b => Ok b | _ => Raise "ValidationError" end;
  validate_str_list j :=
  match j with
  | JList l =>
      (fix go (l : list json) : result (list string) :=
         match l with
         | [] => Ok []
         | JStr x :: r =>
             match go r with Ok r' => Ok (x :: r') | Raise e => Raise e end
         | _ => Raise "ValidationError"
         end) l
  | _ => Raise "ValidationError"
  end;
  uuid4 n := "uuid-" +:+ pretty n;
  utcnow n := Z.of_nat n;
}.

Definition default_config : AgentConfig :=
  {| model := "claude-sonnet-4-6"; max_tokens := 8192; temperature := f_0_0;
     max_retries := 3; system_prompt_override := "" |}.

Definition orchestrator0 : Orchestrator.t nat :=
  {| Orchestrator.name := "orchestrator";
     Orchestrator.config := default_config;
     Orchestrator.bus :=
       MessageBus.subscribe
         (MessageBus.subscribe MessageBus.__init__ "sequence_agent" 2%nat)
         "env_agent" 4%nat;
     Orchestrator._conversation := [];
     Orchestrator.dialogue_mgr := DialogueManager.__init__ 3;
     Orchestrator.project := {| _output_dir := "generated_tb"; _files := ∅ |};
     Orchestrator._plan := None;
     Orchestrator._artifacts := [] |}.

Definition process0 : Orchestrator.process nat (list (nat * AgentMessage)) :=
  {| Orchestrator.self := orchestrator0; Orchestrator.world := [];
     Orchestrator.draws := 0 |}.

Definition report_73_5 : CoverageReport :=
  {| cr_base := mk_base "c1" "scoreboard_agent" "orchestrator" None;
     cr_overall_coverage := f_73_5;
     cr_coverage_bins :=
       [("op_add", f_100_0); ("op_sub", f_80_0); ("overflow", f_0_0)];
     cr_uncovered_scenarios := ["overflow"];
     cr_suggestions := [] |}.

(** The answer of "agent" to the first request the fixture orchestrator
    delegates. *)
Definition resp_uuid0 : PlanResponse :=
  {| rs_base := mk_base "p3" "agent" "orchestrator" (Some "uuid-0");
     rs_component_name := "comp"; rs_proposed_code := "class comp;";
     rs_proposed_plan := []; rs_notes := []; rs_confidence := f_1_0 |}.

Definition approve1 : ReviewFeedback :=
  {| fb_base := mk_base "f2" "orchestrator" "agent" (Some "r1");
     fb_component_name := "comp"; fb_approved := true;
     fb_issues := []; fb_suggestions := []; fb_revised_spec := [] |}.

Definition counter_dut : DUTSpec :=
  {| dut_spec_name := "counter"; module_name := "counter"; ports := [];
     parameters := []; protocols := []; dut_description := "";
     clock_name := "clk"; reset_name := "rst_n"; reset_active_low := true |}.

End Fixtures.

(** ** The router on the event loop

    [MessageBus.publish] above takes subscribers that run to their end in
    one go, in list order, and that have no access to the bus.  The agents
    of this repository are coroutines: they suspend at every [await], the
    event loop interleaves them, and they publish on the very bus that is
    delivering to them.  This module gives [publish] for such subscribers.
    The registration side ([subscribe], [unsubscribe], the task list of a
    [publish]) is the one of [MessageBus]. *)

Module Loop.

(** How an awaited coroutine ends: its body returns, an exception is stored
    in its task (what [gather] hands back as a result when
    [return_exceptions=True]), or a [KeyboardInterrupt] or [SystemExit]
    leaves the task and stops the event loop. *)
Inductive ending :=
  | Returns
  | Raises (exc : exn)
  | Escapes (exc : exn).

(** A coroutine object over the state of the process: it has ended, or it
    is suspended and, when resumed in state [s], runs without interruption
    up to its next suspension, leaving state [run s] and the coroutine
    [rest s]. *)
Inductive coroutine (State : Type) : Type :=
  | Ended (e : ending)
  | Stretch (run : State -> State) (rest : State -> coroutine State).
Arguments Ended {State} e.
Arguments Stretch {State} run rest.

(** The process state holds the bus. *)
Class HasBus (Subscriber State : Type) := {
  the_bus : State -> MessageBus.t Subscriber;
  with_bus : MessageBus.t Subscriber -> State -> State;
  the_bus_with_bus : forall b s, the_bus (with_bus b s) = b;
}.

(** [cb(message)]: the call either raises or returns a coroutine object,
    and does nothing else.  Calling a subscriber written as [async def]
    with a matching signature always returns one; the body runs when the
    coroutine is awaited. *)
Class Coroutines (Subscriber State : Type) := {
  call_callback : Subscriber -> AgentMessage -> result (coroutine State);
}.

Section EventLoop.
Context {Subscriber World State : Type} `{!Callbacks Subscriber World}.
Context `{!HasBus Subscriber State} `{!Coroutines Subscriber State}.

(** A task of the event loop: the subscriber it was created for and what
    is left of its coroutine. *)
Definition task : Type := Subscriber * coroutine State.

(** The two loops of [publish] that fill [tasks]: the subscribers are called
    in order, and the first call that raises ends [publish]. *)
Fixpoint spawn (calls : list (Subscriber * AgentMessage)) : result (list task) :=
  match calls with
  | [] => Ok []
  | (cb, message) :: later =>
      match call_callback cb message with
      | Raise exc => Raise exc
      | Ok c =>
          match spawn later with
          | Raise exc => Raise exc
          | Ok tasks => Ok ((cb, c) :: tasks)
          end
      end
  end.

(** The exception that stopped the event loop, if any. *)
Fixpoint escaped (tasks : list task) : option exn :=
  match tasks with
  | [] => None
  | (_, Ended (Escapes exc)) :: _ => Some exc
  | _ :: later => escaped later
  end.

(** The event loop resumes task [i] for one stretch. *)
Definition resume (i : nat) (tasks : list task) (s : State) : list task * State :=
  match tasks !! i with
  | Some (cb, Stretch run rest) => (<[i := (cb, rest s)]> tasks, run s)
  | _ => (tasks, s)
  end.

(** The event loop follows a schedule: the tasks it resumes, in order.  Any
    interleaving of the stretches of the tasks is some schedule. *)
Fixpoint drive (schedule : list nat) (tasks : list task) (s : State)
  : list task * State :=
  match schedule with
  | [] => (tasks, s)
  | i :: later =>
      match escaped tasks with
      | Some _ => (tasks, s)
      | None =>
          let '(tasks', s') := resume i tasks s in
          drive later tasks' s'
      end
  end.

(** A task runs to its end without the others being resumed. *)
Fixpoint finish_task (c : coroutine State) (s : State) : ending * State :=
  match c with
  | Ended e => (e, s)
  | Stretch run rest => finish_task (rest s) (run s)
  end.

(** The tasks still suspended run to their end, in list order, unless one
    stops the event loop. *)
Fixpoint finish (tasks : list task) (s : State) : list task * State :=
  match tasks with
  | [] => ([], s)
  | (cb, c) :: later =>
      let '(e, s1) := finish_task c s in
      match e with
      | Escapes _ => ((cb, Ended e) :: later, s1)
      | _ =>
          let '(later', s2) := finish later s1 in
          ((cb, Ended e) :: later', s2)
      end
  end.

(** [await asyncio.gather] over [tasks] with [return_exceptions=True]:
    the event loop interleaves the tasks as the schedule says and then lets
    the remaining ones end. *)
Definition await_all (schedule : list nat) (tasks : list task) (s : State)
  : list task * State :=
  let '(tasks1, s1) := drive schedule tasks s in
  match escaped tasks1 with
  | Some _ => (tasks1, s1)
  | None => finish tasks1 s1
  end.

(** What one [publish] call leaves: the state of the process, whether the
    call returned, and the tasks it created as the event loop left them. *)
Record published := {
  pub_state : State;
  pub_result : result unit;
  pub_tasks : list task;
}.

(** The state in which the first subscriber is called: the message has been
    appended to the history. *)
Definition recorded (message : AgentMessage) (s : State) : State :=
  with_bus
    (MessageBus.with_history (the_bus s)
       (MessageBus._history (the_bus s) ++ [message])) s.

(** [publish]: the append, the two loops that call the subscribers, and
    [gather] if there is a task.  [pub_result] is [Raise exc] when the call
    does not return: either a subscriber raised [exc] when it was called,
    and then the coroutines already created are dropped without having
    run, or [exc] left a task and stopped the event loop. *)
Definition publish (schedule : list nat) (channel : string)
    (message : AgentMessage) (s : State) : published :=
  let s := recorded message s in
  match spawn (MessageBus.publish_tasks (the_bus s) channel message) with
  | Raise exc => {| pub_state := s; pub_result := Raise exc; pub_tasks := [] |}
  | Ok [] => {| pub_state := s; pub_result := Ok tt; pub_tasks := [] |}
  | Ok tasks =>
      let '(tasks', s') := await_all schedule tasks s in
      {| pub_state := s';
         pub_result := match escaped tasks' with
                       | Some exc => Raise exc
                       | None => Ok tt
                       end;
         pub_tasks := tasks' |}
  end.

Definition send (schedule : list nat) (message : AgentMessage) (s : State)
  : published :=
  publish schedule (recipient message) message s.

(** One call on the router, with the schedule the event loop follows if the
    call is a [publish] or a [send]. *)
Definition perform (c : MessageBus.call Subscriber) (schedule : list nat)
    (s : State) : State :=
  match c with
  | MessageBus.Subscribe channel cb =>
      with_bus (MessageBus.subscribe (the_bus s) channel cb) s
  | MessageBus.SubscribeType msg_type cb =>
      with_bus (MessageBus.subscribe_type (the_bus s) msg_type cb) s
  | MessageBus.Unsubscribe channel cb =>
      with_bus (MessageBus.unsubscribe (the_bus s) channel cb) s
  | MessageBus.Publish channel message =>
      pub_state (publish schedule channel message s)
  | MessageBus.Send message => pub_state (send schedule message s)
  | MessageBus.History => s
  | MessageBus.GetHistoryFor _ => s
  | MessageBus.ClearHistory =>
      with_bus (MessageBus.clear_history (the_bus s)) s
  end.

Definition perform_all (cs : list (MessageBus.call Subscriber * list nat))
    (s : State) : State :=
  fold_left (fun s c => perform c.1 c.2 s) cs s.

(** No [KeyboardInterrupt] or [SystemExit] leaves the coroutine. *)
Fixpoint contained (c : coroutine State) : Prop :=
  match c with
  | Ended (Escapes _) => False
  | Ended _ => True
  | Stretch _ rest => forall s, contained (rest s)
  end.

(** Every stretch of the coroutine takes a state to one related by [R]. *)
Fixpoint respects (R : State -> State -> Prop) (c : coroutine State) : Prop :=
  match c with
  | Ended _ => True
  | Stretch run rest => (forall s, R s (run s)) /\ forall s, respects R (rest s)
  end.

(** A property of coroutines that a resumed coroutine passes on to what is
    left of it. *)
Definition hereditary (Q : coroutine State -> Prop) : Prop :=
  forall run rest, Q (Stretch run rest) -> forall s, Q (rest s).


(** The call of a subscriber returns a coroutine that stays on the event
    loop, as the call of an [async def] method does. *)
Definition well_behaved (call : Subscriber * AgentMessage) : Prop :=
  exists c, call_callback call.1 call.2 = Ok c /\ contained c.

(** The history of the later state starts with the history of the
    earlier one. *)
Definition history_kept (s s' : State) : Prop :=
  MessageBus._history (the_bus s) `prefix_of` MessageBus._history (the_bus s').

(** The two states have the same history. *)
Definition history_same (s s' : State) : Prop :=
  MessageBus._history (the_bus s') = MessageBus._history (the_bus s).

(** Every coroutine a subscriber returns respects [R]. *)
Definition subscribers_respect (R : State -> State -> Prop) : Prop :=
  forall cb message c, call_callback cb message = Ok c -> respects R c.


End EventLoop.
Arguments task : clear implicits.
Arguments published : clear implicits.

(** The bus next to the rest of the state. *)
#[global] Instance pair_has_bus {Subscriber World : Type}
  : HasBus Subscriber (MessageBus.t Subscriber * World) := {
  the_bus s := s.1;
  with_bus b s := (b, s.2);
  the_bus_with_bus b s := eq_refl;
}.

(** The subscribers of [MessageBus]: one stretch that leaves the bus alone,
    then the end. *)
Definition inert {Subscriber World : Type} `{!Callbacks Subscriber World}
  : Coroutines Subscriber (MessageBus.t Subscriber * World) := {|
  call_callback cb message :=
    Ok (Stretch
          (fun s => (s.1, (await_callback cb message s.2).1))
          (fun s => Ended match (await_callback cb message s.2).2 with
                          | Returned => Returns
                          | Raised exc => Raises exc
                          end))
|}.

End Loop.

(** ** The orchestrator on the event loop

    [send_message] and the reactions that publish, over [Loop.publish]: the
    subscribers act on the whole process, the orchestrator included. *)

Module Coordinator.

(** The bus the orchestrator holds. *)
#[global] Instance process_has_bus {Subscriber World : Type}
  : Loop.HasBus Subscriber (Orchestrator.process Subscriber World) := {
  the_bus p := Orchestrator.bus (Orchestrator.self p);
  with_bus b p :=
    {| Orchestrator.self := Orchestrator.set_bus b (Orchestrator.self p);
       Orchestrator.world := Orchestrator.world p;
       Orchestrator.draws := Orchestrator.draws p |};
  the_bus_with_bus b p := eq_refl;
}.

Section Agent.
Context {Subscriber World : Type} `{!Callbacks Subscriber World}.
Context `{!Collaborators}.
Context `{!Loop.Coroutines Subscriber (Orchestrator.process Subscriber World)}.

(** [BaseAgent.send_message]: [await self.bus.send(message)], the event loop
    following [schedule] meanwhile. *)
Definition send_message (schedule : list nat) (message : AgentMessage)
  : Orchestrator.M unit :=
  fun p =>
    let r := Loop.send schedule message p in
    (Loop.pub_result r, Loop.pub_state r).

Definition _handle_coverage_report (schedule : list nat) (report : CoverageReport)
  : Orchestrator.M unit :=
  Orchestrator.bind Orchestrator.get_self (fun s =>
  if float_ge (cr_overall_coverage report)
       (match Orchestrator._plan s with
        | Some plan => coverage_target plan
        | None => f_95_0
        end)
  then Orchestrator.ret tt
  else
    Orchestrator.bind (Orchestrator.new_base (Orchestrator.name s) "sequence_agent" None)
      (fun b =>
    let directive :=
      {| cd_base := b;
         cd_target_bins :=
           fst <$> List.filter (fun kv => float_lt (snd kv) f_100_0)
                     (cr_coverage_bins report);
         cd_target_scenarios := cr_uncovered_scenarios report;
         cd_constraints := [];
         cd_priority_order := [] |} in
    send_message schedule (MsgCoverageDirective directive))).

Definition delegate_to_agent (schedule : list nat)
    (agent_name component_name : string) (spec : list (string * json))
    (instructions : string) : Orchestrator.M unit :=
  Orchestrator.bind Orchestrator.get_self (fun s =>
  Orchestrator.bind (Orchestrator.new_base (Orchestrator.name s) agent_name None)
    (fun b =>
  let request :=
    {| rq_base := b; rq_component_name := component_name; rq_spec := spec;
       rq_instructions := instructions; rq_context := [] |} in
  Orchestrator.bind Orchestrator.get_self (fun s =>
  Orchestrator.bind
    (Orchestrator.put_self
       (Orchestrator.set_dialogue_mgr
          (DialogueManager.start_dialogue (Orchestrator.dialogue_mgr s) request).1
          s))
    (fun _ => send_message schedule (MsgPlanRequest request))))).


(** The subscribers of [Callbacks] next to the orchestrator: one stretch
    on their own state, then the end. *)
Definition bystanders
  : Loop.Coroutines Subscriber (Orchestrator.process Subscriber World) := {|
  Loop.call_callback cb message :=
    Ok (Loop.Stretch
          (fun p =>
             {| Orchestrator.self := Orchestrator.self p;
                Orchestrator.world :=
                  (await_callback cb message (Orchestrator.world p)).1;
                Orchestrator.draws := Orchestrator.draws p |})
          (fun p => Loop.Ended
                      match (await_callback cb message (Orchestrator.world p)).2 with
                      | Returned => Loop.Returns
                      | Raised exc => Loop.Raises exc
                      end))
|}.

(** The process after one more default-factory draw. *)
Definition drawn (p : Orchestrator.process Subscriber World)
  : Orchestrator.process Subscriber World :=
  {| Orchestrator.self := Orchestrator.self p;
     Orchestrator.world := Orchestrator.world p;
     Orchestrator.draws := S (Orchestrator.draws p) |}.

End Agent.
End Coordinator.

(** ** Whole runs of the router and of the dialogue tracker *)

(** The messages a sequence of router calls hands to [publish], in call
    order. *)
Definition published_messages {Subscriber : Type}
    (cs : list (MessageBus.call Subscriber)) : list AgentMessage :=
  omap (fun c => match c with
                 | MessageBus.Publish _ message => Some message
                 | MessageBus.Send message => Some message
                 | _ => None
                 end) cs.

(** The body of the second loop of [publish] for one item of
    [_type_subscribers]. *)
Definition type_hit {Subscriber : Type} (message : AgentMessage)
    (entry : msg_class * list Subscriber) : list (Subscriber * AgentMessage) :=
  let '(msg_type, cbs) := entry in
  if isinstance message msg_type
  then (fun cb => (cb, message)) <$> cbs
  else [].

(** [m.sender == agent_name or m.recipient == agent_name] *)
Definition involves (agent_name : string) (m : AgentMessage) : bool :=
  bool_decide (sender m = agent_name) || bool_decide (recipient m = agent_name).

(** The calls a client can make on a [DialogueManager] that change it. *)
Inductive dialogue_call :=
  | StartDialogue (request : PlanRequest)
  | RecordResponse (response : PlanResponse)
  | RecordFeedback (feedback : ReviewFeedback).

Definition dialogue_step (mgr : DialogueManager.t) (c : dialogue_call)
  : DialogueManager.t :=
  match c with
  | StartDialogue request => (DialogueManager.start_dialogue mgr request).1
  | RecordResponse response => (DialogueManager.record_response mgr response).1
  | RecordFeedback feedback => (DialogueManager.record_feedback mgr feedback).1
  end.

Definition dialogue_run (cs : list dialogue_call) (mgr : DialogueManager.t)
  : DialogueManager.t :=
  fold_left dialogue_step cs mgr.

(** What ties an entry to the key it is stored under and to the messages it
    holds, for a manager configured with [m] revisions. *)
Definition entry_keyed (m : Z) (k : string) (e : DialogueEntry) : Prop :=
  correlation_id e = k
  /\ max_revisions e = m
  /\ state e ≠ PENDING
  /\ (exists req, request e = Some req
        /\ m_id (rq_base req) = k
        /\ requester e = m_sender (rq_base req)
        /\ responder e = m_recipient (rq_base req))
  /\ (forall resp, response e = Some resp ->
        m_correlation_id (rs_base resp) = Some k)
  /\ (forall fb, feedback e = Some fb ->
        m_correlation_id (fb_base fb) = Some k).

(** What the state of an entry says about its counter and its stored
    messages. *)
Definition entry_counted (e : DialogueEntry) : Prop :=
  0 <= revision_count e
  /\ (state e = IN_PROGRESS ->
        revision_count e = 0 /\ response e = None /\ feedback e = None)
  /\ (state e = AWAITING_REVIEW -> is_Some (response e))
  /\ (state e = APPROVED ->
        exists fb, feedback e = Some fb /\ fb_approved fb = true)
  /\ (state e = REVISION_REQUESTED ->
        0 < revision_count e < max_revisions e
        /\ exists fb, feedback e = Some fb /\ fb_approved fb = false)
  /\ (state e = FAILED ->
        0 < revision_count e /\ max_revisions e <= revision_count e
        /\ exists fb, feedback e = Some fb /\ fb_approved fb = false).

(** Every tracked entry of a manager configured with [m] revisions is
    tied to its key and has a state that matches its counter. *)
Definition tracker_consistent (m : Z) (mgr : DialogueManager.t) : Prop :=
  DialogueManager._max_revisions mgr = m
  /\ forall k e, DialogueManager.get_dialogue mgr k = Some e ->
       entry_keyed m k e /\ entry_counted e.

(** The key a call looks up or writes. *)
Definition call_key (c : dialogue_call) : option string :=
  match c with
  | StartDialogue request => Some (m_id (rq_base request))
  | RecordResponse response => m_correlation_id (rs_base response)
  | RecordFeedback feedback => m_correlation_id (fb_base feedback)
  end.

(** ** What the orchestrator asks of its collaborators *)

Section OrchestratorRequests.
Context {Subscriber : Type} `{!Collaborators}.

(** The answer of the generation service to [call_llm user_prompt] made by
    agent [s]: the request carries the configuration, the system prompt
    (the override when there is one) and the conversation so far followed by
    the new user turn. *)
Definition llm_answer (s : Orchestrator.t Subscriber) (user_prompt : string)
  : result string :=
  messages_create (Orchestrator.config s)
    (if bool_decide (system_prompt_override (Orchestrator.config s) = "")
     then Orchestrator.system_prompt
     else system_prompt_override (Orchestrator.config s))
    (Orchestrator._conversation s ++ [("user", user_prompt)]).

(** The review text gives no JSON object: [_extract_json] raises, or what it
    returns has no [get]. *)
Definition malformed_review (review_text : string) : Prop :=
  match Orchestrator._extract_json review_text with
  | Ok (JDict _) => False
  | _ => True
  end.

(** The approving [ReviewFeedback] built for [response] when it is the
    [n]-th message of the process. *)
Definition default_feedback (s : Orchestrator.t Subscriber) (n : nat)
    (response : PlanResponse) : ReviewFeedback :=
  {| fb_base :=
       {| m_id := uuid4 n; m_sender := Orchestrator.name s;
          m_recipient := m_sender (rs_base response);
          m_timestamp := utcnow n; m_priority := NORMAL;
          m_correlation_id := m_correlation_id (rs_base response);
          m_metadata := [] |};
     fb_component_name := rs_component_name response;
     fb_approved := true; fb_issues := []; fb_suggestions := [];
     fb_revised_spec := [] |}.

(** The [PlanRequest] built by [delegate_to_agent] when it is the [n]-th
    message of the process. *)
Definition delegated_request (s : Orchestrator.t Subscriber) (n : nat)
    (agent_name component_name : string) (spec : list (string * json))
    (instructions : string) : PlanRequest :=
  {| rq_base :=
       {| m_id := uuid4 n; m_sender := Orchestrator.name s;
          m_recipient := agent_name; m_timestamp := utcnow n;
          m_priority := NORMAL; m_correlation_id := None; m_metadata := [] |};
     rq_component_name := component_name; rq_spec := spec;
     rq_instructions := instructions; rq_context := [] |}.

(** The [CodeArtifact] built by [_handle_sequence_proposal] when it is the
    [n]-th message of the process. *)
Definition proposal_artifact (s : Orchestrator.t Subscriber) (n : nat)
    (proposal : SequenceProposal) : CodeArtifact :=
  {| ca_base :=
       {| m_id := uuid4 n; m_sender := Orchestrator.name s;
          m_recipient := "codegen"; m_timestamp := utcnow n;
          m_priority := NORMAL; m_correlation_id := None; m_metadata := [] |};
     ca_filename := "sequences/" +:+ sp_sequence_name proposal +:+ ".sv";
     ca_content := sp_sequence_code proposal;
     ca_language := "systemverilog";
     ca_component_type := "sequence";
     ca_overwrite := true |}.

End OrchestratorRequests.

(** No character of [s] is a line feed. *)
Fixpoint no_newline (s : string) : bool :=
  match s with
  | EmptyString => true
  | String c r => negb (Ascii.eqb c (ascii_of_nat 10)) && no_newline r
  end.

(** ** verifai/models/dut_spec.py: derived port lists *)

#[global] Instance PortDirection_eq_dec : EqDecision PortDirection.
Proof. solve_decision. Defined.

Definition input_ports (d : DUTSpec) : list PortSpec :=
  List.filter (fun p => bool_decide (port_direction p = INPUT)) (ports d).

Definition output_ports (d : DUTSpec) : list PortSpec :=
  List.filter (fun p => bool_decide (port_direction p = OUTPUT)) (ports d).

(** The [for] loop returning the first flagged port, or [None]. *)
Definition clock_port (d : DUTSpec) : option PortSpec :=
  List.find port_is_clock (ports d).

Definition reset_port (d : DUTSpec) : option PortSpec :=
  List.find port_is_reset (ports d).

Definition signal_ports (d : DUTSpec) : list PortSpec :=
  List.filter (fun p => negb (port_is_clock p) && negb (port_is_reset p)) (ports d).

(** ** Further concrete instances *)

Module Scenarios.

(** A generation service that is down. *)
Definition silent : Collaborators := {|
  messages_create _ _ _ := Raise "APIConnectionError";
  json_loads := @json_loads Fixtures.babbling;
  model_dump_json := @model_dump_json Fixtures.babbling;
  TestbenchPlan_validate := @TestbenchPlan_validate Fixtures.babbling;
  validate_bool := @validate_bool Fixtures.babbling;
  validate_str_list := @validate_str_list Fixtures.babbling;
  uuid4 := @uuid4 Fixtures.babbling;
  utcnow := @utcnow Fixtures.babbling;
|}.

Definition alu_plan : TestbenchPlan :=
  TestbenchPlan_of "alu_tb" "alu" "ALU testbench".

(** A generation service whose answers parse and validate as [alu_plan]. *)
Definition helpful : Collaborators := {|
  messages_create _ _ _ := Ok "{}";
  json_loads _ := Ok (JDict []);
  model_dump_json := @model_dump_json Fixtures.babbling;
  TestbenchPlan_validate _ := Ok alu_plan;
  validate_bool := @validate_bool Fixtures.babbling;
  validate_str_list := @validate_str_list Fixtures.babbling;
  uuid4 := @uuid4 Fixtures.babbling;
  utcnow := @utcnow Fixtures.babbling;
|}.

(** The fixture process after it delegated "comp" to "agent": the
    dialogue "uuid-0" is open. *)
Definition delegated : Orchestrator.process nat (list (nat * AgentMessage)) :=
  (Orchestrator.delegate_to_agent (Callbacks0 := Fixtures.logging_callbacks)
     (H := Fixtures.babbling) "agent" "comp" [] "" Fixtures.process0).2.

Definition artifact1 : CodeArtifact :=
  {| ca_base := Fixtures.mk_base "a1" "env_agent" "orchestrator" None;
     ca_filename := "env.sv"; ca_content := "class env_v1;";
     ca_language := "systemverilog"; ca_component_type := "env";
     ca_overwrite := true |}.

Definition artifact2 : CodeArtifact :=
  {| ca_base := Fixtures.mk_base "a2" "env_agent" "orchestrator" None;
     ca_filename := "env.sv"; ca_content := "class env_v2;";
     ca_language := "systemverilog"; ca_component_type := "env";
     ca_overwrite := false |}.

Definition port (n : string) (dir : PortDirection) (clk rst : bool) : PortSpec :=
  {| port_name := n; port_direction := dir; port_width := 1;
     port_description := ""; port_is_clock := clk; port_is_reset := rst |}.

Definition alu_dut : DUTSpec :=
  {| dut_spec_name := "alu"; module_name := "alu";
     ports := [port "a" INPUT false false; port "clk" INPUT true false;
               port "rst_n" INPUT false true; port "y" OUTPUT false false];
     parameters := []; protocols := []; dut_description := "";
     clock_name := "clk"; reset_name := "rst_n"; reset_active_low := true |}.

(** A second request, under another id. *)
Definition req2 : PlanRequest :=
  {| rq_base := Fixtures.mk_base "r2" "orchestrator" "agent2" None;
     rq_component_name := "comp2"; rq_spec := []; rq_instructions := "";
     rq_context := [] |}.

End Scenarios.

(** ** Subscribers that run on the event loop *)

Module Handlers.

(** A process that holds a bus and a delivery log. *)
Abbreviation Station := (MessageBus.t nat * list (nat * AgentMessage))%type.

(** One stretch of a subscriber: it notes the delivery. *)
Definition noted (cb : nat) (message : AgentMessage) (s : Station) : Station :=
  (s.1, s.2 ++ [(cb, message)]).

(** The body of an [async def] subscriber that notes the delivery and
    ends as [e]. *)
Definition logs (cb : nat) (message : AgentMessage) (e : Loop.ending)
  : Loop.coroutine Station :=
  Loop.Stretch (noted cb message) (fun _ => Loop.Ended e).

(** What subscriber 2 publishes on the bus that delivers to it. *)
Definition answer : AgentMessage := MsgPlanResponse Fixtures.resp1.

(** Subscribers are numbered.  0 returns.  1 raises [RuntimeError].  2 is
    suspended once, then publishes [answer] on a channel without subscribers
    and returns.  3 is a plain function that raises [TypeError] when it is
    called.  4 raises [SystemExit].  The others have an empty body. *)
Definition polite : Loop.Coroutines nat Station := {|
  Loop.call_callback cb message :=
    match cb with
    | 0%nat => Ok (logs 0 message Loop.Returns)
    | 1%nat => Ok (logs 1 message (Loop.Raises "RuntimeError"))
    | 2%nat =>
        Ok (Loop.Stretch (noted 2 message)
              (fun _ => Loop.Stretch (Loop.recorded answer)
                          (fun _ => Loop.Ended Loop.Returns)))
    | 3%nat => Raise "TypeError"
    | 4%nat => Ok (logs 4 message (Loop.Escapes "SystemExit"))
    | _ => Ok (Loop.Ended Loop.Returns)
    end
|}.

(** As [polite], but subscriber 5 calls [clear_history] on the bus. *)
Definition rowdy : Loop.Coroutines nat Station := {|
  Loop.call_callback cb message :=
    match cb with
    | 5%nat =>
        Ok (Loop.Stretch (fun s => (MessageBus.clear_history s.1, s.2))
              (fun _ => Loop.Ended Loop.Returns))
    | _ => Loop.call_callback (Coroutines := polite) cb message
    end
|}.

(** The process of the orchestrator. *)
Abbreviation Process := (Orchestrator.process nat (list (nat * AgentMessage))).

Definition noted_by (cb : nat) (message : AgentMessage) (p : Process) : Process :=
  {| Orchestrator.self := Orchestrator.self p;
     Orchestrator.world := Orchestrator.world p ++ [(cb, message)];
     Orchestrator.draws := Orchestrator.draws p |}.

Definition proposal : SequenceProposal :=
  {| sp_base := Fixtures.mk_base "s1" "sequence_agent" "orchestrator" None;
     sp_sequence_name := "overflow_seq"; sp_target_scenario := "overflow";
     sp_sequence_code := "class overflow_seq;";
     sp_expected_coverage_impact := [] |}.

(** The answer of the sequence agent to [request]. *)
Definition response_to (request : PlanRequest) : PlanResponse :=
  {| rs_base :=
       Fixtures.mk_base "p4" "sequence_agent" (m_sender (rq_base request))
         (Some (m_id (rq_base request)));
     rs_component_name := rq_component_name request;
     rs_proposed_code := "class base_seq;";
     rs_proposed_plan := []; rs_notes := ["Generated base sequences"];
     rs_confidence := f_1_0 |}.

(** Subscriber 2 is the sequence agent, with the orchestrator listening on
    its own name.  On a [CoverageDirective] the agent publishes [proposal],
    which the orchestrator accepts before that publish returns; on a
    [PlanRequest] it publishes its answer, which the orchestrator reviews
    before that publish returns.  Every other delivery is noted. *)
Definition team : Loop.Coroutines nat Process := {|
  Loop.call_callback cb message :=
    match cb, message with
    | 2%nat, MsgCoverageDirective _ =>
        Ok (Loop.Stretch (noted_by 2 message)
              (fun _ => Loop.Stretch (Loop.recorded (MsgSequenceProposal proposal))
              (fun _ => Loop.Stretch
                          (fun p =>
                             (Orchestrator._handle_sequence_proposal
                                (H := Fixtures.babbling) proposal p).2)
              (fun _ => Loop.Ended Loop.Returns))))
    | 2%nat, MsgPlanRequest request =>
        Ok (Loop.Stretch (noted_by 2 message)
              (fun _ => Loop.Stretch
                          (Loop.recorded (MsgPlanResponse (response_to request)))
              (fun _ => Loop.Stretch
                          (fun p =>
                             (Orchestrator._handle_plan_response
                                (Callbacks0 := Fixtures.logging_callbacks)
                                (H := Fixtures.babbling)
                                (response_to request) p).2)
              (fun _ => Loop.Ended Loop.Returns))))
    | _, _ => Ok (Loop.Stretch (noted_by cb message)
                    (fun _ => Loop.Ended Loop.Returns))
    end
|}.

Definition with_target (target : float) (plan : TestbenchPlan) : TestbenchPlan :=
  {| plan_name := plan_name plan; dut_name := dut_name plan;
     agents := agents plan;
     top_module_name := top_module_name plan;
     clock_period_ns := clock_period_ns plan;
     reset_duration_ns := reset_duration_ns plan;
     simulation_timeout_ns := simulation_timeout_ns plan;
     coverage_target := target;
     plan_description := plan_description plan;
     additional_notes := additional_notes plan |}.

(** The fixture process once a plan with the given target is set. *)
Definition planned (target : float) : Process :=
  {| Orchestrator.self :=
       Orchestrator.set_plan (Some (with_target target Scenarios.alu_plan))
         Fixtures.orchestrator0;
     Orchestrator.world := [];
     Orchestrator.draws := 0 |}.

Definition report_at (overall : float) : CoverageReport :=
  {| cr_base := Fixtures.mk_base "c2" "scoreboard_agent" "orchestrator" None;
     cr_overall_coverage := overall;
     cr_coverage_bins :=
       [("op_add", f_100_0); ("op_sub", f_80_0); ("overflow", f_0_0)];
     cr_uncovered_scenarios := ["overflow"];
     cr_suggestions := [] |}.

End Handlers.

(** * Properties *)

(** ** Dialogue tracker *)

Section DialogueProperties.
Import DialogueManager.

Implicit Types (self mgr : DialogueManager.t) (k : string) (e : DialogueEntry).

(** A correlation id that the guard of [record_response] and
    [record_feedback] lets through. *)
Lemma guard_passes self k e :
  k ≠ "" -> _dialogues self !! k = Some e ->
  negb (truthy (Some k)) || negb (contains self (Some k)) = false.
Proof.
  intros Hk He. unfold truthy, contains.
  rewrite bool_decide_eq_false_2 by done.
  rewrite bool_decide_eq_true_2 by eauto. done.
Qed.

Lemma guard_rejects self cid :
  untracked self cid ->
  negb (truthy cid) || negb (contains self cid) = true.
Proof.
  destruct cid as [k|]; simpl; [|done].
  intros Hk. rewrite Hk.
  rewrite (bool_decide_eq_false_2 (is_Some None)) by (intros [? ?]; done).
  apply orb_true_r.
Qed.

Lemma record_response_tracked self resp k e :
  m_correlation_id (rs_base resp) = Some k -> k ≠ "" ->
  _dialogues self !! k = Some e ->
  record_response self resp =
    (with_dialogues self
       (<[k := set_state AWAITING_REVIEW (set_response resp e)]> (_dialogues self)),
     Some (set_state AWAITING_REVIEW (set_response resp e))).
Proof.
  intros Hc Hk He. unfold record_response. rewrite Hc.
  rewrite (guard_passes self k e) by done.
  unfold getitem. simpl. rewrite He. reflexivity.
Qed.

Lemma record_feedback_tracked self fb k e :
  m_correlation_id (fb_base fb) = Some k -> k ≠ "" ->
  _dialogues self !! k = Some e ->
  record_feedback self fb =
    (with_dialogues self (<[k := after_feedback fb e]> (_dialogues self)),
     Some (after_feedback fb e)).
Proof.
  intros Hc Hk He. unfold record_feedback. rewrite Hc.
  rewrite (guard_passes self k e) by done.
  unfold getitem. simpl. rewrite He. reflexivity.
Qed.

Lemma record_response_untracked self resp :
  untracked self (m_correlation_id (rs_base resp)) ->
  record_response self resp = (self, None).
Proof.
  intros H. unfold record_response. by rewrite guard_rejects.
Qed.

Lemma record_feedback_untracked self fb :
  untracked self (m_correlation_id (fb_base fb)) ->
  record_feedback self fb = (self, None).
Proof.
  intros H. unfold record_feedback. by rewrite guard_rejects.
Qed.

(** The empty string is falsy: a dialogue stored under it is never found
    again by [record_response]. *)
Lemma record_response_empty_id self resp :
  m_correlation_id (rs_base resp) = Some "" ->
  record_response self resp = (self, None).
Proof. intros H. unfold record_response. rewrite H. reflexivity. Qed.

Lemma start_dialogue_lookup self req :
  get_dialogue (start_dialogue self req).1 (m_id (rq_base req))
  = Some (start_dialogue self req).2.
Proof. unfold get_dialogue, start_dialogue. simpl. apply lookup_insert_eq. Qed.

End DialogueProperties.

Section DialogueScenarios.
Import DialogueManager.

(** C1.  Revision cycle with [max_revisions = 2]: for a manager configured
    with two revisions and a request [req] (whose generated id is a
    non-empty string), [start_dialogue] tracks an entry in state
    [IN_PROGRESS] with [revision_count = 0]; [record_response] of a
    response correlated to [req] moves it to [AWAITING_REVIEW]; a first
    rejecting [record_feedback] moves it to [REVISION_REQUESTED] with
    [revision_count = 1]; a second one moves it to [FAILED] with
    [revision_count = 2]. *)
Theorem revision_cycle_two_rejections
    (mgr : DialogueManager.t) (req : PlanRequest) (resp : PlanResponse)
    (fb1 fb2 : ReviewFeedback) :
  _max_revisions mgr = 2 ->
  m_id (rq_base req) ≠ "" ->
  m_correlation_id (rs_base resp) = Some (m_id (rq_base req)) ->
  m_correlation_id (fb_base fb1) = Some (m_id (rq_base req)) ->
  m_correlation_id (fb_base fb2) = Some (m_id (rq_base req)) ->
  fb_approved fb1 = false ->
  fb_approved fb2 = false ->
  let id := m_id (rq_base req) in
  let '(mgr1, e1) := start_dialogue mgr req in
  let '(mgr2, r2) := record_response mgr1 resp in
  let '(mgr3, r3) := record_feedback mgr2 fb1 in
  let '(mgr4, r4) := record_feedback mgr3 fb2 in
  (get_dialogue mgr1 id = Some e1
   /\ state e1 = IN_PROGRESS /\ revision_count e1 = 0)
  /\ (exists e2, r2 = Some e2 /\ get_dialogue mgr2 id = Some e2
      /\ state e2 = AWAITING_REVIEW /\ revision_count e2 = 0)
  /\ (exists e3, r3 = Some e3 /\ get_dialogue mgr3 id = Some e3
      /\ state e3 = REVISION_REQUESTED /\ revision_count e3 = 1)
  /\ (exists e4, r4 = Some e4 /\ get_dialogue mgr4 id = Some e4
      /\ state e4 = FAILED /\ revision_count e4 = 2).
Proof.
  intros Hmax Hid Hresp Hfb1 Hfb2 Hrej1 Hrej2 id.
  destruct (start_dialogue mgr req) as [mgr1 e1] eqn:Hstart.
  unfold start_dialogue in Hstart. injection Hstart as <- <-.
  erewrite record_response_tracked;
    [| exact Hresp | exact Hid | simpl; apply lookup_insert_eq].
  erewrite record_feedback_tracked;
    [| exact Hfb1 | exact Hid | simpl; apply lookup_insert_eq].
  erewrite record_feedback_tracked;
    [| exact Hfb2 | exact Hid | simpl; apply lookup_insert_eq].
  unfold after_feedback, get_dialogue. rewrite Hrej1, Hrej2. simpl.
  rewrite Hmax. simpl.
  repeat split; try apply lookup_insert_eq;
    eexists; (split; [reflexivity|]);
    (split; [apply lookup_insert_eq|]); done.
Qed.

Lemma revision_cycle_two_rejections_witness :
  let mgr := DialogueManager.__init__ 2 in
  let '(mgr1, e1) := start_dialogue mgr Fixtures.req1 in
  let '(mgr2, r2) := record_response mgr1 Fixtures.resp1 in
  let '(mgr3, r3) := record_feedback mgr2 Fixtures.reject1 in
  let '(mgr4, r4) := record_feedback mgr3 Fixtures.reject1 in
  (get_dialogue mgr1 "r1" = Some e1
   /\ state e1 = IN_PROGRESS /\ revision_count e1 = 0)
  /\ (exists e2, r2 = Some e2 /\ get_dialogue mgr2 "r1" = Some e2
      /\ state e2 = AWAITING_REVIEW /\ revision_count e2 = 0)
  /\ (exists e3, r3 = Some e3 /\ get_dialogue mgr3 "r1" = Some e3
      /\ state e3 = REVISION_REQUESTED /\ revision_count e3 = 1)
  /\ (exists e4, r4 = Some e4 /\ get_dialogue mgr4 "r1" = Some e4
      /\ state e4 = FAILED /\ revision_count e4 = 2).
Proof.
  apply (revision_cycle_two_rejections (DialogueManager.__init__ 2)
           Fixtures.req1 Fixtures.resp1 Fixtures.reject1 Fixtures.reject1);
    first [reflexivity | discriminate].
Defined.

End DialogueScenarios.

Section TerminalEntries.
Import DialogueManager.

(** C2, as stated, fails: the entry of "r1" is [FAILED] with
    [revision_count = 2], yet a third rejecting [record_feedback] raises
    [revision_count] to 3, and a further [record_response] moves the entry
    out of [FAILED] to [AWAITING_REVIEW]. *)
Lemma terminal_entry_still_mutates :
  (state <$> get_dialogue Fixtures.failed_mgr "r1" = Some FAILED
   /\ revision_count <$> get_dialogue Fixtures.failed_mgr "r1" = Some 2)
  /\ revision_count
       <$> get_dialogue (record_feedback Fixtures.failed_mgr Fixtures.reject1).1 "r1"
     = Some 3
  /\ state
       <$> get_dialogue (record_response Fixtures.failed_mgr Fixtures.resp1).1 "r1"
     = Some AWAITING_REVIEW.
Proof. vm_compute. repeat split. Qed.

(** C2, amended.  A terminal entry is treated like any other tracked
    entry.  Under a non-empty correlation id, [record_response] stores the
    response in the entry and sets [AWAITING_REVIEW], leaving
    [revision_count] alone; an approving [record_feedback] stores the
    feedback and sets [APPROVED], leaving [revision_count] alone; a
    rejecting [record_feedback] stores the feedback, adds one to
    [revision_count] and sets [FAILED] when the new count has reached
    [max_revisions], otherwise [REVISION_REQUESTED].  Nothing else in the
    entry changes, and the updated entry is the one returned and the one
    tracked afterwards.  An entry tracked under the empty string is never
    found: both calls then return [None] and leave the tracker as it is. *)
Theorem terminal_entry_transitions
    (mgr : DialogueManager.t) (k : string) (e : DialogueEntry) :
  get_dialogue mgr k = Some e ->
  is_terminal (state e) = true ->
  (k ≠ "" ->
   (forall resp, m_correlation_id (rs_base resp) = Some k ->
      exists e', record_response mgr resp
                 = (with_dialogues mgr (<[k := e']> (_dialogues mgr)), Some e')
        /\ get_dialogue (record_response mgr resp).1 k = Some e'
        /\ e' = set_state AWAITING_REVIEW (set_response resp e)
        /\ state e' = AWAITING_REVIEW
        /\ response e' = Some resp
        /\ revision_count e' = revision_count e
        /\ feedback e' = feedback e /\ request e' = request e)
   /\ (forall fb, m_correlation_id (fb_base fb) = Some k ->
         fb_approved fb = true ->
         exists e', record_feedback mgr fb
                    = (with_dialogues mgr (<[k := e']> (_dialogues mgr)), Some e')
           /\ get_dialogue (record_feedback mgr fb).1 k = Some e'
           /\ e' = set_state APPROVED (set_feedback fb e)
           /\ state e' = APPROVED
           /\ feedback e' = Some fb
           /\ revision_count e' = revision_count e
           /\ response e' = response e /\ request e' = request e)
   /\ (forall fb, m_correlation_id (fb_base fb) = Some k ->
         fb_approved fb = false ->
         exists e', record_feedback mgr fb
                    = (with_dialogues mgr (<[k := e']> (_dialogues mgr)), Some e')
           /\ get_dialogue (record_feedback mgr fb).1 k = Some e'
           /\ feedback e' = Some fb
           /\ revision_count e' = revision_count e + 1
           /\ state e' = (if max_revisions e <=? revision_count e + 1
                          then FAILED else REVISION_REQUESTED)
           /\ response e' = response e /\ request e' = request e))
  /\ (k = "" ->
      (forall resp, m_correlation_id (rs_base resp) = Some k ->
         record_response mgr resp = (mgr, None))
      /\ (forall fb, m_correlation_id (fb_base fb) = Some k ->
            record_feedback mgr fb = (mgr, None))).
Proof.
  intros He _. unfold get_dialogue in He. split.
  - intros Hk. split; [|split].
    + intros resp Hc. eexists. split.
      * apply (record_response_tracked mgr resp k e Hc Hk He).
      * rewrite (record_response_tracked mgr resp k e Hc Hk He).
        unfold get_dialogue. simpl. rewrite lookup_insert_eq. done.
    + intros fb Hc Hap. eexists. split.
      * apply (record_feedback_tracked mgr fb k e Hc Hk He).
      * rewrite (record_feedback_tracked mgr fb k e Hc Hk He).
        unfold get_dialogue, after_feedback. simpl. rewrite lookup_insert_eq.
        rewrite Hap. done.
    + intros fb Hc Hap. eexists. split.
      * apply (record_feedback_tracked mgr fb k e Hc Hk He).
      * rewrite (record_feedback_tracked mgr fb k e Hc Hk He).
        unfold get_dialogue, after_feedback. simpl. rewrite lookup_insert_eq.
        rewrite Hap. simpl.
        destruct (max_revisions e <=? revision_count e + 1); done.
  - intros ->. split.
    + intros resp Hc. by apply record_response_empty_id.
    + intros fb Hc. unfold record_feedback. by rewrite Hc.
Qed.

Lemma terminal_entry_transitions_witness :
  exists e', record_feedback Fixtures.failed_mgr Fixtures.reject1
             = (with_dialogues Fixtures.failed_mgr
                  (<["r1" := e']> (_dialogues Fixtures.failed_mgr)), Some e')
    /\ get_dialogue (record_feedback Fixtures.failed_mgr Fixtures.reject1).1 "r1"
       = Some e'
    /\ feedback e' = Some Fixtures.reject1
    /\ revision_count e' = 3
    /\ state e' = FAILED.
Proof.
  destruct (terminal_entry_transitions Fixtures.failed_mgr "r1"
              (default (start_dialogue Fixtures.failed_mgr Fixtures.req1).2
                 (get_dialogue Fixtures.failed_mgr "r1")))
    as [Htracked _]; [reflexivity | reflexivity |].
  destruct Htracked as (_ & _ & Hrej); [discriminate|].
  destruct (Hrej Fixtures.reject1 eq_refl eq_refl)
    as (e' & Hrun & Hget & Hfb & Hcount & Hstate & _).
  exists e'. split; [exact Hrun|]. split; [exact Hget|]. split; [exact Hfb|].
  split; [exact Hcount|exact Hstate].
Defined.

(** C3, as stated, fails: after [record_response] the entry of "r1" is in
    [AWAITING_REVIEW] and holds the response; a second [start_dialogue]
    with the same request returns an entry and puts the dialogue back to
    [IN_PROGRESS] without the response. *)
Lemma start_dialogue_replaces_entry :
  let mgr1 := (start_dialogue (DialogueManager.__init__ 3) Fixtures.req1).1 in
  let mgr2 := (record_response mgr1 Fixtures.resp1).1 in
  let '(mgr3, e3) := start_dialogue mgr2 Fixtures.req1 in
  (state <$> get_dialogue mgr2 "r1" = Some AWAITING_REVIEW
   /\ (response <$> get_dialogue mgr2 "r1") = Some (Some Fixtures.resp1))
  /\ get_dialogue mgr3 "r1" = Some e3
  /\ state e3 = IN_PROGRESS
  /\ response e3 = None.
Proof. vm_compute. repeat split. Qed.

(** C3, amended.  [start_dialogue] never fails: whether or not the id is
    already tracked, it returns a fresh entry ([IN_PROGRESS],
    [revision_count = 0], the given request, no response, no feedback, the
    manager's [max_revisions]) and that entry replaces whatever was tracked
    under the id; entries under other ids are left in place. *)
Theorem start_dialogue_overwrites
    (mgr : DialogueManager.t) (req : PlanRequest) :
  let '(mgr', e) := start_dialogue mgr req in
  get_dialogue mgr' (m_id (rq_base req)) = Some e
  /\ state e = IN_PROGRESS
  /\ revision_count e = 0
  /\ request e = Some req
  /\ response e = None
  /\ feedback e = None
  /\ max_revisions e = _max_revisions mgr
  /\ _max_revisions mgr' = _max_revisions mgr
  /\ (forall k, k ≠ m_id (rq_base req) -> get_dialogue mgr' k = get_dialogue mgr k).
Proof.
  unfold start_dialogue, get_dialogue. simpl.
  repeat split; [apply lookup_insert_eq|].
  intros k Hk. by apply lookup_insert_ne.
Qed.

Lemma start_dialogue_overwrites_witness :
  let mgr2 :=
    (record_response
       (start_dialogue (DialogueManager.__init__ 3) Fixtures.req1).1
       Fixtures.resp1).1 in
  let '(mgr3, e3) := start_dialogue mgr2 Fixtures.req1 in
  get_dialogue mgr3 "r1" = Some e3
  /\ state e3 = IN_PROGRESS
  /\ get_dialogue mgr3 "other" = get_dialogue mgr2 "other".
Proof.
  intros mgr2.
  pose proof (start_dialogue_overwrites mgr2 Fixtures.req1) as H.
  destruct (start_dialogue mgr2 Fixtures.req1) as [mgr3 e3].
  destruct H as (Hget & Hstate & _ & _ & _ & _ & _ & _ & Hother).
  split; [exact Hget|]. split; [exact Hstate|].
  apply Hother. discriminate.
Defined.

(** The approval scenario of the test suite: approving right after the
    response ends the dialogue in [APPROVED] with no revision counted. *)
Example approval_scenario :
  let mgr1 := (start_dialogue (DialogueManager.__init__ 2) Fixtures.req1).1 in
  let mgr2 := (record_response mgr1 Fixtures.resp1).1 in
  let mgr3 := (record_feedback mgr2 Fixtures.approve1).1 in
  state <$> get_dialogue mgr3 "r1" = Some APPROVED
  /\ revision_count <$> get_dialogue mgr3 "r1" = Some 0
  /\ length (get_active_dialogues mgr2) = 1%nat
  /\ get_active_dialogues mgr3 = [].
Proof. vm_compute. repeat split. Qed.

End TerminalEntries.

(** ** Message router *)

Section BusProperties.
Import MessageBus.
Context {Subscriber World : Type} `{!Callbacks Subscriber World}.

Implicit Types (self : MessageBus.t Subscriber) (w : World)
  (message : AgentMessage) (channel : string) (cb : Subscriber).

Lemma subscribers_get_insert self channel c l :
  subscribers_get (with_subscribers self (<[channel := l]> (_subscribers self))) c
  = if decide (channel = c) then l else subscribers_get self c.
Proof.
  unfold subscribers_get. simpl. rewrite lookup_insert.
  destruct (decide (channel = c)); done.
Qed.

Lemma subscribers_get_subscribe self channel cb c :
  subscribers_get (subscribe self channel cb) c
  = if decide (channel = c) then subscribers_get self channel ++ [cb]
    else subscribers_get self c.
Proof. apply subscribers_get_insert. Qed.

Lemma subscribers_get_unsubscribe self channel cb c :
  subscribers_get (unsubscribe self channel cb) c
  = if decide (channel = c)
    then list_remove_first cb (subscribers_get self channel)
    else subscribers_get self c.
Proof.
  unfold unsubscribe. case_bool_decide as Hin.
  - apply subscribers_get_insert.
  - destruct (decide (channel = c)) as [<-|]; [|done].
    symmetry. revert Hin. generalize (subscribers_get self channel).
    induction l as [|y l IH]; [done|].
    intros Hin. simpl. destruct (decide (cb = y)) as [->|Hne].
    + exfalso. apply Hin. left.
    + f_equal. apply IH. intros H. apply Hin. by right.
Qed.

Lemma run_tasks_length (tasks : list Coroutine) w :
  length (run_tasks tasks w).2 = length tasks.
Proof.
  revert w. induction tasks as [|[cb m] tasks IH]; intros w; simpl; [done|].
  destruct (await_callback cb m w) as [w1 o]. specialize (IH w1).
  destruct (run_tasks tasks w1). simpl in *. by rewrite IH.
Qed.

(** [publish] in one piece: the append, then every task awaited, and the
    results of [gather] dropped. *)
Lemma publish_unfold self channel message w :
  publish self channel message w
  = let '(w', os) := run_tasks (publish_tasks self channel message) w in
    {| pub_bus := with_history self (_history self ++ [message]);
       pub_world := w'; pub_result := Ok tt; pub_outcomes := os |}.
Proof.
  unfold publish, gather.
  change (publish_tasks (with_history self (_history self ++ [message]))
            channel message)
    with (publish_tasks self channel message).
  destruct (publish_tasks self channel message) as [|t tasks]; [done|].
  by destruct (run_tasks (t :: tasks) w).
Qed.

End BusProperties.

Section BusRouting.
Import MessageBus.
Context {Subscriber World : Type} `{!Callbacks Subscriber World}.

Implicit Types (self : MessageBus.t Subscriber) (w : World)
  (message : AgentMessage) (channel : string) (cb : Subscriber).



Lemma count_occ_remove_first (l : list Subscriber) cb :
  count_occ Subscriber_eq_dec (list_remove_first cb l) cb
  = Nat.pred (count_occ Subscriber_eq_dec l cb).
Proof.
  induction l as [|y l IH]; [done|]. simpl.
  destruct (decide (cb = y)) as [->|Hne].
  - by destruct (Subscriber_eq_dec y y).
  - simpl. destruct (Subscriber_eq_dec y cb) as [->|]; [done|]. exact IH.
Qed.

Lemma invocations_channel_tasks self channel message cb :
  invocations cb (channel_tasks self channel message)
  = registrations self channel cb.
Proof.
  unfold invocations, registrations, channel_tasks.
  generalize (subscribers_get self channel).
  induction l as [|y l IH]; [done|].
  cbn [fmap list_fmap fst count_occ].
  destruct (Subscriber_eq_dec y cb); [f_equal|]; exact IH.
Qed.

End BusRouting.

(** ** The router on the event loop: how a [publish] runs *)

Section LoopFacts.
Import Loop.
Context {Subscriber World State : Type} `{!Callbacks Subscriber World}.
Context `{!HasBus Subscriber State} `{!Coroutines Subscriber State}.

Implicit Types (tasks : list (task Subscriber State)) (s : State)
  (c : coroutine State) (schedule : list nat).

Lemma contained_hereditary : hereditary (@contained State).
Proof. intros run rest H s. exact (H s). Qed.

Lemma respects_hereditary (R : State -> State -> Prop) : hereditary (respects R).
Proof. intros run rest [_ H] s. exact (H s). Qed.


Lemma spawn_well_behaved (calls : list (Subscriber * AgentMessage)) :
  Forall well_behaved calls ->
  exists tasks, spawn calls = Ok tasks /\ Forall (fun t => contained t.2) tasks.
Proof.
  induction 1 as [|[cb m] calls (c & Hc & Hcont) _ (later & Hlater & Hall)]; simpl.
  - by exists [].
  - simpl in Hc. rewrite Hc, Hlater. exists ((cb, c) :: later).
    split; [done|]. by constructor.
Qed.

Lemma spawn_respects R (calls : list (Subscriber * AgentMessage)) tasks :
  subscribers_respect R ->
  spawn calls = Ok tasks -> Forall (fun t => respects R t.2) tasks.
Proof.
  intros HR. revert tasks.
  induction calls as [|[cb m] calls IH]; intros tasks; simpl.
  - intros [= <-]. constructor.
  - destruct (call_callback cb m) as [c|exc] eqn:Hc; [|done].
    destruct (spawn calls) as [later|exc]; [|done].
    intros [= <-]. constructor; [exact (HR cb m c Hc)|by apply IH].
Qed.

Lemma contained_not_escaped tasks :
  Forall (fun t => contained t.2) tasks -> escaped tasks = None.
Proof.
  induction 1 as [|[cb c] tasks Hc _ IH]; [done|]. simpl in *.
  destruct c as [[| |exc]|run rest]; done.
Qed.


Lemma resume_keeps Q i tasks s :
  hereditary Q ->
  Forall (fun t => Q t.2) tasks -> Forall (fun t => Q t.2) (resume i tasks s).1.
Proof.
  intros HQ Hall. unfold resume.
  destruct (_ !! i) as [[cb [e|run rest]]|] eqn:Hi; try done.
  simpl. apply Forall_insert; [done|]. simpl.
  apply (HQ run rest). exact (Forall_lookup_1 _ _ _ _ Hall Hi).
Qed.

Lemma resume_related R i tasks s :
  Reflexive R ->
  Forall (fun t => respects R t.2) tasks -> R s (resume i tasks s).2.
Proof.
  intros HR Hall. unfold resume.
  destruct (_ !! i) as [[cb [e|run rest]]|] eqn:Hi; try done.
  simpl. destruct (Forall_lookup_1 _ _ _ _ Hall Hi) as [Hrun _]. apply Hrun.
Qed.


Lemma drive_keeps Q schedule tasks s :
  hereditary Q ->
  Forall (fun t => Q t.2) tasks ->
  Forall (fun t => Q t.2) (drive schedule tasks s).1.
Proof.
  intros HQ. revert tasks s.
  induction schedule as [|i later IH]; intros tasks s Hall; [done|].
  simpl. destruct (escaped tasks); [done|].
  destruct (resume i tasks s) as [tasks' s'] eqn:Hres.
  apply IH. replace tasks' with (resume i tasks s).1 by (by rewrite Hres).
  by apply resume_keeps.
Qed.

Lemma drive_related R schedule tasks s :
  PreOrder R ->
  Forall (fun t => respects R t.2) tasks -> R s (drive schedule tasks s).2.
Proof.
  intros HR. revert tasks s.
  induction schedule as [|i later IH]; intros tasks s Hall; [done|].
  simpl. destruct (escaped tasks); [done|].
  destruct (resume i tasks s) as [tasks' s'] eqn:Hres.
  trans s'.
  - replace s' with (resume i tasks s).2 by (by rewrite Hres).
    apply resume_related; [apply _|done].
  - apply IH. replace tasks' with (resume i tasks s).1 by (by rewrite Hres).
    apply resume_keeps; [apply respects_hereditary|done].
Qed.

Lemma finish_task_contained c s :
  contained c -> forall exc, (finish_task c s).1 ≠ Escapes exc.
Proof.
  revert s. induction c as [e|run rest IH]; intros s Hc exc; simpl.
  - by destruct e.
  - apply IH. apply Hc.
Qed.

Lemma finish_task_related R c s :
  PreOrder R -> respects R c -> R s (finish_task c s).2.
Proof.
  intros HR. revert s. induction c as [e|run rest IH]; intros s Hc; simpl; [done|].
  destruct Hc as [Hrun Hrest]. trans (run s); [apply Hrun|]. apply IH, Hrest.
Qed.



Lemma finish_contained tasks s :
  Forall (fun t => contained t.2) tasks -> escaped (finish tasks s).1 = None.
Proof.
  intros Hall. revert s.
  induction Hall as [|[cb c] tasks Hc _ IH]; intros s; [done|]. simpl in *.
  pose proof (finish_task_contained c s Hc) as Hne.
  destruct (finish_task c s) as [e s1].
  destruct e as [| |exc]; simpl in *;
    try (specialize (IH s1); destruct (finish tasks s1) as [later' s2]; done).
  by destruct (Hne exc).
Qed.

Lemma finish_related R tasks s :
  PreOrder R ->
  Forall (fun t => respects R t.2) tasks -> R s (finish tasks s).2.
Proof.
  intros HR Hall. revert s.
  induction Hall as [|[cb c] tasks Hc _ IH]; intros s; [done|]. simpl in *.
  pose proof (finish_task_related R c s HR Hc) as Hstep.
  destruct (finish_task c s) as [e s1]. simpl in *.
  destruct e as [| |exc]; try done;
    specialize (IH s1); destruct (finish tasks s1) as [later' s2];
    simpl in *; by trans s1.
Qed.



Lemma await_all_contained schedule tasks s :
  Forall (fun t => contained t.2) tasks ->
  escaped (await_all schedule tasks s).1 = None.
Proof.
  intros Hall. unfold await_all.
  pose proof (drive_keeps contained schedule tasks s contained_hereditary Hall)
    as Hd.
  destruct (drive schedule tasks s) as [tasks1 s1]. simpl in *.
  rewrite (contained_not_escaped _ Hd). by apply finish_contained.
Qed.

Lemma await_all_related R schedule tasks s :
  PreOrder R ->
  Forall (fun t => respects R t.2) tasks -> R s (await_all schedule tasks s).2.
Proof.
  intros HR Hall. unfold await_all.
  pose proof (drive_keeps (respects R) schedule tasks s
                (respects_hereditary R) Hall) as Hd.
  pose proof (drive_related R schedule tasks s HR Hall) as Hr.
  destruct (drive schedule tasks s) as [tasks1 s1]. simpl in *.
  destruct (escaped tasks1); [done|].
  trans s1; [done|]. by apply finish_related.
Qed.

Lemma await_all_nil schedule s :
  await_all schedule ([] : list (task Subscriber State)) s = ([], s).
Proof.
  unfold await_all.
  assert (Hd : drive schedule ([] : list (task Subscriber State)) s = ([], s)).
  { revert s. induction schedule as [|i later IH]; intros s; [done|]. apply IH. }
  by rewrite Hd.
Qed.

(** [publish] in one piece. *)
Lemma publish_cases schedule channel message s :
  let s0 := recorded message s in
  let calls := MessageBus.publish_tasks (the_bus s) channel message in
  match spawn calls with
  | Raise exc =>
      publish schedule channel message s
      = {| pub_state := s0; pub_result := Raise exc; pub_tasks := [] |}
  | Ok tasks =>
      publish schedule channel message s
      = {| pub_state := (await_all schedule tasks s0).2;
           pub_result := match escaped (await_all schedule tasks s0).1 with
                         | Some exc => Raise exc
                         | None => Ok tt
                         end;
           pub_tasks := (await_all schedule tasks s0).1 |}
  end.
Proof.
  intros s0 calls. unfold publish. fold s0.
  assert (Hcalls : MessageBus.publish_tasks (the_bus s0) channel message = calls).
  { unfold s0, recorded. by rewrite the_bus_with_bus. }
  rewrite Hcalls. destruct (spawn calls) as [[|t tasks]|exc]; [| |done].
  - by rewrite await_all_nil.
  - by destruct (await_all schedule (t :: tasks) s0).
Qed.

Lemma history_kept_preorder : PreOrder (history_kept (State := State)).
Proof.
  split.
  - intros s. unfold history_kept. done.
  - intros s1 s2 s3. unfold history_kept. apply transitivity.
Qed.

Lemma history_same_preorder : PreOrder (history_same (State := State)).
Proof.
  split.
  - by intros s.
  - intros s1 s2 s3 H12 H23. unfold history_same in *. by rewrite H23.
Qed.

Lemma recorded_history message s :
  MessageBus._history (the_bus (recorded message s))
  = MessageBus._history (the_bus s) ++ [message].
Proof. unfold recorded. by rewrite the_bus_with_bus. Qed.

Lemma recorded_publish_tasks channel message m s :
  MessageBus.publish_tasks (the_bus (recorded m s)) channel message
  = MessageBus.publish_tasks (the_bus s) channel message.
Proof. unfold recorded. by rewrite the_bus_with_bus. Qed.

(** What the subscribers of one [publish] leave of the state in which the
    first of them was called. *)
Lemma publish_related R schedule channel message s :
  PreOrder R -> subscribers_respect R ->
  R (recorded message s) (pub_state (publish schedule channel message s)).
Proof.
  intros HR Hsub.
  pose proof (publish_cases schedule channel message s) as Hp. simpl in Hp.
  destruct (spawn _) as [tasks|exc] eqn:Hsp; rewrite Hp; simpl; [|done].
  apply await_all_related; [done|]. by eapply spawn_respects.
Qed.





(** If every subscriber to be called returns a coroutine that stays on the
    event loop, the [publish] call returns. *)
Lemma publish_returns schedule channel message s :
  Forall well_behaved (MessageBus.publish_tasks (the_bus s) channel message) ->
  pub_result (publish schedule channel message s) = Ok tt.
Proof.
  intros Hall.
  pose proof (publish_cases schedule channel message s) as Hp. simpl in Hp.
  destruct (spawn_well_behaved _ Hall) as (tasks & Hsp & Hcont).
  rewrite Hsp in Hp. rewrite Hp. simpl.
  by rewrite (await_all_contained schedule tasks (recorded message s) Hcont).
Qed.

(** What is in the history when the first subscriber is called stays in it
    in front, unless a subscriber removes messages. *)
Lemma publish_kept schedule channel message s :
  subscribers_respect history_kept ->
  (MessageBus._history (the_bus s) ++ [message])
    `prefix_of` MessageBus._history
                  (the_bus (pub_state (publish schedule channel message s))).
Proof.
  intros Hsub. rewrite <- recorded_history.
  exact (publish_related history_kept schedule channel message s
           history_kept_preorder Hsub).
Qed.

(** The history is the one of the first call when the subscribers leave
    it alone. *)
Lemma publish_same schedule channel message s :
  subscribers_respect history_same ->
  MessageBus._history (the_bus (pub_state (publish schedule channel message s)))
  = MessageBus._history (the_bus s) ++ [message].
Proof.
  intros Hsub. rewrite <- recorded_history.
  exact (publish_related history_same schedule channel message s
           history_same_preorder Hsub).
Qed.

End LoopFacts.

Section InertSubscribers.
Context {Subscriber World : Type} `{!Callbacks Subscriber World}.

Local Abbreviation quiet := (Loop.inert (Subscriber := Subscriber) (World := World)).

Implicit Types (self : MessageBus.t Subscriber) (w : World).

(** The subscribers of [MessageBus] leave the bus alone. *)
Lemma inert_leaves_history :
  Loop.subscribers_respect (Coroutines0 := quiet) Loop.history_same.
Proof. intros cb message c [= <-]. by repeat split. Qed.

Lemma inert_well_behaved (calls : list (Subscriber * AgentMessage)) :
  Forall (Loop.well_behaved (Coroutines0 := quiet)) calls.
Proof.
  apply Forall_forall. intros [cb message] _. eexists. split; [reflexivity|].
  simpl. intros s. by destruct (await_callback cb message s.2).2.
Qed.

(** The ending of a task as a result of [gather]. *)
Local Abbreviation ended o :=
  (Loop.Ended (State := MessageBus.t Subscriber * World)
     match o with Returned => Loop.Returns | Raised exc => Loop.Raises exc end).

Lemma finish_inert (calls : list (Subscriber * AgentMessage)) tasks self w :
  Loop.spawn (Coroutines0 := quiet) calls = Ok tasks ->
  Loop.escaped tasks = None
  /\ Loop.finish tasks (self, w)
     = (zip (fst <$> calls) ((fun o => ended o) <$> (MessageBus.run_tasks calls w).2),
        (self, (MessageBus.run_tasks calls w).1)).
Proof.
  revert tasks w. induction calls as [|[cb m] calls IH]; intros tasks w; simpl.
  - by intros [= <-].
  - destruct (Loop.spawn calls) as [later|exc]; [|done].
    intros [= <-]. simpl.
    destruct (await_callback cb m w) as [w1 o] eqn:Hcb.
    destruct (IH later w1 eq_refl) as [Hesc Hfin].
    split; [done|].
    destruct o; simpl; rewrite Hfin;
      by destruct (MessageBus.run_tasks calls w1) as [w2 os].
Qed.

(** [MessageBus.publish] is [Loop.publish] for subscribers that leave the
    bus alone, taken in list order. *)
Lemma publish_inert self channel message w :
  let r := MessageBus.publish self channel message w in
  let r' := Loop.publish (Coroutines0 := quiet) [] channel message (self, w) in
  Loop.pub_state r' = (MessageBus.pub_bus r, MessageBus.pub_world r)
  /\ Loop.pub_result r' = MessageBus.pub_result r
  /\ snd <$> Loop.pub_tasks r' = (fun o => ended o) <$> MessageBus.pub_outcomes r.
Proof.
  intros r r'.
  assert (Hres : Loop.pub_result r' = Ok tt).
  { apply publish_returns, inert_well_behaved. }
  assert (Hold : MessageBus.pub_result r = Ok tt).
  { unfold r. rewrite publish_unfold. by destruct (MessageBus.run_tasks _ w). }
  split; [|split; [by rewrite Hres, Hold|]].
  - unfold r, r'.
    pose proof (publish_cases (Coroutines0 := quiet) [] channel message (self, w))
      as Hp. simpl in Hp.
    destruct (spawn_well_behaved (Coroutines0 := quiet) _
                (inert_well_behaved (MessageBus.publish_tasks self channel message)))
      as (tasks & Hsp & _).
    rewrite Hsp in Hp. rewrite Hp.
    destruct (finish_inert _ tasks
                (MessageBus.with_history self (MessageBus._history self ++ [message]))
                w Hsp) as [Hesc Hfin].
    unfold Loop.await_all. simpl. rewrite Hesc, Hfin.
    rewrite publish_unfold. by destruct (MessageBus.run_tasks _ w).
  - unfold r, r'.
    pose proof (publish_cases (Coroutines0 := quiet) [] channel message (self, w))
      as Hp. simpl in Hp.
    destruct (spawn_well_behaved (Coroutines0 := quiet) _
                (inert_well_behaved (MessageBus.publish_tasks self channel message)))
      as (tasks & Hsp & _).
    rewrite Hsp in Hp. rewrite Hp.
    destruct (finish_inert _ tasks
                (MessageBus.with_history self (MessageBus._history self ++ [message]))
                w Hsp) as [Hesc Hfin].
    unfold Loop.await_all. simpl. rewrite Hesc, Hfin.
    rewrite publish_unfold.
    pose proof (run_tasks_length (MessageBus.publish_tasks self channel message) w)
      as Hlen.
    destruct (MessageBus.run_tasks _ w) as [w' os]. simpl in *.
    apply snd_zip. rewrite !length_fmap. apply Nat.eq_le_incl. exact Hlen.
Qed.

End InertSubscribers.

Section LoopRouting.
Import Loop.
Context {Subscriber World State : Type} `{!Callbacks Subscriber World}.
Context `{!HasBus Subscriber State} `{!Coroutines Subscriber State}.

Implicit Types (s : State) (schedule : list nat) (message : AgentMessage)
  (channel : string) (cb : Subscriber).


Lemma perform_kept (c : MessageBus.call Subscriber) schedule s :
  subscribers_respect history_kept ->
  c ≠ MessageBus.ClearHistory -> history_kept s (perform c schedule s).
Proof.
  intros Hsub Hc. unfold history_kept.
  destruct c; simpl; rewrite ?the_bus_with_bus; try done.
  - unfold MessageBus.unsubscribe. by case_bool_decide.
  - etrans; [|by apply publish_kept]. by apply prefix_app_r.
  - etrans; [|by apply publish_kept]. by apply prefix_app_r.
Qed.

(** C9, amended.  Unless a subscriber removes messages while it runs, every
    call on the router other than [clear_history] leaves the earlier
    history as a prefix of the later one, and so does any sequence of such
    calls: [subscribe], [subscribe_type], [unsubscribe], [history] and
    [get_history_for] leave the history as it is; [publish] and [send]
    put the message at its end before any subscriber is called, and what is
    appended during the call comes after it.  [clear_history] empties the
    history. *)
Theorem history_grows_unless_cleared :
  subscribers_respect history_kept ->
  (forall (c : MessageBus.call Subscriber) schedule s,
     c ≠ MessageBus.ClearHistory -> history_kept s (perform c schedule s))
  /\ (forall (cs : list (MessageBus.call Subscriber * list nat)) s,
        Forall (fun c => c.1 ≠ MessageBus.ClearHistory) cs ->
        MessageBus._history (the_bus s)
          `prefix_of` MessageBus._history (the_bus (perform_all cs s)))
  /\ (forall (c : MessageBus.call Subscriber) schedule s,
        match c with
        | MessageBus.Publish _ message | MessageBus.Send message =>
            (MessageBus._history (the_bus s) ++ [message])
              `prefix_of` MessageBus._history (the_bus (perform c schedule s))
        | MessageBus.ClearHistory =>
            MessageBus._history (the_bus (perform c schedule s)) = []
        | _ =>
            MessageBus._history (the_bus (perform c schedule s))
            = MessageBus._history (the_bus s)
        end).
Proof.
  intros Hsub. split; [|split].
  - intros c schedule s Hc. by apply perform_kept.
  - intros cs. induction cs as [|[c schedule] cs IH]; intros s Hcs; [done|].
    apply Forall_cons in Hcs as [Hc Hcs]. unfold perform_all in *. simpl.
    etrans; [|apply IH; exact Hcs]. by apply perform_kept.
  - intros c schedule s.
    destruct c; simpl; rewrite ?the_bus_with_bus; try done.
    + unfold MessageBus.unsubscribe. by case_bool_decide.
    + by apply publish_kept.
    + by apply publish_kept.
Qed.


End LoopRouting.

(** ** Coordinator workflow *)

(** Float comparisons: [x < y] excludes [x >= y], NaN included. *)
Lemma float_lt_not_ge (x y : float) : float_lt x y = true -> float_ge x y = false.
Proof.
  unfold float_lt, float_ge, SFltb, SFleb, SFcompare.
  destruct x as [sx|sx| |sx mx ex], y as [sy|sy| |sy my ey];
    try destruct sx; try destruct sy; try done.
  - rewrite (Z.compare_antisym ey ex).
    destruct (ey ?= ex) eqn:He; simpl; try done.
    change (Pos.compare_cont Eq my mx) with (Pos.compare my mx).
    change (Pos.compare_cont Eq mx my) with (Pos.compare mx my).
    rewrite (Pos.compare_antisym my mx).
    by destruct (my ?= mx)%positive.
  - rewrite (Z.compare_antisym ey ex).
    destruct (ey ?= ex) eqn:He; simpl; try done.
    change (Pos.compare_cont Eq my mx) with (Pos.compare my mx).
    change (Pos.compare_cont Eq mx my) with (Pos.compare mx my).
    rewrite (Pos.compare_antisym my mx).
    by destruct (my ?= mx)%positive.
Qed.

Section OrchestratorProperties.
Import Orchestrator.
Context {Subscriber World : Type} `{!Callbacks Subscriber World}.
Context `{!Collaborators}.

Implicit Types (p : Orchestrator.process Subscriber World)
  (s : Orchestrator.t Subscriber).

Lemma set_dialogue_mgr_same s : set_dialogue_mgr (dialogue_mgr s) s = s.
Proof. by destruct s. Qed.

Lemma put_self_same p : put_self (self p) p = (Ok tt, p).
Proof. by destruct p. Qed.

Lemma bins_below_full_elem (bins : list (string * float)) (k : string) :
  k ∈ bins_below_full bins
  <-> exists v, (k, v) ∈ bins /\ float_lt v f_100_0 = true.
Proof.
  unfold bins_below_full. rewrite list_elem_of_fmap. split.
  - intros ([k' v] & -> & Hin). exists v.
    apply list_elem_of_In, filter_In in Hin as [Hin Hlt].
    split; [by apply list_elem_of_In|done].
  - intros (v & Hin & Hlt). exists (k, v). split; [done|].
    apply list_elem_of_In, filter_In. split; [by apply list_elem_of_In|done].
Qed.

(** C6.  A response or feedback whose [correlation_id] is [None] or keys
    no tracked dialogue gets no entry and leaves the dialogue map as it
    was; the orchestrator handling such a response returns with the whole
    process unchanged: no review call is added to the conversation and
    nothing is published. *)
Theorem untracked_correlation_is_dropped :
  (forall mgr (resp : PlanResponse),
     DialogueManager.untracked mgr (m_correlation_id (rs_base resp)) ->
     DialogueManager.record_response mgr resp = (mgr, None))
  /\ (forall mgr (fb : ReviewFeedback),
        DialogueManager.untracked mgr (m_correlation_id (fb_base fb)) ->
        DialogueManager.record_feedback mgr fb = (mgr, None))
  /\ (forall p (resp : PlanResponse),
        DialogueManager.untracked (dialogue_mgr (self p))
          (m_correlation_id (rs_base resp)) ->
        _handle_plan_response resp p = (Ok tt, p)
        /\ on_message (MsgPlanResponse resp) p = (Ok tt, p)).
Proof.
  split; [exact record_response_untracked|].
  split; [exact record_feedback_untracked|].
  intros p resp Hun.
  assert (Hdrop : _handle_plan_response resp p = (Ok tt, p)).
  { unfold _handle_plan_response, bind, get_self.
    rewrite (record_response_untracked _ _ Hun).
    rewrite set_dialogue_mgr_same, put_self_same. reflexivity. }
  split; [exact Hdrop|exact Hdrop].
Qed.

(** C7.  When the generation service answers and the answer does not parse
    into plan data, [analyze_dut] does not raise: it returns, and stores
    in [_plan], the default plan named after the DUT spec with the suffix
    "_tb" whose [dut_name] is the spec's module name. *)
Theorem analyze_dut_falls_back p (dut_spec : DUTSpec) (response : string) :
  analyze_dut_call p dut_spec = Ok response ->
  not_a_plan response ->
  exists plan p',
    analyze_dut dut_spec p = (Ok plan, p')
    /\ _plan (self p') = Some plan
    /\ plan_name plan = dut_spec_name dut_spec +:+ "_tb"
    /\ dut_name plan = module_name dut_spec
    /\ plan = TestbenchPlan_of (dut_spec_name dut_spec +:+ "_tb")
                (module_name dut_spec)
                ("Auto-generated testbench for " +:+ dut_spec_name dut_spec).
Proof.
  intros Hcall Hbad. unfold analyze_dut_call in Hcall.
  unfold analyze_dut, call_llm, bind, get_self, put_self, lift, try_except, ret.
  simpl. rewrite Hcall. simpl.
  unfold not_a_plan in Hbad.
  destruct (_extract_json response) as [plan_data|e].
  - destruct Hbad as [e He]. rewrite He. simpl.
    eexists _, _. split; [reflexivity|]. done.
  - eexists _, _. split; [reflexivity|]. done.
Qed.

End OrchestratorProperties.

(** *** The orchestrator on the event loop *)

Section Bystanders.
Context {Subscriber World : Type} `{!Callbacks Subscriber World}.
Context `{!Collaborators}.

Implicit Types (p : Orchestrator.process Subscriber World).

Local Abbreviation aside :=
  (Coordinator.bystanders (Subscriber := Subscriber) (World := World)).

(** The process once the subscribers have brought their state to [w]. *)
Local Abbreviation moved p w :=
  {| Orchestrator.self := Orchestrator.self p; Orchestrator.world := w;
     Orchestrator.draws := Orchestrator.draws p |}.

Lemma bystanders_well_behaved (calls : list (Subscriber * AgentMessage)) :
  Forall (Loop.well_behaved (Coroutines0 := aside)) calls.
Proof.
  apply Forall_forall. intros [cb message] _. eexists. split; [reflexivity|].
  simpl. intros p. by destruct (await_callback cb message _).2.
Qed.

Lemma finish_bystanders (calls : list (Subscriber * AgentMessage)) tasks p :
  Loop.spawn (Coroutines0 := aside) calls = Ok tasks ->
  Loop.escaped tasks = None
  /\ (Loop.finish tasks p).2
     = moved p (MessageBus.run_tasks calls (Orchestrator.world p)).1.
Proof.
  revert tasks p. induction calls as [|[cb m] calls IH]; intros tasks p; simpl.
  - intros [= <-]. by destruct p.
  - destruct (Loop.spawn calls) as [later|exc]; [|done].
    intros [= <-]. simpl.
    destruct (await_callback cb m (Orchestrator.world p)) as [w1 o] eqn:Hcb.
    destruct (IH later (moved p w1) eq_refl) as [Hesc Hfin].
    split; [done|].
    destruct o; simpl;
      destruct (Loop.finish later (moved p w1)) as [later' p2]; simpl in *;
      rewrite Hfin;
      by destruct (MessageBus.run_tasks calls w1) as [w2 os].
Qed.

(** The two [send_message] agree on the subscribers of [Callbacks]. *)
Lemma send_message_bystanders (message : AgentMessage) p :
  Coordinator.send_message (H0 := aside) [] message p
  = Orchestrator.send_message message p.
Proof.
  unfold Coordinator.send_message, Orchestrator.send_message, Loop.send,
    MessageBus.send.
  pose proof (publish_returns (Coroutines0 := aside) [] (recipient message)
                message p (bystanders_well_behaved _)) as Hres.
  pose proof (publish_cases (Coroutines0 := aside) [] (recipient message)
                message p) as Hp. simpl in Hp.
  destruct (spawn_well_behaved (Coroutines0 := aside) _
              (bystanders_well_behaved
                 (MessageBus.publish_tasks (Orchestrator.bus (Orchestrator.self p))
                    (recipient message) message)))
    as (tasks & Hsp & _).
  rewrite Hsp in Hp.
  destruct (finish_bystanders _ tasks (Loop.recorded message p) Hsp)
    as [Hesc Hfin].
  cbv zeta. rewrite Hres. rewrite Hp. unfold Loop.await_all. simpl.
  rewrite Hesc. simpl in Hfin. rewrite Hfin. rewrite publish_unfold.
  by destruct (MessageBus.run_tasks _ (Orchestrator.world p)).
Qed.

(** So do the two embeddings of the methods that publish. *)
Lemma handlers_bystanders :
  (forall (report : CoverageReport) p,
     Coordinator._handle_coverage_report (H0 := aside) [] report p
     = Orchestrator._handle_coverage_report report p)
  /\ (forall (agent_name component_name : string) (spec : list (string * json))
        (instructions : string) p,
        Coordinator.delegate_to_agent (H0 := aside) [] agent_name component_name
          spec instructions p
        = Orchestrator.delegate_to_agent agent_name component_name spec
            instructions p).
Proof.
  split.
  - intros report p.
    unfold Coordinator._handle_coverage_report,
      Orchestrator._handle_coverage_report, Orchestrator.effective_target,
      Orchestrator.bins_below_full, Orchestrator.bind, Orchestrator.get_self,
      Orchestrator.new_base.
    destruct (float_ge _ _); [done|]. apply send_message_bystanders.
  - intros agent_name component_name spec instructions p.
    unfold Coordinator.delegate_to_agent, Orchestrator.delegate_to_agent,
      Orchestrator.bind, Orchestrator.get_self, Orchestrator.new_base,
      Orchestrator.put_self.
    apply send_message_bystanders.
Qed.

End Bystanders.

Section CoordinatorProperties.
Import Orchestrator.
Context {Subscriber World : Type} `{!Callbacks Subscriber World}.
Context `{!Collaborators}.
Context `{!Loop.Coroutines Subscriber (Orchestrator.process Subscriber World)}.

Implicit Types (p : Orchestrator.process Subscriber World)
  (s : Orchestrator.t Subscriber) (schedule : list nat).

Lemma below_full_elem (bins : list (string * float)) (k : string) :
  k ∈ fst <$> List.filter (fun kv => float_lt kv.2 f_100_0) bins
  <-> exists v, (k, v) ∈ bins /\ float_lt v f_100_0 = true.
Proof. apply bins_below_full_elem. Qed.

(** C4.  On a [CoverageReport] whose [overall_coverage] is strictly below
    the coverage target of the plan ([95.0] while no plan is set), the
    orchestrator makes exactly one [publish] call: it sends one
    [CoverageDirective] to "sequence_agent" whose [target_bins] are, in
    the order of the report, exactly the bins with a value strictly below
    [100.0].  The directive ends the history when the first subscriber is
    called, and it is the only message added unless a subscriber publishes
    in turn.  When [overall_coverage] meets or exceeds the target, nothing
    is published and nothing changes. *)
Theorem coverage_report_sends_one_directive schedule p (report : CoverageReport) :
  let target := match _plan (self p) with
                | Some plan => coverage_target plan
                | None => f_95_0
                end in
  let d := {| cd_base :=
                {| m_id := uuid4 (draws p); m_sender := name (self p);
                   m_recipient := "sequence_agent";
                   m_timestamp := utcnow (draws p); m_priority := NORMAL;
                   m_correlation_id := None; m_metadata := [] |};
              cd_target_bins :=
                fst <$> List.filter (fun kv => float_lt kv.2 f_100_0)
                          (cr_coverage_bins report);
              cd_target_scenarios := cr_uncovered_scenarios report;
              cd_constraints := [];
              cd_priority_order := [] |} in
  let r := Loop.publish schedule "sequence_agent" (MsgCoverageDirective d)
             (Coordinator.drawn p) in
  (float_lt (cr_overall_coverage report) target = true ->
   Coordinator._handle_coverage_report schedule report p
   = Coordinator.send_message schedule (MsgCoverageDirective d)
       (Coordinator.drawn p)
   /\ Coordinator._handle_coverage_report schedule report p
      = (Loop.pub_result r, Loop.pub_state r)
   /\ (forall k, k ∈ cd_target_bins d
         <-> exists v, (k, v) ∈ cr_coverage_bins report
                       /\ float_lt v f_100_0 = true)
   /\ MessageBus._history
        (Loop.the_bus (Loop.recorded (MsgCoverageDirective d)
                         (Coordinator.drawn p)))
      = MessageBus._history (bus (self p)) ++ [MsgCoverageDirective d]
   /\ (Loop.subscribers_respect Loop.history_kept ->
       (MessageBus._history (bus (self p)) ++ [MsgCoverageDirective d])
         `prefix_of` MessageBus._history (bus (self (Loop.pub_state r))))
   /\ (Loop.subscribers_respect Loop.history_same ->
       MessageBus._history (bus (self (Loop.pub_state r)))
       = MessageBus._history (bus (self p)) ++ [MsgCoverageDirective d]))
  /\ (float_ge (cr_overall_coverage report) target = true ->
      Coordinator._handle_coverage_report schedule report p = (Ok tt, p)).
Proof.
  intros target d r. split.
  - intros Hlt. apply float_lt_not_ge in Hlt.
    unfold Coordinator._handle_coverage_report, bind, get_self, new_base.
    fold target. rewrite Hlt.
    split; [reflexivity|]. split; [reflexivity|].
    split; [intros k; apply below_full_elem|]. split; [reflexivity|]. split.
    + intros Hsub.
      exact (publish_kept schedule "sequence_agent" _ (Coordinator.drawn p) Hsub).
    + intros Hsub.
      exact (publish_same schedule "sequence_agent" _ (Coordinator.drawn p) Hsub).
  - intros Hge. unfold Coordinator._handle_coverage_report, bind, get_self.
    fold target. by rewrite Hge.
Qed.

End CoordinatorProperties.

(** ** The properties at concrete inputs *)

Section Instances.
Import Fixtures.

Local Abbreviation Log := (list (nat * AgentMessage)).
Local Abbreviation msg := (MsgPlanRequest req1).

(** The bus of three callbacks on channel "ch": 1 raises, 2 and 4 return. *)
Local Abbreviation bus3 :=
  (MessageBus.subscribe
     (MessageBus.subscribe
        (MessageBus.subscribe MessageBus.__init__ "ch" 1%nat) "ch" 2%nat)
     "ch" 4%nat).

Example publish_with_a_raising_callback :
  let r := MessageBus.publish bus3 "ch" msg ([] : Log) in
  MessageBus.pub_result r = Ok tt
  /\ MessageBus.pub_outcomes r = [Raised "RuntimeError"; Returned; Returned]
  /\ MessageBus.pub_world r = [(1%nat, msg); (2%nat, msg); (4%nat, msg)]
  /\ MessageBus.history (MessageBus.pub_bus r) = [msg].
Proof. vm_compute. repeat split. Qed.

(** The bus of the fixture orchestrator: 2 listens on "sequence_agent",
    4 on "env_agent". *)
Local Abbreviation bus2 := (Orchestrator.bus orchestrator0).

Local Abbreviation to_sequence_agent :=
  (MsgCoverageDirective
     (Orchestrator.directive_for orchestrator0 0 report_73_5)).


(** C9, as stated, fails: after one [publish] the history holds the
    message; [clear_history] then removes it, so the earlier history is
    not a prefix of the later one. *)
Lemma clear_history_removes_messages :
  let st0 : MessageBus.t nat * Log := (MessageBus.__init__, []) in
  let st1 := MessageBus.perform (MessageBus.Publish "ch" msg) st0 in
  let st2 := MessageBus.perform MessageBus.ClearHistory st1 in
  MessageBus.history st1.1 = [msg]
  /\ MessageBus.history st2.1 = []
  /\ ~ (MessageBus.history st1.1 `prefix_of` MessageBus.history st2.1).
Proof.
  split; [reflexivity|]. split; [reflexivity|].
  intros [k Hk]. vm_compute in Hk. discriminate Hk.
Qed.

Example coverage_bins_example :
  Orchestrator.bins_below_full
    [("op_add", f_100_0); ("op_sub", f_80_0); ("overflow", f_0_0)]
  = ["op_sub"; "overflow"].
Proof. reflexivity. Qed.

Lemma untracked_correlation_is_dropped_witness :
  DialogueManager.record_response (DialogueManager.__init__ 3) stray
  = (DialogueManager.__init__ 3, None)
  /\ Orchestrator._handle_plan_response stray process0 = (Ok tt, process0).
Proof.
  destruct (@untracked_correlation_is_dropped nat Log _ _)
    as (Hresp & _ & Horch).
  split.
  - apply Hresp. reflexivity.
  - apply (Horch process0 stray). reflexivity.
Defined.

(** A tracked response is reviewed: the orchestrator delegates a component
    to "agent", receives the answer, and, since the review text is not
    JSON, approves.  The bus history then holds the request and the
    feedback, and the dialogue is [APPROVED]. *)
Example tracked_response_is_reviewed :
  let p1 := (Orchestrator.delegate_to_agent "agent" "comp" [] "" process0).2 in
  let '(r, p2) := Orchestrator.on_message (MsgPlanResponse resp_uuid0) p1 in
  r = Ok tt
  /\ message_type <$> MessageBus.history (Orchestrator.bus (Orchestrator.self p2))
     = ["PlanRequest"; "ReviewFeedback"]
  /\ state <$> DialogueManager.get_dialogue
                 (Orchestrator.dialogue_mgr (Orchestrator.self p2)) "uuid-0"
     = Some APPROVED
  /\ length (Orchestrator._conversation (Orchestrator.self p2)) = 2%nat.
Proof. vm_compute. repeat split. Qed.

Example strip_code_fences_example :
  strip_code_fences ("  ```json" +:+ NL +:+ "{}" +:+ NL +:+ "```" +:+ NL) = "{}"
  /\ strip_code_fences "```{}```" = "{}"
  /\ strip_code_fences " {} " = "{}".
Proof. repeat split. Qed.

Lemma analyze_dut_falls_back_witness :
  exists plan p',
    Orchestrator.analyze_dut counter_dut process0 = (Ok plan, p')
    /\ Orchestrator._plan (Orchestrator.self p') = Some plan
    /\ plan_name plan = "counter_tb"
    /\ dut_name plan = "counter".
Proof.
  pose proof (analyze_dut_falls_back process0 counter_dut
                "I am sorry, I cannot do that.") as Hfall.
  destruct (Hfall eq_refl I)
    as (plan & p' & Hrun & Hplan & Hname & Hdut & _).
  exists plan, p'. split; [exact Hrun|]. split; [exact Hplan|].
  split; [exact Hname|exact Hdut].
Defined.

End Instances.

Section LoopInstances.
Import Fixtures Handlers.

Local Abbreviation msg := (MsgPlanRequest req1).

(** A bus with subscribers [cbs] on channel "ch", in this order. *)
Local Abbreviation listening cbs :=
  (fold_left (fun bus cb => MessageBus.subscribe bus "ch" cb) cbs
     (MessageBus.__init__ (Subscriber := nat))).


(** A subscriber that raises [SystemExit] stops the event loop: the
    subscriber registered after it never runs. *)
Example publish_stopped_by_system_exit :
  let r := Loop.publish (Coroutines0 := polite) [] "ch" msg
             (listening [4; 0]%nat, []) in
  Loop.pub_result r = Raise "SystemExit"
  /\ (Loop.pub_state r).2 = [(4%nat, msg)].
Proof. vm_compute. repeat split. Qed.


Local Ltac keeps_history :=
  intros ?; unfold Loop.history_kept, Loop.recorded; simpl;
  first [exact I | reflexivity | by apply prefix_app_r].

Lemma polite_keeps_history :
  Loop.subscribers_respect (Coroutines0 := polite) Loop.history_kept.
Proof.
  intros cb message c Hc.
  destruct cb as [|[|[|[|[|cb]]]]]; simpl in Hc; try discriminate Hc;
    injection Hc as <-.
  - split; keeps_history.
  - split; keeps_history.
  - split; [keeps_history|]. intros _. split; keeps_history.
  - split; keeps_history.
  - exact I.
Qed.

Lemma history_grows_unless_cleared_witness :
  let s : Station := (listening [1; 2; 0]%nat, []) in
  let cs := [(MessageBus.Publish "ch" msg, [1; 0]%nat);
             (MessageBus.Unsubscribe "ch" 1%nat, []);
             (MessageBus.Send msg, []);
             (MessageBus.Publish "ch" msg, [])] in
  let s' := Loop.perform_all (Coroutines0 := polite) cs s in
  MessageBus._history s.1 `prefix_of` MessageBus._history s'.1
  /\ MessageBus._history s'.1 = [msg; answer; msg; msg; answer]
  /\ [msg] `prefix_of`
       MessageBus._history
         (Loop.perform (Coroutines0 := polite) (MessageBus.Publish "ch" msg)
            [1; 0]%nat s).1.
Proof.
  intros s cs s'.
  destruct (history_grows_unless_cleared (Coroutines0 := polite)
              polite_keeps_history) as (_ & Hseq & Hone).
  split; [|split].
  - apply (Hseq cs s). repeat constructor; discriminate.
  - reflexivity.
  - exact (Hone (MessageBus.Publish "ch" msg) [1; 0]%nat s).
Defined.

(** A subscriber that calls [clear_history] removes the message that is
    being delivered to it. *)
Example subscriber_clears_history :
  let s : Station := (listening [5]%nat, []) in
  MessageBus._history
    (Loop.perform (Coroutines0 := rowdy) (MessageBus.Publish "ch" msg) [] s).1
  = [].
Proof. reflexivity. Qed.



End LoopInstances.

Section CoordinatorInstances.
Import Fixtures Handlers.

(** With a plan that asks for full coverage, a report at [95.0] is
    answered by a directive, and the sequence agent answers the directive
    with a proposal that the orchestrator accepts before [send_message]
    returns.  With a plan that asks for [80.0], a report at [80.0] ends
    the closure loop. *)
Lemma coverage_report_sends_one_directive_witness :
  let p : Process := planned f_100_0 in
  let d := Orchestrator.directive_for (H := babbling) (Orchestrator.self p)
             0 (report_at f_95_0) in
  let r := Loop.publish (Coroutines0 := team) [0]%nat "sequence_agent"
             (MsgCoverageDirective d) (Coordinator.drawn p) in
  (Coordinator._handle_coverage_report (H := babbling) (H0 := team)
     [0]%nat (report_at f_95_0) p = (Loop.pub_result r, Loop.pub_state r)
   /\ Loop.pub_result r = Ok tt
   /\ cd_target_bins d = ["op_sub"; "overflow"]
   /\ MessageBus._history
        (Orchestrator.bus (Orchestrator.self (Loop.pub_state r)))
      = [MsgCoverageDirective d; MsgSequenceProposal proposal]
   /\ ca_filename
        <$> Orchestrator._artifacts (Orchestrator.self (Loop.pub_state r))
      = ["sequences/overflow_seq.sv"])
  /\ Coordinator._handle_coverage_report (H := babbling) (H0 := team)
       [0]%nat (report_at f_80_0) (planned f_80_0)
     = (Ok tt, planned f_80_0).
Proof.
  intros p d r. split.
  - destruct (coverage_report_sends_one_directive (H := babbling) (H0 := team)
                [0]%nat p (report_at f_95_0)) as [Hbelow _].
    destruct (Hbelow eq_refl) as (_ & Hrun & _).
    split; [exact Hrun|]. repeat split.
  - destruct (coverage_report_sends_one_directive (H := babbling) (H0 := team)
                [0]%nat (planned f_80_0) (report_at f_80_0)) as [_ Hmet].
    exact (Hmet eq_refl).
Defined.

(** The scenario of the specification: [73.5] against the default target
    of [95.0]. *)
Example coverage_closure_scenario :
  let p : Process := planned f_95_0 in
  let '(result, p') :=
    Coordinator._handle_coverage_report (H := babbling) (H0 := team)
      [] report_73_5 p in
  result = Ok tt
  /\ message_type <$> MessageBus._history (Orchestrator.bus (Orchestrator.self p'))
     = ["CoverageDirective"; "SequenceProposal"]
  /\ Orchestrator.world p' = [(2%nat, MsgCoverageDirective
                                 (Orchestrator.directive_for (H := babbling)
                                    (Orchestrator.self p) 0 report_73_5))].
Proof. vm_compute. repeat split. Qed.

End CoordinatorInstances.


(** * Further properties of the router *)

Section BusHistory.
Import MessageBus.
Context {Subscriber World : Type} `{!Callbacks Subscriber World}.

Implicit Types (self : MessageBus.t Subscriber) (w : World)
  (message : AgentMessage) (channel : string) (cb : Subscriber)
  (st : MessageBus.t Subscriber * World).

Lemma filter_sublist {A} (f : A -> bool) (l : list A) :
  sublist (List.filter f l) l.
Proof.
  induction l as [|x l IH]; simpl; [constructor|].
  destruct (f x); by constructor.
Qed.

End BusHistory.

Section LoopHistory.
Import Loop.
Context {Subscriber World State : Type} `{!Callbacks Subscriber World}.
Context `{!HasBus Subscriber State} `{!Coroutines Subscriber State}.

Implicit Types (s : State) (schedule : list nat)
  (cs : list (MessageBus.call Subscriber * list nat)).

Lemma perform_same (c : MessageBus.call Subscriber) schedule s :
  subscribers_respect history_same ->
  MessageBus._history (the_bus (perform c schedule s))
  = match c with
    | MessageBus.ClearHistory => []
    | _ => MessageBus._history (the_bus s) ++ published_messages [c]
    end.
Proof.
  intros Hsub.
  destruct c; simpl; rewrite ?the_bus_with_bus, ?app_nil_r; try done.
  - unfold MessageBus.unsubscribe. by case_bool_decide.
  - by apply publish_same.
  - by apply publish_same.
Qed.

Lemma published_messages_cons (c : MessageBus.call Subscriber) l :
  published_messages (c :: l) = published_messages [c] ++ published_messages l.
Proof. unfold published_messages. simpl. by destruct c. Qed.

Lemma history_without_clear cs s :
  subscribers_respect history_same ->
  Forall (fun c => c.1 ≠ MessageBus.ClearHistory) cs ->
  MessageBus._history (the_bus (perform_all cs s))
  = MessageBus._history (the_bus s) ++ published_messages (fst <$> cs).
Proof.
  intros Hsub. revert s. induction cs as [|[c schedule] cs IH]; intros s Hcs.
  - simpl. by rewrite app_nil_r.
  - apply Forall_cons in Hcs as [Hc Hcs].
    change (perform_all ((c, schedule) :: cs) s)
      with (perform_all cs (perform c schedule s)).
    rewrite (IH _ Hcs), (perform_same c schedule s Hsub).
    rewrite fmap_cons, published_messages_cons. simpl in Hc.
    destruct c; try done; by rewrite <- app_assoc.
Qed.

(** X1.  The history is the record of what was published, as long as the
    subscribers leave it alone (they neither publish nor clear it): after
    any calls on the router that do not clear it, the history is the earlier
    history followed by the messages handed to [publish] and [send], in call
    order, however the subscribers ended and however the event loop
    interleaved them; and after a [clear_history] it is exactly the messages
    published since. *)
Theorem history_records_publishes cs s :
  subscribers_respect history_same ->
  Forall (fun c => c.1 ≠ MessageBus.ClearHistory) cs ->
  MessageBus._history (the_bus (perform_all cs s))
  = MessageBus._history (the_bus s) ++ published_messages (fst <$> cs)
  /\ length (MessageBus._history (the_bus (perform_all cs s)))
     = (length (MessageBus._history (the_bus s))
        + length (published_messages (fst <$> cs)))%nat
  /\ forall before schedule,
       MessageBus._history
         (the_bus (perform_all
                     (before ++ (MessageBus.ClearHistory, schedule) :: cs) s))
       = published_messages (fst <$> cs).
Proof.
  intros Hsub Hcs. split; [by apply history_without_clear|]. split.
  - by rewrite history_without_clear, length_app.
  - intros before schedule. unfold perform_all. rewrite fold_left_app. simpl.
    fold (perform_all before s).
    set (s1 := with_bus _ _).
    fold (perform_all cs s1).
    rewrite (history_without_clear _ _ Hsub Hcs). unfold s1.
    by rewrite the_bus_with_bus.
Qed.

End LoopHistory.

Section BusSubscriptions.
Import MessageBus.
Context {Subscriber World : Type} `{!Callbacks Subscriber World}.

Implicit Types (self : MessageBus.t Subscriber) (w : World)
  (message : AgentMessage) (channel : string) (cb : Subscriber).

Lemma list_remove_first_app_fresh (l : list Subscriber) cb :
  cb ∉ l -> list_remove_first cb (l ++ [cb]) = l.
Proof.
  induction l as [|y l IH]; intros Hnot; simpl.
  - by rewrite decide_True.
  - apply not_elem_of_cons in Hnot as [Hne Hnot].
    rewrite decide_False by done. f_equal. by apply IH.
Qed.

Lemma count_occ_remove_first_ne (l : list Subscriber) cb cb' :
  cb' ≠ cb ->
  count_occ Subscriber_eq_dec (list_remove_first cb l) cb'
  = count_occ Subscriber_eq_dec l cb'.
Proof.
  intros Hne. induction l as [|y l IH]; [done|]. simpl.
  destruct (decide (cb = y)) as [<-|Hy].
  - destruct (Subscriber_eq_dec cb cb'); [by subst|done].
  - simpl. destruct (Subscriber_eq_dec y cb'); by rewrite IH.
Qed.

(** X3.  [unsubscribe] undoes [subscribe].  Subscribing a callback to a
    channel and unsubscribing it again leaves every callback with the number
    of registrations it had on every channel; when the callback was not
    registered on the channel before, the subscriber lists are back to what
    they were.  Unsubscribing a callback that is not registered on the
    channel, a channel nobody ever subscribed to included, leaves the bus
    as it is. *)
Theorem unsubscribe_undoes_subscribe self channel cb :
  (forall c cb',
     registrations (unsubscribe (subscribe self channel cb) channel cb) c cb'
     = registrations self c cb')
  /\ (cb ∉ subscribers_get self channel ->
      (forall c,
         subscribers_get (unsubscribe (subscribe self channel cb) channel cb) c
         = subscribers_get self c)
      /\ unsubscribe self channel cb = self).
Proof.
  split.
  - intros c cb'. unfold registrations.
    rewrite subscribers_get_unsubscribe, !subscribers_get_subscribe.
    rewrite (decide_True (P := channel = channel)) by done.
    destruct (decide (channel = c)) as [<-|Hc]; [|done].
    destruct (decide (cb' = cb)) as [->|Hne].
    + rewrite count_occ_remove_first, count_occ_app. simpl.
      destruct (Subscriber_eq_dec cb cb); [lia|done].
    + rewrite count_occ_remove_first_ne by done.
      rewrite count_occ_app. simpl.
      destruct (Subscriber_eq_dec cb cb'); [by subst|lia].
  - intros Hnot. split.
    + intros c.
      rewrite subscribers_get_unsubscribe, !subscribers_get_subscribe.
      rewrite (decide_True (P := channel = channel)) by done.
      destruct (decide (channel = c)) as [<-|Hc]; [|done].
      by apply list_remove_first_app_fresh.
    + unfold unsubscribe. by rewrite bool_decide_eq_false_2.
Qed.

(** X4.  Channels are independent: subscribing or unsubscribing on one
    channel changes nothing in what a [publish] on another channel awaits,
    and a type subscription changes nothing in the channel part of any
    [publish]. *)
Theorem other_channels_are_untouched self channel cb (other : string) message :
  channel ≠ other ->
  publish_tasks (subscribe self channel cb) other message
  = publish_tasks self other message
  /\ publish_tasks (unsubscribe self channel cb) other message
     = publish_tasks self other message
  /\ (forall msg_type c,
        channel_tasks (subscribe_type self msg_type cb) c message
        = channel_tasks self c message).
Proof.
  intros Hne. unfold publish_tasks, channel_tasks. split; [|split].
  - rewrite subscribers_get_subscribe, decide_False by done. done.
  - rewrite subscribers_get_unsubscribe, decide_False by done.
    f_equal. unfold unsubscribe. by case_bool_decide.
  - done.
Qed.

Lemma invocations_app cb (t1 t2 : list Coroutine) :
  invocations cb (t1 ++ t2) = (invocations cb t1 + invocations cb t2)%nat.
Proof. unfold invocations. by rewrite fmap_app, count_occ_app. Qed.

Lemma invocations_fmap_pair cb message (l : list Subscriber) :
  invocations cb ((fun cb0 => (cb0, message)) <$> l)
  = count_occ Subscriber_eq_dec l cb.
Proof.
  unfold invocations. induction l as [|y l IH]; [done|].
  cbn [fmap list_fmap fst count_occ].
  destruct (Subscriber_eq_dec y cb); [f_equal|]; exact IH.
Qed.

Lemma type_tasks_cons self message entry d :
  _type_subscribers self = entry :: d ->
  type_tasks self message
  = type_hit message entry ++ flat_map (type_hit message) d.
Proof. intros H. unfold type_tasks. rewrite H. by destruct entry. Qed.

Lemma invocations_assoc_append cb cb' msg_type message
    (d : list (msg_class * list Subscriber)) :
  invocations cb' (flat_map (type_hit message) (assoc_append msg_type cb d))
  = (invocations cb' (flat_map (type_hit message) d)
     + (if isinstance message msg_type && bool_decide (cb' = cb) then 1 else 0))%nat.
Proof.
  assert (Hone : invocations cb' ((fun cb0 => (cb0, message)) <$> [cb])
                 = (if bool_decide (cb' = cb) then 1 else 0)%nat).
  { rewrite invocations_fmap_pair. simpl.
    destruct (Subscriber_eq_dec cb cb') as [->|Hne].
    - by rewrite bool_decide_eq_true_2.
    - rewrite bool_decide_eq_false_2; [done|]. by intros ->. }
  induction d as [|[ty cbs] d IH]; simpl.
  - rewrite app_nil_r. destruct (isinstance message msg_type); simpl.
    + exact Hone.
    + done.
  - destruct (decide (msg_type = ty)) as [->|Hty]; simpl.
    + rewrite !invocations_app.
      destruct (isinstance message ty); simpl.
      * rewrite fmap_app, invocations_app, Hone. lia.
      * lia.
    + rewrite !invocations_app, IH. lia.
Qed.

(** X5.  A type subscription adds exactly one call: after
    [subscribe_type msg_type cb], a [publish] of a message that is an
    instance of [msg_type] awaits [cb] once more than before, on every
    channel; a message of another class is delivered as before, and no other
    callback is affected.  Subscribing to [AgentMessage] itself catches
    every message. *)
Theorem subscribe_type_adds_one_delivery self msg_type cb channel message :
  (forall cb',
     invocations cb' (publish_tasks (subscribe_type self msg_type cb) channel message)
     = (invocations cb' (publish_tasks self channel message)
        + (if isinstance message msg_type && bool_decide (cb' = cb) then 1 else 0))%nat)
  /\ (isinstance message msg_type = true ->
      (cb, message) ∈ publish_tasks (subscribe_type self msg_type cb) channel message)
  /\ isinstance message AgentMessage_cls = true.
Proof.
  split; [|split].
  - intros cb'. unfold publish_tasks. rewrite !invocations_app.
    change (channel_tasks (subscribe_type self msg_type cb) channel message)
      with (channel_tasks self channel message).
    change (type_tasks (subscribe_type self msg_type cb) message)
      with (flat_map (type_hit message)
              (assoc_append msg_type cb (_type_subscribers self))).
    change (type_tasks self message)
      with (flat_map (type_hit message) (_type_subscribers self)).
    rewrite invocations_assoc_append. lia.
  - intros Hinst. unfold publish_tasks. apply elem_of_app. right.
    change (type_tasks (subscribe_type self msg_type cb) message)
      with (flat_map (type_hit message)
              (assoc_append msg_type cb (_type_subscribers self))).
    apply list_elem_of_In, in_flat_map.
    induction (_type_subscribers self) as [|[ty cbs] d IH]; simpl.
    + exists (msg_type, [cb]). split; [by left|].
      unfold type_hit. rewrite Hinst. by left.
    + destruct (decide (msg_type = ty)) as [->|Hty].
      * exists (ty, cbs ++ [cb]). split; [by left|].
        unfold type_hit. rewrite Hinst.
        apply list_elem_of_In, list_elem_of_fmap. exists cb.
        split; [done|]. apply elem_of_app. right. by left.
      * destruct IH as (entry & Hin & Hhit).
        exists entry. split; [by right|done].
  - done.
Qed.

End BusSubscriptions.


(** * Further properties of the dialogue tracker *)

Section DialogueInvariants.
Import DialogueManager.

Implicit Types (mgr : DialogueManager.t) (k : string) (e : DialogueEntry).

Lemma record_response_cases mgr resp :
  record_response mgr resp = (mgr, None)
  \/ exists k e,
       m_correlation_id (rs_base resp) = Some k /\ k ≠ ""
       /\ _dialogues mgr !! k = Some e
       /\ record_response mgr resp
          = (with_dialogues mgr
               (<[k := set_state AWAITING_REVIEW (set_response resp e)]>
                  (_dialogues mgr)),
             Some (set_state AWAITING_REVIEW (set_response resp e))).
Proof.
  destruct (m_correlation_id (rs_base resp)) as [k|] eqn:Hc.
  - destruct (decide (k = "")) as [->|Hk].
    { left. by apply record_response_empty_id. }
    destruct (_dialogues mgr !! k) as [e|] eqn:He.
    + right. exists k, e. repeat split; try done.
      by apply record_response_tracked.
    + left. apply record_response_untracked. by rewrite Hc.
  - left. apply record_response_untracked. by rewrite Hc.
Qed.

Lemma record_feedback_cases mgr fb :
  record_feedback mgr fb = (mgr, None)
  \/ exists k e,
       m_correlation_id (fb_base fb) = Some k /\ k ≠ ""
       /\ _dialogues mgr !! k = Some e
       /\ record_feedback mgr fb
          = (with_dialogues mgr (<[k := after_feedback fb e]> (_dialogues mgr)),
             Some (after_feedback fb e)).
Proof.
  destruct (m_correlation_id (fb_base fb)) as [k|] eqn:Hc.
  - destruct (decide (k = "")) as [->|Hk].
    { left. unfold record_feedback. by rewrite Hc. }
    destruct (_dialogues mgr !! k) as [e|] eqn:He.
    + right. exists k, e. repeat split; try done.
      by apply record_feedback_tracked.
    + left. apply record_feedback_untracked. by rewrite Hc.
  - left. apply record_feedback_untracked. by rewrite Hc.
Qed.

(** Closes the conjuncts of [entry_keyed] and [entry_counted] on an entry
    given by its fields. *)
Local Ltac entry_facts :=
  repeat split; simpl; try done; try lia;
  try (by intros ? [= <-]); try (by eexists).

Lemma fresh_entry_consistent mgr (req : PlanRequest) :
  let e := (start_dialogue mgr req).2 in
  entry_keyed (_max_revisions mgr) (m_id (rq_base req)) e /\ entry_counted e.
Proof. simpl. split; entry_facts. Qed.

Lemma answered_entry_consistent m k e (resp : PlanResponse) :
  m_correlation_id (rs_base resp) = Some k ->
  entry_keyed m k e /\ entry_counted e ->
  let e' := set_state AWAITING_REVIEW (set_response resp e) in
  entry_keyed m k e' /\ entry_counted e'.
Proof.
  intros Hc [(Hid & Hmax & _ & Hreq & _ & Hfb) (Hrc & _)]. simpl.
  split; entry_facts.
Qed.

Lemma reviewed_entry_consistent m k e (fb : ReviewFeedback) :
  m_correlation_id (fb_base fb) = Some k ->
  entry_keyed m k e /\ entry_counted e ->
  entry_keyed m k (after_feedback fb e) /\ entry_counted (after_feedback fb e).
Proof.
  intros Hc [(Hid & Hmax & _ & Hreq & Hresp & _) (Hrc & _)].
  unfold after_feedback. destruct (fb_approved fb) eqn:Hap.
  - split; entry_facts.
  - simpl. destruct (max_revisions e <=? revision_count e + 1) eqn:Hle.
    + apply Z.leb_le in Hle. split; entry_facts.
    + apply Z.leb_gt in Hle. split; entry_facts.
Qed.

Lemma dialogue_step_consistent m mgr (c : dialogue_call) :
  tracker_consistent m mgr -> tracker_consistent m (dialogue_step mgr c).
Proof.
  intros [Hm Hall]. destruct c as [req|resp|fb]; simpl.
  - split; [done|]. intros k e. unfold get_dialogue. simpl.
    rewrite lookup_insert. case_decide as Hk.
    + intros [= <-]. subst k. rewrite <- Hm. apply fresh_entry_consistent.
    + apply Hall.
  - destruct (record_response_cases mgr resp) as [->|(k & e & Hc & _ & He & ->)];
      [done|].
    split; [done|]. intros k' e'. unfold get_dialogue. simpl.
    rewrite lookup_insert. case_decide as Hk.
    + intros [= <-]. subst k'.
      apply (answered_entry_consistent m k e resp Hc). by apply Hall.
    + apply Hall.
  - destruct (record_feedback_cases mgr fb) as [->|(k & e & Hc & _ & He & ->)];
      [done|].
    split; [done|]. intros k' e'. unfold get_dialogue. simpl.
    rewrite lookup_insert. case_decide as Hk.
    + intros [= <-]. subst k'.
      apply (reviewed_entry_consistent m k e fb Hc). by apply Hall.
    + apply Hall.
Qed.

Lemma dialogue_run_consistent m (cs : list dialogue_call) mgr :
  tracker_consistent m mgr -> tracker_consistent m (dialogue_run cs mgr).
Proof.
  revert mgr. induction cs as [|c cs IH]; intros mgr H; [done|].
  apply IH. by apply dialogue_step_consistent.
Qed.

Lemma init_consistent m : tracker_consistent m (DialogueManager.__init__ m).
Proof. split; [done|]. intros k e. unfold get_dialogue. simpl. by rewrite lookup_empty. Qed.

(** X6.  Whatever calls were made on a manager since its construction, an
    entry is stored under its own [correlation_id], carries the manager's
    [max_revisions], is never in state [PENDING], holds the request that
    opened it (whose [id], [sender] and [recipient] are the entry's key,
    requester and responder), and any response or feedback it holds carries
    the entry's key as [correlation_id]. *)
Theorem tracked_entries_are_keyed (m : Z) (cs : list dialogue_call) k e :
  get_dialogue (dialogue_run cs (DialogueManager.__init__ m)) k = Some e ->
  correlation_id e = k
  /\ max_revisions e = m
  /\ state e ≠ PENDING
  /\ (exists req, request e = Some req
        /\ m_id (rq_base req) = k
        /\ requester e = m_sender (rq_base req)
        /\ responder e = m_recipient (rq_base req))
  /\ (forall resp, response e = Some resp ->
        m_correlation_id (rs_base resp) = Some k)
  /\ (forall fb, feedback e = Some fb ->
        m_correlation_id (fb_base fb) = Some k).
Proof.
  intros He.
  destruct (dialogue_run_consistent m cs _ (init_consistent m)) as [_ Hall].
  exact (proj1 (Hall k e He)).
Qed.

(** X7.  Whatever calls were made on a manager since its construction, the
    state of an entry matches its counter and stored messages:
    [revision_count] is never negative; [IN_PROGRESS] entries have no
    response, no feedback and a zero count; [AWAITING_REVIEW] entries hold
    a response; [APPROVED] entries hold an approving feedback;
    [REVISION_REQUESTED] entries hold a rejecting feedback and a count
    strictly between 0 and [max_revisions]; [FAILED] entries hold a
    rejecting feedback and a positive count that has reached
    [max_revisions]. *)
Theorem entry_state_matches_counter (m : Z) (cs : list dialogue_call) k e :
  get_dialogue (dialogue_run cs (DialogueManager.__init__ m)) k = Some e ->
  0 <= revision_count e
  /\ (state e = IN_PROGRESS ->
        revision_count e = 0 /\ response e = None /\ feedback e = None)
  /\ (state e = AWAITING_REVIEW -> is_Some (response e))
  /\ (state e = APPROVED ->
        exists fb, feedback e = Some fb /\ fb_approved fb = true)
  /\ (state e = REVISION_REQUESTED ->
        0 < revision_count e < max_revisions e
        /\ exists fb, feedback e = Some fb /\ fb_approved fb = false)
  /\ (state e = FAILED ->
        0 < revision_count e /\ max_revisions e <= revision_count e
        /\ exists fb, feedback e = Some fb /\ fb_approved fb = false).
Proof.
  intros He.
  destruct (dialogue_run_consistent m cs _ (init_consistent m)) as [_ Hall].
  exact (proj2 (Hall k e He)).
Qed.

(** X8.  A call touches one dialogue only: the entries stored under every
    key other than the one the call names ([request.id] for
    [start_dialogue], [correlation_id] for the other two) are left as they
    are, and so is the configured [max_revisions]. *)
Theorem other_dialogues_are_untouched mgr (c : dialogue_call) k :
  call_key c ≠ Some k ->
  get_dialogue (dialogue_step mgr c) k = get_dialogue mgr k
  /\ _max_revisions (dialogue_step mgr c) = _max_revisions mgr.
Proof.
  intros Hk. destruct c as [req|resp|fb]; simpl in *.
  - unfold get_dialogue. simpl. split; [|done].
    apply lookup_insert_ne. congruence.
  - destruct (record_response_cases mgr resp) as [->|(k' & e & Hc & _ & _ & ->)];
      [done|].
    unfold get_dialogue. simpl. split; [|done].
    apply lookup_insert_ne. congruence.
  - destruct (record_feedback_cases mgr fb) as [->|(k' & e & Hc & _ & _ & ->)];
      [done|].
    unfold get_dialogue. simpl. split; [|done].
    apply lookup_insert_ne. congruence.
Qed.

End DialogueInvariants.

Section DialogueCounting.
Import DialogueManager.

Implicit Types (mgr : DialogueManager.t) (k : string) (e : DialogueEntry).

(** A rejecting feedback for dialogue [k]. *)
Local Abbreviation rejects k :=
  (fun fb : ReviewFeedback =>
     m_correlation_id (fb_base fb) = Some k /\ fb_approved fb = false).

Lemma rejections_accumulate k (fbs : list ReviewFeedback) mgr e :
  k ≠ "" ->
  get_dialogue mgr k = Some e ->
  Forall (rejects k) fbs ->
  exists e',
    get_dialogue (dialogue_run (RecordFeedback <$> fbs) mgr) k = Some e'
    /\ revision_count e' = revision_count e + Z.of_nat (length fbs)
    /\ max_revisions e' = max_revisions e
    /\ (fbs = [] -> e' = e)
    /\ (fbs ≠ [] ->
        state e'
        = (if max_revisions e <=? revision_count e + Z.of_nat (length fbs)
           then FAILED else REVISION_REQUESTED)
        /\ feedback e' = last fbs).
Proof.
  intros Hk. revert mgr e.
  induction fbs as [|fb fbs IH]; intros mgr e He Hall.
  - exists e. simpl. repeat split; try done. lia.
  - apply Forall_cons in Hall as [[Hc Hrej] Hall].
    change (dialogue_run (RecordFeedback <$> fb :: fbs) mgr)
      with (dialogue_run (RecordFeedback <$> fbs) (record_feedback mgr fb).1).
    rewrite (record_feedback_tracked mgr fb k e Hc Hk He). simpl.
    set (e1 := after_feedback fb e).
    assert (He1 : revision_count e1 = revision_count e + 1
                  /\ max_revisions e1 = max_revisions e
                  /\ state e1 = (if max_revisions e <=? revision_count e + 1
                                 then FAILED else REVISION_REQUESTED)
                  /\ feedback e1 = Some fb).
    { unfold e1, after_feedback. rewrite Hrej. simpl.
      by destruct (max_revisions e <=? revision_count e + 1). }
    destruct He1 as (Hrc1 & Hmax1 & Hst1 & Hfb1).
    destruct (IH (with_dialogues mgr (<[k:=e1]> (_dialogues mgr))) e1)
      as (e' & Hget & Hrc & Hmax & Hnil & Hcons);
      [unfold get_dialogue; simpl; apply lookup_insert_eq | done |].
    exists e'. split; [exact Hget|]. split; [|split; [congruence|]].
    { rewrite Hrc, Hrc1. simpl length. lia. }
    split; [done|]. intros _.
    destruct fbs as [|fb' fbs].
    + rewrite (Hnil eq_refl). simpl. by rewrite Hst1, Hfb1.
    + destruct (Hcons ltac:(done)) as [Hst Hlast].
      rewrite Hst, Hlast, Hmax1, Hrc1. split; [|done].
      replace (revision_count e + 1 + Z.of_nat (length (fb' :: fbs)))
        with (revision_count e + Z.of_nat (length (fb :: fb' :: fbs)));
        [done|simpl length; lia].
Qed.

(** X9.  Rejections add up: after [n >= 1] rejecting feedbacks in a row
    for a tracked dialogue, its [revision_count] has grown by [n], the last
    feedback is the one stored, and the state is [FAILED] when the count has
    reached [max_revisions] and [REVISION_REQUESTED] otherwise.  So the
    counter keeps growing past [max_revisions], and a manager configured
    with [max_revisions <= 1] fails a dialogue at its first rejection. *)
Theorem rejections_add_up mgr k e (fbs : list ReviewFeedback) :
  k ≠ "" ->
  get_dialogue mgr k = Some e ->
  Forall (rejects k) fbs ->
  fbs ≠ [] ->
  exists e',
    get_dialogue (dialogue_run (RecordFeedback <$> fbs) mgr) k = Some e'
    /\ revision_count e' = revision_count e + Z.of_nat (length fbs)
    /\ state e'
       = (if max_revisions e <=? revision_count e + Z.of_nat (length fbs)
          then FAILED else REVISION_REQUESTED)
    /\ feedback e' = last fbs.
Proof.
  intros Hk He Hall Hne.
  destruct (rejections_accumulate k fbs mgr e Hk He Hall)
    as (e' & Hget & Hrc & _ & _ & Hcons).
  destruct (Hcons Hne) as [Hst Hlast].
  exists e'. done.
Qed.

Lemma filter_Permutation_bool {A} (f : A -> bool) (l1 l2 : list A) :
  l1 ≡ₚ l2 -> List.filter f l1 ≡ₚ List.filter f l2.
Proof.
  induction 1 as [|x l1 l2 _ IH|x y l|l1 l2 l3 _ IH1 _ IH2]; simpl.
  - done.
  - destruct (f x); [by constructor|done].
  - destruct (f x), (f y); try done. constructor.
  - by etrans.
Qed.

(** Number of entries of [l] that count as active. *)
Local Abbreviation active_in l :=
  (length (List.filter (fun d => negb (is_terminal (state d))) l)).

Lemma active_after_replace mgr k e e' :
  get_dialogue mgr k = Some e ->
  (length (get_active_dialogues
             (with_dialogues mgr (<[k := e']> (_dialogues mgr))))
   + active_in [e]
   = length (get_active_dialogues mgr) + active_in [e'])%nat.
Proof.
  unfold get_dialogue. intros He.
  unfold get_active_dialogues, all_dialogues. simpl.
  pose proof (map_to_list_delete (_dialogues mgr) k e He) as Hold.
  pose proof (map_to_list_insert (delete k (_dialogues mgr)) k e'
                (lookup_delete_eq _ _)) as Hnew.
  rewrite insert_delete_eq in Hnew.
  apply (fmap_Permutation snd) in Hold, Hnew.
  apply (filter_Permutation_bool (fun d => negb (is_terminal (state d))))
    in Hold, Hnew.
  apply Permutation_length in Hold, Hnew.
  rewrite Hnew, <- Hold. simpl.
  destruct (negb (is_terminal (state e))), (negb (is_terminal (state e')));
    simpl; lia.
Qed.

(** X11.  Counting active dialogues.  Starting a dialogue under an id that
    is not tracked adds one active dialogue.  An approving feedback for a
    tracked dialogue that was active removes one.  A response for a tracked
    dialogue leaves the number unchanged when the dialogue was active, and
    adds one when it was [APPROVED] or [FAILED]: the response reopens it. *)
Theorem active_dialogue_count mgr :
  (forall req,
     get_dialogue mgr (m_id (rq_base req)) = None ->
     length (get_active_dialogues (start_dialogue mgr req).1)
     = S (length (get_active_dialogues mgr)))
  /\ (forall fb k e,
        m_correlation_id (fb_base fb) = Some k -> k ≠ "" ->
        get_dialogue mgr k = Some e ->
        is_terminal (state e) = false ->
        fb_approved fb = true ->
        S (length (get_active_dialogues (record_feedback mgr fb).1))
        = length (get_active_dialogues mgr))
  /\ (forall resp k e,
        m_correlation_id (rs_base resp) = Some k -> k ≠ "" ->
        get_dialogue mgr k = Some e ->
        length (get_active_dialogues (record_response mgr resp).1)
        = (length (get_active_dialogues mgr)
           + (if is_terminal (state e) then 1 else 0))%nat).
Proof.
  split; [|split].
  - intros req Hnone. unfold get_dialogue in Hnone.
    unfold get_active_dialogues, all_dialogues, start_dialogue. simpl.
    pose proof (map_to_list_insert (_dialogues mgr) (m_id (rq_base req))
                  (start_dialogue mgr req).2 Hnone) as Hnew.
    apply (fmap_Permutation snd) in Hnew.
    apply (filter_Permutation_bool (fun d => negb (is_terminal (state d))))
      in Hnew.
    apply Permutation_length in Hnew. exact Hnew.
  - intros fb k e Hc Hk He Hact Hap.
    rewrite (record_feedback_tracked mgr fb k e Hc Hk He). simpl.
    pose proof (active_after_replace mgr k e (after_feedback fb e) He) as Hcount.
    unfold after_feedback in Hcount. rewrite Hap in Hcount. simpl in Hcount.
    rewrite Hact in Hcount. simpl in Hcount.
    unfold after_feedback. rewrite Hap. lia.
  - intros resp k e Hc Hk He.
    rewrite (record_response_tracked mgr resp k e Hc Hk He). simpl.
    pose proof (active_after_replace mgr k e
                  (set_state AWAITING_REVIEW (set_response resp e)) He) as Hcount.
    simpl in Hcount. destruct (is_terminal (state e)); simpl in Hcount; lia.
Qed.

End DialogueCounting.


(** * Further properties of the coordinator workflow *)

Section OrchestratorWorkflow.
Import Orchestrator.
Context {Subscriber World : Type} `{!Callbacks Subscriber World}.
Context `{!Collaborators}.

Implicit Types (p : Orchestrator.process Subscriber World)
  (s : Orchestrator.t Subscriber).

(** [call_llm] in one piece. *)
Lemma call_llm_unfold (user_prompt : string) p :
  call_llm user_prompt p
  = match llm_answer (self p) user_prompt with
    | Ok text =>
        (Ok text,
         {| self := set_conversation
                      (_conversation (self p)
                       ++ [("user", user_prompt)] ++ [("assistant", text)])
                      (self p);
            world := world p; draws := draws p |})
    | Raise exc =>
        (Raise exc,
         {| self := set_conversation
                      (_conversation (self p) ++ [("user", user_prompt)])
                      (self p);
            world := world p; draws := draws p |})
    end.
Proof.
  unfold call_llm, llm_answer, bind, get_self, put_self, lift, ret. simpl.
  destruct (messages_create _ _ _) as [text|exc]; [|done].
  simpl. unfold set_conversation. simpl. by rewrite <- app_assoc.
Qed.


(** X13.  [analyze_dut] with a cooperative or a failing generation
    service.  When the answer parses and validates as a plan, that plan is
    returned and stored in [_plan], and the conversation has grown by the
    prompt and the answer.  When the service fails, the exception reaches
    the caller and [_plan] keeps the value it had. *)
Theorem analyze_dut_stores_the_plan p (dut_spec : DUTSpec) :
  (forall response plan_data plan,
     llm_answer (self p) (analyze_dut_prompt dut_spec) = Ok response ->
     _extract_json response = Ok plan_data ->
     TestbenchPlan_validate plan_data = Ok plan ->
     exists p', analyze_dut dut_spec p = (Ok plan, p')
       /\ _plan (self p') = Some plan
       /\ _conversation (self p')
          = _conversation (self p)
            ++ [("user", analyze_dut_prompt dut_spec); ("assistant", response)]
       /\ bus (self p') = bus (self p)
       /\ dialogue_mgr (self p') = dialogue_mgr (self p)
       /\ world p' = world p)
  /\ (forall exc,
        llm_answer (self p) (analyze_dut_prompt dut_spec) = Raise exc ->
        exists p', analyze_dut dut_spec p = (Raise exc, p')
          /\ _plan (self p') = _plan (self p)
          /\ bus (self p') = bus (self p)
          /\ world p' = world p).
Proof.
  split.
  - intros response plan_data plan Hans Hjson Hval.
    unfold analyze_dut, bind. rewrite call_llm_unfold, Hans.
    unfold try_except, bind, lift, ret, get_self, put_self.
    rewrite Hjson, Hval. simpl. eexists. split; [reflexivity|]. done.
  - intros exc Hans.
    unfold analyze_dut, bind. rewrite call_llm_unfold, Hans.
    eexists. split; [reflexivity|]. done.
Qed.

End OrchestratorWorkflow.

Section OrchestratorReactions.
Import Orchestrator.
Context {Subscriber World : Type} `{!Callbacks Subscriber World}.
Context `{!Collaborators}.

Implicit Types (p : Orchestrator.process Subscriber World)
  (s : Orchestrator.t Subscriber).

(** The review step of [_handle_plan_response] on a text that gives no
    JSON object: the [except] branch supplies the defaults. *)
Lemma malformed_review_defaults (review_text : string) p :
  malformed_review review_text ->
  try_except
    (bind (lift (_extract_json review_text)) (fun review_data =>
     bind (lift (json_get review_data "approved" (JBool true))) (fun approved =>
     bind (lift (json_get review_data "issues" (JList []))) (fun issues =>
     bind (lift (json_get review_data "suggestions" (JList []))) (fun suggestions =>
     ret (approved, issues, suggestions))))))
    (fun _ => ret (JBool true, JList [], JList [])) p
  = (Ok (JBool true, JList [], JList []), p).
Proof.
  unfold malformed_review, try_except, bind, lift, ret.
  destruct (_extract_json review_text) as [[| | | | | |items]|exc]; try done.
Qed.

(** X14.  A review that cannot be read approves.  For a response to a
    tracked dialogue, when the generation service answers the review request
    with a text that gives no JSON object, and validation accepts the
    default values, the orchestrator records and publishes an approving
    [ReviewFeedback] with no issues, addressed to the sender of the
    response under the same [correlation_id]; the dialogue ends [APPROVED]
    with its [revision_count] unchanged. *)
Theorem unreadable_review_approves p (resp : PlanResponse) k e
    (review_text : string) :
  m_correlation_id (rs_base resp) = Some k ->
  k ≠ "" ->
  DialogueManager.get_dialogue (dialogue_mgr (self p)) k = Some e ->
  llm_answer (self p) (review_prompt resp) = Ok review_text ->
  malformed_review review_text ->
  validate_bool (JBool true) = Ok true ->
  validate_str_list (JList []) = Ok [] ->
  exists p' e',
    let fb := default_feedback (self p) (draws p) resp in
    _handle_plan_response resp p = (Ok tt, p')
    /\ MessageBus.history (bus (self p'))
       = MessageBus.history (bus (self p)) ++ [MsgReviewFeedback fb]
    /\ recipient (MsgReviewFeedback fb) = m_sender (rs_base resp)
    /\ m_correlation_id (fb_base fb) = Some k
    /\ DialogueManager.get_dialogue (dialogue_mgr (self p')) k = Some e'
    /\ state e' = APPROVED
    /\ revision_count e' = revision_count e
    /\ response e' = Some resp
    /\ feedback e' = Some fb.
Proof.
  intros Hc Hk He Hans Hbad Hbool Hlist.
  unfold DialogueManager.get_dialogue in He.
  unfold _handle_plan_response.
  unfold bind at 1. unfold get_self at 1.
  rewrite (record_response_tracked _ resp k e Hc Hk He).
  unfold bind at 1. unfold put_self at 1.
  unfold bind at 1. rewrite call_llm_unfold. unfold llm_answer in *.
  simpl. rewrite Hans.
  unfold bind at 1. rewrite (malformed_review_defaults _ _ Hbad).
  unfold bind, get_self, new_base, lift, put_self, send_message. simpl.
  rewrite Hbool, Hlist. simpl.
  erewrite record_feedback_tracked;
    [| simpl; exact Hc | exact Hk | simpl; apply lookup_insert_eq].
  unfold MessageBus.send. rewrite publish_unfold.
  destruct (MessageBus.run_tasks _ (world p)) as [w' os]. simpl.
  eexists _, _. split; [reflexivity|]. simpl.
  unfold DialogueManager.get_dialogue. simpl.
  rewrite lookup_insert_eq.
  repeat split; done.
Qed.

(** X15.  A failing review call leaves the dialogue waiting.  For a
    response to a tracked dialogue, when the generation service fails on the
    review request, the exception reaches the caller of
    [_handle_plan_response]; the response has already been recorded, so the
    dialogue stays in [AWAITING_REVIEW] with the response stored, and no
    feedback is recorded or published. *)
Theorem failed_review_leaves_dialogue_waiting p (resp : PlanResponse) k e
    (exc : exn) :
  m_correlation_id (rs_base resp) = Some k ->
  k ≠ "" ->
  DialogueManager.get_dialogue (dialogue_mgr (self p)) k = Some e ->
  llm_answer (self p) (review_prompt resp) = Raise exc ->
  exists p' e',
    _handle_plan_response resp p = (Raise exc, p')
    /\ DialogueManager.get_dialogue (dialogue_mgr (self p')) k = Some e'
    /\ state e' = AWAITING_REVIEW
    /\ response e' = Some resp
    /\ feedback e' = feedback e
    /\ revision_count e' = revision_count e
    /\ bus (self p') = bus (self p)
    /\ world p' = world p.
Proof.
  intros Hc Hk He Hans.
  unfold DialogueManager.get_dialogue in He.
  unfold _handle_plan_response.
  unfold bind at 1. unfold get_self at 1.
  rewrite (record_response_tracked _ resp k e Hc Hk He).
  unfold bind at 1. unfold put_self at 1.
  unfold bind at 1. rewrite call_llm_unfold. unfold llm_answer in *.
  simpl. rewrite Hans.
  eexists _, _. split; [reflexivity|]. simpl.
  unfold DialogueManager.get_dialogue. simpl.
  rewrite lookup_insert_eq. repeat split; done.
Qed.

End OrchestratorReactions.

Section OrchestratorDelegation.
Import Orchestrator.
Context {Subscriber World : Type} `{!Callbacks Subscriber World}.
Context `{!Collaborators}.

Implicit Types (p : Orchestrator.process Subscriber World)
  (s : Orchestrator.t Subscriber).

(** X17.  A [SequenceProposal] is accepted without review.  The
    orchestrator wraps it in a [CodeArtifact] named
    ["sequences/<sequence_name>.sv"], appends the artifact to its list and
    registers the file with the proposed code; no dialogue is touched, the
    generation service is not asked, and nothing is published. *)
Theorem sequence_proposal_is_accepted p (proposal : SequenceProposal) :
  let artifact := proposal_artifact (self p) (draws p) proposal in
  exists p',
    on_message (MsgSequenceProposal proposal) p = (Ok tt, p')
    /\ _artifacts (self p') = _artifacts (self p) ++ [artifact]
    /\ _files (project (self p'))
       !! ("sequences/" +:+ sp_sequence_name proposal +:+ ".sv")
       = Some (sp_sequence_code proposal)
    /\ (forall path,
          path ≠ "sequences/" +:+ sp_sequence_name proposal +:+ ".sv" ->
          _files (project (self p')) !! path = _files (project (self p)) !! path)
    /\ bus (self p') = bus (self p)
    /\ dialogue_mgr (self p') = dialogue_mgr (self p)
    /\ _conversation (self p') = _conversation (self p)
    /\ _plan (self p') = _plan (self p)
    /\ world p' = world p.
Proof.
  intros artifact. simpl.
  unfold _handle_sequence_proposal, accept_artifact, bind, get_self, new_base,
    put_self.
  simpl. eexists. split; [reflexivity|]. simpl.
  repeat split; try done.
  - apply lookup_insert_eq.
  - intros path Hpath. by apply lookup_insert_ne.
Qed.

(** X18.  A [CodeArtifact] is always registered.  The orchestrator appends
    every artifact it receives and registers its content under its
    filename, replacing whatever was registered there: of two artifacts
    with the same filename both are kept in the list and the file holds the
    content of the second, whatever their [overwrite] fields say. *)
Theorem later_artifact_replaces_file p (a1 a2 : CodeArtifact) :
  ca_filename a1 = ca_filename a2 ->
  exists p1 p2,
    on_message (MsgCodeArtifact a1) p = (Ok tt, p1)
    /\ on_message (MsgCodeArtifact a2) p1 = (Ok tt, p2)
    /\ _files (project (self p1)) !! ca_filename a1 = Some (ca_content a1)
    /\ _files (project (self p2)) !! ca_filename a1 = Some (ca_content a2)
    /\ _artifacts (self p2) = _artifacts (self p) ++ [a1; a2]
    /\ (forall path, path ≠ ca_filename a1 ->
          _files (project (self p2)) !! path = _files (project (self p)) !! path)
    /\ bus (self p2) = bus (self p).
Proof.
  intros Hname. simpl.
  unfold accept_artifact, bind, get_self, put_self. simpl.
  eexists _, _. split; [reflexivity|]. split; [reflexivity|]. simpl.
  rewrite <- Hname. repeat split; try done.
  - apply lookup_insert_eq.
  - apply lookup_insert_eq.
  - by rewrite <- app_assoc.
  - intros path Hpath. by rewrite !lookup_insert_ne.
Qed.

End OrchestratorDelegation.

Section CoordinatorDelegation.
Import Orchestrator.
Context {Subscriber World : Type} `{!Callbacks Subscriber World}.
Context `{!Collaborators}.
Context `{!Loop.Coroutines Subscriber (Orchestrator.process Subscriber World)}.

Implicit Types (p : Orchestrator.process Subscriber World)
  (s : Orchestrator.t Subscriber) (schedule : list nat).


End CoordinatorDelegation.


(** * Further properties of [_extract_json] and of the DUT model *)

Section CodeFences.

Lemma rstrip_app_kept (s t : string) :
  t ≠ "" -> rstrip t = t -> rstrip (s +:+ t) = s +:+ t.
Proof.
  intros Hne Ht. induction s as [|c s IH]; [exact Ht|].
  change (String c s +:+ t) with (String c (s +:+ t)).
  cbn [rstrip]. rewrite IH.
  destruct (s +:+ t) eqn:Hst; [|done].
  destruct s; cbn in Hst; [by destruct (Hne Hst)|discriminate Hst].
Qed.

Lemma rstrip_app_dropped (s t : string) :
  rstrip t = "" -> rstrip (s +:+ t) = rstrip s.
Proof.
  intros Ht. induction s as [|c s IH]; [exact Ht|].
  change (String c s +:+ t) with (String c (s +:+ t)).
  cbn [rstrip]. by rewrite IH.
Qed.

Lemma prefix_NL (c : ascii) (r : string) :
  String.prefix NL (String c r) = Ascii.eqb c (ascii_of_nat 10).
Proof.
  unfold NL. cbn [String.prefix].
  destruct (ascii_dec (ascii_of_nat 10) c) as [<-|Hne].
  - rewrite Ascii.eqb_refl. by destruct r.
  - symmetry. apply Ascii.eqb_neq. congruence.
Qed.

Lemma prefix_append (p s : string) : String.prefix p (p +:+ s) = true.
Proof.
  induction p as [|a p IH]; [by destruct s|].
  change (String a p +:+ s) with (String a (p +:+ s)).
  cbn [String.prefix]. by destruct (ascii_dec a a).
Qed.

Lemma find_first_newline (pre rest : string) :
  no_newline pre = true ->
  find (pre +:+ NL +:+ rest) NL = Z.of_nat (String.length pre).
Proof.
  unfold find. intros Hpre.
  assert (Hidx : String.index 0 NL (pre +:+ NL +:+ rest)
                 = Some (String.length pre)).
  { induction pre as [|c pre IH].
    - change ("" +:+ NL +:+ rest) with (String (ascii_of_nat 10) rest).
      cbn [String.index]. by rewrite prefix_NL, Ascii.eqb_refl.
    - simpl in Hpre. apply andb_true_iff in Hpre as [Hc Hpre].
      change ((String c pre) +:+ NL +:+ rest)
        with (String c (pre +:+ NL +:+ rest)).
      cbn [String.index]. rewrite prefix_NL.
      apply negb_true_iff in Hc. rewrite Hc, (IH Hpre). reflexivity. }
  by rewrite Hidx.
Qed.

Lemma drop_chars_app (pre rest : string) :
  drop_chars (String.length pre) (pre +:+ rest) = rest.
Proof. induction pre as [|c pre IH]; [by destruct rest|exact IH]. Qed.

Lemma take_chars_app (pre rest : string) :
  take_chars (String.length pre) (pre +:+ rest) = pre.
Proof.
  induction pre as [|c pre IH]; [by destruct rest|].
  change (String c pre +:+ rest) with (String c (pre +:+ rest)).
  cbn [String.length take_chars]. by rewrite IH.
Qed.

Lemma rfind_from_closing_fence (i : Z) (u : string) :
  0 <= i ->
  rfind_from i (u +:+ FENCE) FENCE = i + Z.of_nat (String.length u).
Proof.
  revert i. induction u as [|c u IH]; intros i Hi.
  - simpl. lia.
  - change ((String c u) +:+ FENCE) with (String c (u +:+ FENCE)).
    cbn [rfind_from]. rewrite IH by lia.
    replace (i + 1 + Z.of_nat (String.length u) =? -1) with false
      by (symmetry; apply Z.eqb_neq; lia).
    cbn [negb String.length]. lia.
Qed.

Lemma append_assoc (a b c : string) : (a +:+ b) +:+ c = a +:+ (b +:+ c).
Proof.
  induction a as [|x a IH]; [done|].
  change (String x a +:+ b) with (String x (a +:+ b)).
  change (String x (a +:+ b) +:+ c) with (String x ((a +:+ b) +:+ c)).
  by rewrite IH.
Qed.

Lemma length_append (a b : string) :
  String.length (a +:+ b) = (String.length a + String.length b)%nat.
Proof.
  induction a as [|x a IH]; [done|].
  change (String x a +:+ b) with (String x (a +:+ b)).
  cbn [String.length]. by rewrite IH.
Qed.

(** X19.  A fenced answer is unwrapped.  For a text made of an opening
    fence with a language tag, a line feed, a body, a line feed and a
    closing fence, the text [_extract_json] hands to [json.loads] is the
    body without its trailing whitespace, whatever the body contains
    (further fences included). *)
Theorem fenced_text_is_unwrapped (lang body : string) :
  no_newline lang = true ->
  strip_code_fences (FENCE +:+ lang +:+ NL +:+ body +:+ NL +:+ FENCE)
  = rstrip body.
Proof.
  intros Hlang.
  set (inner := body +:+ NL +:+ FENCE).
  set (text := FENCE +:+ lang +:+ NL +:+ inner).
  assert (Hstrip : strip text = text).
  { unfold strip.
    change (lstrip text) with text.
    unfold text, inner.
    rewrite <- !append_assoc.
    apply rstrip_app_kept; [by unfold FENCE|reflexivity]. }
  unfold strip_code_fences. rewrite Hstrip.
  replace (startswith text FENCE) with true
    by (symmetry; apply prefix_append).
  cbn iota.
  assert (Hfind : find text NL = Z.of_nat (String.length (FENCE +:+ lang))).
  { unfold text. rewrite <- append_assoc.
    apply find_first_newline. exact Hlang. }
  rewrite Hfind.
  replace (Z.of_nat (String.length (FENCE +:+ lang)) =? -1) with false
    by (symmetry; apply Z.eqb_neq; lia).
  cbn [negb].
  assert (Hslice : slice_from (Z.of_nat (String.length (FENCE +:+ lang)) + 1) text
                   = inner).
  { unfold slice_from.
    replace (Z.to_nat (Z.of_nat (String.length (FENCE +:+ lang)) + 1))
      with (String.length ((FENCE +:+ lang) +:+ NL))
      by (rewrite length_append; simpl; lia).
    unfold text.
    rewrite <- (append_assoc FENCE lang (NL +:+ inner)).
    rewrite <- (append_assoc (FENCE +:+ lang) NL inner).
    apply drop_chars_app. }
  rewrite Hslice.
  assert (Hrfind : rfind inner FENCE = Z.of_nat (String.length (body +:+ NL))).
  { unfold rfind, inner. rewrite <- append_assoc.
    rewrite rfind_from_closing_fence by lia. lia. }
  rewrite Hrfind.
  replace (Z.of_nat (String.length (body +:+ NL)) =? -1) with false
    by (symmetry; apply Z.eqb_neq; lia).
  cbn [negb]. unfold slice_to. rewrite Nat2Z.id.
  unfold inner. rewrite <- append_assoc, take_chars_app.
  by apply rstrip_app_dropped.
Qed.

End CodeFences.

Section DutPorts.

Lemma find_first {A} (f : A -> bool) (l : list A) (x : A) :
  List.find f l = Some x ->
  exists l1 l2, l = l1 ++ x :: l2 /\ f x = true
                /\ Forall (fun y => f y = false) l1.
Proof.
  induction l as [|y l IH]; [done|]. simpl.
  destruct (f y) eqn:Hy.
  - intros [= <-]. exists [], l. by repeat split.
  - intros Hfind. destruct (IH Hfind) as (l1 & l2 & -> & Hx & Hl1).
    exists (y :: l1), l2. repeat split; [done|]. by constructor.
Qed.

Lemma find_none_iff {A} (f : A -> bool) (l : list A) :
  List.find f l = None <-> Forall (fun y => f y = false) l.
Proof.
  induction l as [|y l IH]; simpl.
  - split; [constructor|done].
  - destruct (f y) eqn:Hy.
    + split; [done|]. intros H. apply Forall_cons in H as [H _]. congruence.
    + rewrite IH. split.
      * intros H. by constructor.
      * intros H. by apply Forall_cons in H as [_ H].
Qed.

(** X20.  The derived port lists of a DUT spec.  [clock_port] is the first
    port flagged as clock, and [None] exactly when no port is flagged;
    likewise [reset_port].  [signal_ports] are, in declaration order,
    exactly the ports flagged neither clock nor reset, so a port returned
    by [clock_port] or [reset_port] is never among them. *)
Theorem derived_port_lists (d : DUTSpec) :
  (forall p, clock_port d = Some p ->
     exists before after,
       ports d = before ++ p :: after /\ port_is_clock p = true
       /\ Forall (fun q => port_is_clock q = false) before)
  /\ (clock_port d = None <-> Forall (fun q => port_is_clock q = false) (ports d))
  /\ (forall p, reset_port d = Some p ->
        exists before after,
          ports d = before ++ p :: after /\ port_is_reset p = true
          /\ Forall (fun q => port_is_reset q = false) before)
  /\ (reset_port d = None <-> Forall (fun q => port_is_reset q = false) (ports d))
  /\ sublist (signal_ports d) (ports d)
  /\ (forall p, p ∈ signal_ports d
        <-> p ∈ ports d /\ port_is_clock p = false /\ port_is_reset p = false)
  /\ (forall p, clock_port d = Some p \/ reset_port d = Some p ->
        p ∉ signal_ports d).
Proof.
  assert (Hsig : forall p, p ∈ signal_ports d
            <-> p ∈ ports d /\ port_is_clock p = false /\ port_is_reset p = false).
  { intros p. unfold signal_ports.
    rewrite !list_elem_of_In, filter_In, andb_true_iff, !negb_true_iff. done. }
  split; [intros p; apply find_first|].
  split; [apply find_none_iff|].
  split; [intros p; apply find_first|].
  split; [apply find_none_iff|].
  split; [apply filter_sublist|].
  split; [exact Hsig|].
  intros p [Hp|Hp] Hin; apply Hsig in Hin as (_ & Hc & Hr);
    apply find_first in Hp as (_ & _ & _ & Hflag & _); congruence.
Qed.

End DutPorts.


(** * The further properties at concrete inputs *)

Section MoreInstances.
Import Fixtures Scenarios.

Local Abbreviation Log := (list (nat * AgentMessage)).
Local Abbreviation msg := (MsgPlanRequest req1).
Local Abbreviation fresh_bus := (MessageBus.__init__ (Subscriber := nat)).

Lemma history_records_publishes_witness :
  let s : MessageBus.t nat * Log := (MessageBus.subscribe (MessageBus.subscribe fresh_bus "ch" 1%nat) "ch" 2%nat, []) in
  let cs := [(MessageBus.Publish "ch" msg, [2; 0]%nat);
             (MessageBus.SubscribeType PlanRequest_cls 2%nat, []);
             (MessageBus.Send msg, []);
             (MessageBus.Publish "other" msg, [])] in
  MessageBus._history
    (Loop.perform_all (Coroutines0 := Loop.inert) cs s).1 = [msg; msg; msg]
  /\ length (MessageBus._history
               (Loop.perform_all (Coroutines0 := Loop.inert) cs s).1) = 3%nat.
Proof.
  intros s cs.
  destruct (history_records_publishes (Coroutines0 := Loop.inert) cs s
              inert_leaves_history) as (Hhist & Hlen & _).
  { repeat constructor; discriminate. }
  split; [exact Hhist|exact Hlen].
Defined.

Lemma unsubscribe_undoes_subscribe_witness :
  let self := MessageBus.subscribe fresh_bus "ch" 2%nat in
  MessageBus.subscribers_get
    (MessageBus.unsubscribe (MessageBus.subscribe self "ch" 4%nat) "ch" 4%nat)
    "ch"
  = [2%nat]
  /\ MessageBus.unsubscribe self "ch" 4%nat = self.
Proof.
  intros self.
  destruct (unsubscribe_undoes_subscribe (World := Log) self "ch" 4%nat)
    as [_ Hfresh].
  destruct Hfresh as [Hlists Hnoop].
  { apply (bool_decide_unpack _). vm_compute. exact I. }
  split; [exact (Hlists "ch")|exact Hnoop].
Defined.

Lemma other_channels_are_untouched_witness :
  let self := MessageBus.subscribe fresh_bus "b" 2%nat in
  MessageBus.publish_tasks (MessageBus.subscribe self "a" 4%nat) "b" msg
  = [(2%nat, msg)].
Proof.
  intros self.
  refine (proj1 (other_channels_are_untouched (World := Log)
                   self "a" 4%nat "b" msg _)).
  discriminate.
Defined.

Lemma subscribe_type_adds_one_delivery_witness :
  (4%nat, msg)
  ∈ MessageBus.publish_tasks
      (MessageBus.subscribe_type fresh_bus PlanRequest_cls 4%nat) "nowhere" msg.
Proof.
  exact (proj1 (proj2 (subscribe_type_adds_one_delivery (World := Log)
                         fresh_bus PlanRequest_cls 4%nat "nowhere" msg))
           eq_refl).
Defined.

Local Abbreviation two_rejections :=
  [StartDialogue req1; RecordResponse resp1;
   RecordFeedback reject1; RecordFeedback reject1].

Lemma tracked_entries_are_keyed_witness :
  exists e,
    DialogueManager.get_dialogue
      (dialogue_run two_rejections (DialogueManager.__init__ 2)) "r1" = Some e
    /\ correlation_id e = "r1"
    /\ max_revisions e = 2
    /\ request e = Some req1.
Proof.
  eexists. split; [vm_compute; reflexivity|].
  destruct (tracked_entries_are_keyed 2 two_rejections "r1" _ eq_refl)
    as (Hid & Hmax & _).
  split; [exact Hid|]. split; [exact Hmax|reflexivity].
Defined.

Lemma entry_state_matches_counter_witness :
  exists e,
    DialogueManager.get_dialogue
      (dialogue_run two_rejections (DialogueManager.__init__ 2)) "r1" = Some e
    /\ state e = FAILED
    /\ max_revisions e <= revision_count e.
Proof.
  eexists. split; [vm_compute; reflexivity|].
  destruct (entry_state_matches_counter 2 two_rejections "r1" _ eq_refl)
    as (_ & _ & _ & _ & _ & Hfailed).
  split; [reflexivity|]. exact (proj1 (proj2 (Hfailed eq_refl))).
Defined.

Lemma other_dialogues_are_untouched_witness :
  DialogueManager.get_dialogue
    (dialogue_step failed_mgr (StartDialogue req2)) "r1"
  = DialogueManager.get_dialogue failed_mgr "r1".
Proof.
  refine (proj1 (other_dialogues_are_untouched failed_mgr
                   (StartDialogue req2) "r1" _)).
  discriminate.
Defined.

Lemma rejections_add_up_witness :
  let mgr :=
    dialogue_run [StartDialogue req1; RecordResponse resp1]
      (DialogueManager.__init__ 2) in
  exists e',
    DialogueManager.get_dialogue
      (dialogue_run (RecordFeedback <$> [reject1; reject1; reject1]) mgr) "r1"
    = Some e'
    /\ revision_count e' = 3
    /\ state e' = FAILED.
Proof.
  intros mgr.
  destruct (rejections_add_up mgr "r1"
              (set_state AWAITING_REVIEW
                 (set_response resp1
                    (DialogueManager.start_dialogue
                       (DialogueManager.__init__ 2) req1).2))
              [reject1; reject1; reject1])
    as (e' & Hget & Hrc & Hst & _).
  - discriminate.
  - reflexivity.
  - repeat constructor.
  - discriminate.
  - exists e'. split; [exact Hget|]. split; [exact Hrc|exact Hst].
Defined.

Lemma active_dialogue_count_witness :
  length (DialogueManager.get_active_dialogues
            (DialogueManager.start_dialogue (DialogueManager.__init__ 3) req1).1)
  = 1%nat.
Proof.
  exact (proj1 (active_dialogue_count (DialogueManager.__init__ 3)) req1 eq_refl).
Defined.


Lemma analyze_dut_stores_the_plan_witness :
  exists p',
    Orchestrator.analyze_dut (H := helpful) alu_dut process0 = (Ok alu_plan, p')
    /\ Orchestrator._plan (Orchestrator.self p') = Some alu_plan.
Proof.
  destruct (proj1 (analyze_dut_stores_the_plan (H := helpful) process0 alu_dut)
              "{}" (JDict []) alu_plan eq_refl eq_refl eq_refl)
    as (p' & Hrun & Hplan & _).
  exists p'. split; [exact Hrun|exact Hplan].
Defined.

Lemma unreadable_review_approves_witness :
  exists p' e',
    Orchestrator._handle_plan_response (H := babbling) resp_uuid0 delegated
    = (Ok tt, p')
    /\ DialogueManager.get_dialogue
         (Orchestrator.dialogue_mgr (Orchestrator.self p')) "uuid-0" = Some e'
    /\ state e' = APPROVED.
Proof.
  destruct (unreadable_review_approves (H := babbling) delegated resp_uuid0
              "uuid-0"
              (DialogueManager.start_dialogue (DialogueManager.__init__ 3)
                 (delegated_request (H := babbling) orchestrator0 0
                    "agent" "comp" [] "")).2
              "I am sorry, I cannot do that.")
    as (p' & e' & Hrun & _ & _ & _ & Hget & Hst & _);
    [reflexivity | discriminate | reflexivity | reflexivity | exact I
     | reflexivity | reflexivity |].
  exists p', e'. split; [exact Hrun|]. split; [exact Hget|exact Hst].
Defined.

Lemma failed_review_leaves_dialogue_waiting_witness :
  exists p' e',
    Orchestrator._handle_plan_response (H := silent) resp_uuid0 delegated
    = (Raise "APIConnectionError", p')
    /\ DialogueManager.get_dialogue
         (Orchestrator.dialogue_mgr (Orchestrator.self p')) "uuid-0" = Some e'
    /\ state e' = AWAITING_REVIEW.
Proof.
  destruct (failed_review_leaves_dialogue_waiting (H := silent) delegated
              resp_uuid0 "uuid-0"
              (DialogueManager.start_dialogue (DialogueManager.__init__ 3)
                 (delegated_request (H := babbling) orchestrator0 0
                    "agent" "comp" [] "")).2
              "APIConnectionError")
    as (p' & e' & Hrun & Hget & Hst & _);
    [reflexivity | discriminate | reflexivity | reflexivity |].
  exists p', e'. split; [exact Hrun|]. split; [exact Hget|exact Hst].
Defined.

Lemma later_artifact_replaces_file_witness :
  exists p1 p2,
    Orchestrator.on_message (H := babbling) (MsgCodeArtifact artifact1) process0
    = (Ok tt, p1)
    /\ Orchestrator.on_message (H := babbling) (MsgCodeArtifact artifact2) p1
       = (Ok tt, p2)
    /\ _files (Orchestrator.project (Orchestrator.self p2)) !! "env.sv"
       = Some "class env_v2;"
    /\ ca_overwrite artifact2 = false.
Proof.
  destruct (later_artifact_replaces_file (H := babbling) process0
              artifact1 artifact2 eq_refl)
    as (p1 & p2 & H1 & H2 & _ & Hfile & _).
  exists p1, p2. split; [exact H1|]. split; [exact H2|].
  split; [exact Hfile|reflexivity].
Defined.

Lemma fenced_text_is_unwrapped_witness :
  strip_code_fences (FENCE +:+ "json" +:+ NL +:+ "{} " +:+ NL +:+ FENCE) = "{}".
Proof. exact (fenced_text_is_unwrapped "json" "{} " eq_refl). Defined.

Lemma derived_port_lists_witness :
  clock_port alu_dut = Some (port "clk" INPUT true false)
  /\ (port "clk" INPUT true false ∉ signal_ports alu_dut)
  /\ (port_name <$> signal_ports alu_dut) = ["a"; "y"].
Proof.
  split; [reflexivity|]. split; [|reflexivity].
  destruct (derived_port_lists alu_dut) as (_ & _ & _ & _ & _ & _ & Hnot).
  apply Hnot. left. reflexivity.
Defined.



End MoreInstances.
